(** * moomoo: CPPI policy engine and backtest simulator

    A shallow embedding of [cppi.ts] (class [CPPIEngine]) and of the
    backtesting engine: class [BacktestEngine] from the point where
    [loadData] has filled its two data maps, and the pricing kernel of
    class [MockDataGenerator].

    ** Number model

    The source computes with JavaScript numbers (IEEE-754 doubles).  Here a
    number is an exact rational or one of the three non-finite values
    [Infinity], [-Infinity], [NaN].  Division by zero, [NaN] propagation and
    the comparison rules of JavaScript are modelled; rounding, overflow and
    the sign of zero are not: every finite result is the exact one.

    Where rounding decides a question, module [Binary64] repeats the
    arithmetic over binary64 floating-point numbers, and the statements
    say which of the two they are about. *)

From Stdlib Require Import QArith Qminmax Qround Qabs Lqa ZArith Lia.
From Stdlib Require Import List String Ascii Bool.
From Stdlib Require PrimFloat.
Import ListNotations.

(* ================================================================== *)
(** ** JavaScript numbers *)

Module JS.

Inductive num : Type :=
| Fin (q : Q)
| PInf
| NInf
| NaN.

Declare Scope num_scope.
Delimit Scope num_scope with num.
Bind Scope num_scope with num.

Definition of_Z (z : Z) : num := Fin (inject_Z z).

(** Sign of a rational, as a comparison with zero. *)
Definition sgn (q : Q) : comparison := q ?= 0.

Definition neg (a : num) : num :=
  match a with
  | Fin x => Fin (- x)
  | PInf => NInf
  | NInf => PInf
  | NaN => NaN
  end.

Definition add (a b : num) : num :=
  match a, b with
  | NaN, _ | _, NaN => NaN
  | Fin x, Fin y => Fin (x + y)
  | PInf, NInf | NInf, PInf => NaN
  | PInf, _ | _, PInf => PInf
  | NInf, _ | _, NInf => NInf
  end.

Definition sub (a b : num) : num := add a (neg b).

(** An infinity scaled by the sign of a finite factor. *)
Definition scale_inf (pos : bool) (s : comparison) : num :=
  match s with
  | Eq => NaN
  | Gt => if pos then PInf else NInf
  | Lt => if pos then NInf else PInf
  end.

Definition mul (a b : num) : num :=
  match a, b with
  | NaN, _ | _, NaN => NaN
  | Fin x, Fin y => Fin (x * y)
  | Fin x, PInf | PInf, Fin x => scale_inf true (sgn x)
  | Fin x, NInf | NInf, Fin x => scale_inf false (sgn x)
  | PInf, PInf | NInf, NInf => PInf
  | PInf, NInf | NInf, PInf => NInf
  end.

(** [x / 0] is [NaN] for [x = 0] and an infinity of the sign of [x]
    otherwise (the divisor is taken as [+0]). *)
Definition div (a b : num) : num :=
  match a, b with
  | NaN, _ | _, NaN => NaN
  | Fin x, Fin y =>
      if Qeq_bool y 0 then scale_inf true (sgn x) else Fin (x / y)
  | Fin _, (PInf | NInf) => Fin 0
  | PInf, Fin y => match sgn y with Lt => NInf | _ => PInf end
  | NInf, Fin y => match sgn y with Lt => PInf | _ => NInf end
  | (PInf | NInf), (PInf | NInf) => NaN
  end.

Definition Qltb (x y : Q) : bool :=
  match x ?= y with Lt => true | _ => false end.

(** [a < b]; false as soon as one side is [NaN]. *)
Definition lt (a b : num) : bool :=
  match a, b with
  | NaN, _ | _, NaN => false
  | Fin x, Fin y => Qltb x y
  | NInf, (Fin _ | PInf) => true
  | Fin _, PInf => true
  | _, _ => false
  end.

(** [a === b] on numbers. *)
Definition eqb (a b : num) : bool :=
  match a, b with
  | Fin x, Fin y => Qeq_bool x y
  | PInf, PInf | NInf, NInf => true
  | _, _ => false
  end.

Definition le (a b : num) : bool := lt a b || eqb a b.
Definition gt (a b : num) : bool := lt b a.
Definition ge (a b : num) : bool := le b a.

Definition isNaN (a : num) : bool :=
  match a with NaN => true | _ => false end.

(** [Math.max] and [Math.min] of two arguments. *)
Definition max (a b : num) : num :=
  if isNaN a || isNaN b then NaN else if lt a b then b else a.

Definition min (a b : num) : num :=
  if isNaN a || isNaN b then NaN else if lt b a then b else a.

Definition abs (a : num) : num :=
  match a with
  | Fin x => Fin (Qabs x)
  | PInf | NInf => PInf
  | NaN => NaN
  end.

Definition floor (a : num) : num :=
  match a with
  | Fin x => of_Z (Qfloor x)
  | other => other
  end.

(** Rounding towards zero, and the remainder [a % b], which takes the sign
    of the dividend. *)
Definition trunc (q : Q) : Z :=
  if Qle_bool 0 q then Qfloor q else Qceiling q.

Definition rem (a b : num) : num :=
  match a, b with
  | Fin x, Fin y =>
      if Qeq_bool y 0 then NaN else Fin (x - y * inject_Z (trunc (x / y)))
  | Fin x, (PInf | NInf) => Fin x
  | _, _ => NaN
  end.

(** Truthiness of a number: [0] and [NaN] are falsy. *)
Definition truthy (a : num) : bool :=
  match a with
  | Fin x => negb (Qeq_bool x 0)
  | NaN => false
  | _ => true
  end.

(** [a || b] on numbers. *)
Definition or_else (a b : num) : num := if truthy a then a else b.

Definition finite (a : num) : Prop :=
  match a with Fin _ => True | _ => False end.

(** Same value: rationals up to [==], the other values by name. *)
Definition same (a b : num) : Prop :=
  match a, b with
  | Fin x, Fin y => x == y
  | PInf, PInf | NInf, NInf | NaN, NaN => True
  | _, _ => False
  end.

End JS.

Import JS.

Notation "a + b" := (JS.add a b) : num_scope.
Notation "a - b" := (JS.sub a b) : num_scope.
Notation "a * b" := (JS.mul a b) : num_scope.
Notation "a / b" := (JS.div a b) : num_scope.
Notation "- a" := (JS.neg a) : num_scope.
Notation "a <? b" := (JS.lt a b) (at level 70) : num_scope.
Notation "a <=? b" := (JS.le a b) (at level 70) : num_scope.
Notation "a >? b" := (JS.gt a b) (at level 70) : num_scope.
Notation "a >=? b" := (JS.ge a b) (at level 70) : num_scope.
Notation "a === b" := (JS.eqb a b) (at level 70) : num_scope.
Notation "a =~ b" := (JS.same a b) (at level 70) : num_scope.

(** Decimal literal [n / d]. *)
Definition dec (n : Z) (d : positive) : num := Fin (n # d).
Coercion JS.Fin : Q >-> num.

Local Open Scope num_scope.

(* ================================================================== *)
(** ** cppi.ts: the CPPI policy engine *)

Module CPPI.

Record RiskySplit := mkRiskySplit {
  split_debit : num;
  split_credit : num;
  split_straddle : num;
  hedgeFixed : num
}.

Record BaseRiskPct := mkBaseRiskPct {
  risk_debit : num;
  risk_credit : num;
  risk_straddle : num;
  risk_hedge : num
}.

Record MinTickets := mkMinTickets {
  ticket_debit : num;
  creditMaxLoss : num;
  ticket_straddle : num;
  ticket_hedge : num
}.

Record CPPIConfig := mkCPPIConfig {
  floorPct : num;
  cppiM : num;
  riskScaleOptions : num;
  riskySplit : RiskySplit;
  driftBandAbs : num;
  rebalanceEveryWeeks : num;
  weeklyDeposit : num;
  baseRiskPct : BaseRiskPct;
  minTickets : MinTickets
}.

Record SleeveWeights := mkWeights {
  debit : num;
  credit : num;
  straddle : num;
  collar : num;
  hedge : num
}.

Record SleeveEquities := mkEquities {
  eq_debit : num;
  eq_credit : num;
  eq_straddle : num;
  eq_collar : num;
  eq_hedge : num;
  total : num
}.

Record CPPIMetrics := mkMetrics {
  investedToDate : num;
  floor : num;
  cushion : num;
  riskyWeight : num;
  targetWeights : SleeveWeights;
  currentWeights : SleeveWeights;
  needsRebalance : bool;
  weeksSinceStart : num
}.

(** A [Date] is its time value, in milliseconds since the epoch. *)
Definition Date := Z.
Definition getTime (d : Date) : num := of_Z d.

(** The engine object: its configuration, its start date and the one
    mutable field. *)
Record CPPIEngine := mkEngine {
  config : CPPIConfig;
  startDate : Date;
  lastRebalanceWeek : num
}.

Definition msPerWeek : num := of_Z (7 * 24 * 60 * 60 * 1000).

Section Engine.

Variable this : CPPIEngine.

Definition getWeeksSinceStart (currentDate : Date) : num :=
  JS.floor ((getTime currentDate - getTime (startDate this)) / msPerWeek).

Definition computeInvestedToDate (currentDate : Date) : num :=
  let weeksSinceStart := getWeeksSinceStart currentDate in
  of_Z 10000 + weeklyDeposit (config this) * weeksSinceStart.

Definition computeTargetWeights (riskyWeight : num) : SleeveWeights :=
  let split := riskySplit (config this) in
  let riskyDebit := riskyWeight * split_debit split in
  let riskyCredit := riskyWeight * split_credit split in
  let riskyStraddle := riskyWeight * split_straddle split in
  let fixedHedge := hedgeFixed split in
  let collar :=
    JS.max (of_Z 0)
      (of_Z 1 - riskyDebit - riskyCredit - riskyStraddle - fixedHedge) in
  {| debit := riskyDebit;
     credit := riskyCredit;
     straddle := riskyStraddle;
     collar := collar;
     hedge := fixedHedge |}.

Definition computeCurrentWeights (sleeveEquities : SleeveEquities)
  : SleeveWeights :=
  if total sleeveEquities <=? of_Z 0 then
    {| debit := of_Z 0; credit := of_Z 0; straddle := of_Z 0;
       collar := of_Z 0; hedge := of_Z 0 |}
  else
    {| debit := eq_debit sleeveEquities / total sleeveEquities;
       credit := eq_credit sleeveEquities / total sleeveEquities;
       straddle := eq_straddle sleeveEquities / total sleeveEquities;
       collar := eq_collar sleeveEquities / total sleeveEquities;
       hedge := eq_hedge sleeveEquities / total sleeveEquities |}.

(** The five sleeves, in the order the source walks them. *)
Definition sleeves : list (SleeveWeights -> num) :=
  [debit; credit; straddle; collar; hedge].

Definition shouldRebalance (targetWeights currentWeights : SleeveWeights)
    (weeksSinceStart : num) : bool :=
  if weeksSinceStart
       <? lastRebalanceWeek this + rebalanceEveryWeeks (config this)
  then false
  else
    existsb
      (fun sleeve =>
         JS.abs (sleeve currentWeights - sleeve targetWeights)
           >? driftBandAbs (config this))
      sleeves.

Definition computeCPPIMetrics (sleeveEquities : SleeveEquities)
    (currentDate : Date) : CPPIMetrics :=
  let weeksSinceStart := getWeeksSinceStart currentDate in
  let investedToDate := computeInvestedToDate currentDate in
  let floor := floorPct (config this) * investedToDate in
  let cushion := JS.max (total sleeveEquities - floor) (of_Z 0) in
  let riskyWeight :=
    JS.min (cppiM (config this) * cushion / total sleeveEquities) (of_Z 1) in
  let targetWeights := computeTargetWeights riskyWeight in
  let currentWeights := computeCurrentWeights sleeveEquities in
  let needsRebalance :=
    shouldRebalance targetWeights currentWeights weeksSinceStart in
  {| investedToDate := investedToDate;
     floor := floor;
     cushion := cushion;
     riskyWeight := riskyWeight;
     targetWeights := targetWeights;
     currentWeights := currentWeights;
     needsRebalance := needsRebalance;
     weeksSinceStart := weeksSinceStart |}.

(** [allocation = shortfalls] aliases the shortfall object; the [+=]
    updates that follow read the shortfall and write the sum back. *)
Definition computeContributionsAllocation (targetWeights : SleeveWeights)
    (currentEquities : SleeveEquities) (weeklyDeposit : num) : SleeveWeights :=
  let targetTotalAfterDeposit := total currentEquities + weeklyDeposit in
  let targetDollars :=
    {| debit := debit targetWeights * targetTotalAfterDeposit;
       credit := credit targetWeights * targetTotalAfterDeposit;
       straddle := straddle targetWeights * targetTotalAfterDeposit;
       collar := collar targetWeights * targetTotalAfterDeposit;
       hedge := hedge targetWeights * targetTotalAfterDeposit |} in
  let shortfalls :=
    {| debit :=
         JS.max (of_Z 0) (debit targetDollars - eq_debit currentEquities);
       credit :=
         JS.max (of_Z 0) (credit targetDollars - eq_credit currentEquities);
       straddle :=
         JS.max (of_Z 0) (straddle targetDollars - eq_straddle currentEquities);
       collar :=
         JS.max (of_Z 0) (collar targetDollars - eq_collar currentEquities);
       hedge :=
         JS.max (of_Z 0) (hedge targetDollars - eq_hedge currentEquities) |} in
  let totalShortfall :=
    debit shortfalls + credit shortfalls + straddle shortfalls
    + collar shortfalls + hedge shortfalls in
  if totalShortfall <=? weeklyDeposit then
    let remaining := weeklyDeposit - totalShortfall in
    if remaining >? of_Z 0 then
      let totalTarget :=
        debit targetWeights + credit targetWeights + straddle targetWeights
        + collar targetWeights + hedge targetWeights in
      {| debit :=
           debit shortfalls + remaining * (debit targetWeights / totalTarget);
         credit :=
           credit shortfalls + remaining * (credit targetWeights / totalTarget);
         straddle :=
           straddle shortfalls
           + remaining * (straddle targetWeights / totalTarget);
         collar :=
           collar shortfalls + remaining * (collar targetWeights / totalTarget);
         hedge :=
           hedge shortfalls + remaining * (hedge targetWeights / totalTarget) |}
    else shortfalls
  else
    let scaleFactor := weeklyDeposit / totalShortfall in
    {| debit := debit shortfalls * scaleFactor;
       credit := credit shortfalls * scaleFactor;
       straddle := straddle shortfalls * scaleFactor;
       collar := collar shortfalls * scaleFactor;
       hedge := hedge shortfalls * scaleFactor |}.

(** The keys of [SleeveWeights], and the two cadences. *)
Inductive Sleeve := Debit | Credit | Straddle | Collar | Hedge.
Inductive Cadence := weekly | monthly.

(** [this.config.baseRiskPct[sleeveType] || 0]: the table has no entry
    for the collar. *)
Definition baseRiskPctOf (sleeveType : Sleeve) : num :=
  let table := baseRiskPct (config this) in
  JS.or_else
    (match sleeveType with
     | Debit => risk_debit table
     | Credit => risk_credit table
     | Straddle => risk_straddle table
     | Hedge => risk_hedge table
     | Collar => NaN
     end)
    (of_Z 0).

Definition getMinTicket (sleeveType : Sleeve) : num :=
  match sleeveType with
  | Debit => ticket_debit (minTickets (config this))
  | Credit => creditMaxLoss (minTickets (config this))
  | Straddle => ticket_straddle (minTickets (config this))
  | Hedge => ticket_hedge (minTickets (config this))
  | Collar => of_Z 0
  end.

Definition computeRiskBudget (sleeveType : Sleeve) (sleeveEquity : num)
    (cadence : Cadence) : num :=
  let baseRiskPct := baseRiskPctOf sleeveType in
  let riskScale :=
    match sleeveType with
    | Collar => of_Z 1
    | _ => riskScaleOptions (config this)
    end in
  let budget := sleeveEquity * baseRiskPct * riskScale in
  let budget :=
    match cadence with
    | monthly => budget * of_Z 4
    | weekly => budget
    end in
  JS.max budget (getMinTicket sleeveType).

(** [executeRebalance] writes the one mutable field. *)
Definition executeRebalance (weeksSinceStart : num) : CPPIEngine :=
  {| config := config this;
     startDate := startDate this;
     lastRebalanceWeek := weeksSinceStart |}.

Definition shouldPlaceStraddleThisWeek (weeksSinceStart : num) : bool :=
  JS.rem weeksSinceStart (of_Z 4) === of_Z 0.

End Engine.

(** Sum of the five sleeves of a weight (or dollar) record. *)
Definition sumWeights (w : SleeveWeights) : num :=
  debit w + credit w + straddle w + collar w + hedge w.

Definition createDefaultCPPIConfig : CPPIConfig :=
  {| floorPct := dec 85 100;
     cppiM := of_Z 4;
     riskScaleOptions := dec 125 100;
     riskySplit :=
       {| split_debit := dec 60 100; split_credit := dec 15 100;
          split_straddle := dec 25 100; hedgeFixed := dec 2 100 |};
     driftBandAbs := dec 10 100;
     rebalanceEveryWeeks := of_Z 4;
     weeklyDeposit := of_Z 50;
     baseRiskPct :=
       {| risk_debit := dec 6 100; risk_credit := dec 2 100;
          risk_straddle := dec 4 100; risk_hedge := dec 1 100 |};
     minTickets :=
       {| ticket_debit := of_Z 30; creditMaxLoss := of_Z 100;
          ticket_straddle := of_Z 50; ticket_hedge := of_Z 5 |} |}.

End CPPI.

(* ================================================================== *)
(** ** The weekly deposit step of the CPPI bot *)

Module Bot.

Import CPPI.

Record PortfolioState := mkState {
  sleeveEquities : SleeveEquities;
  cppiMetrics : CPPIMetrics;
  lastUpdateTime : Date
}.

(** [shouldAllocateWeeklyDeposit], with the clock reading [now]. *)
Definition shouldAllocateWeeklyDeposit (now lastUpdate : Date) : bool :=
  let daysSinceUpdate :=
    (getTime now - getTime lastUpdate) / of_Z (1000 * 3600 * 24) in
  daysSinceUpdate >=? of_Z 7.

(** [allocateWeeklyDeposit]: the allocation is computed from the target
    weights stored in the state, added sleeve by sleeve, the deposit is
    added to the total, and the metrics are recomputed at [now]. *)
Definition allocateWeeklyDeposit (cppiEngine : CPPIEngine) (now : Date)
    (portfolioState : PortfolioState) : PortfolioState :=
  let deposit := weeklyDeposit (config cppiEngine) in
  let equities := sleeveEquities portfolioState in
  let allocation :=
    computeContributionsAllocation
      (targetWeights (cppiMetrics portfolioState)) equities deposit in
  let equities' :=
    {| eq_debit := eq_debit equities + debit allocation;
       eq_credit := eq_credit equities + credit allocation;
       eq_straddle := eq_straddle equities + straddle allocation;
       eq_collar := eq_collar equities + collar allocation;
       eq_hedge := eq_hedge equities + hedge allocation;
       total := total equities + deposit |} in
  {| sleeveEquities := equities';
     cppiMetrics := computeCPPIMetrics cppiEngine equities' now;
     lastUpdateTime := lastUpdateTime portfolioState |}.

(** The five sleeves of a snapshot added up, to compare with its
    [total]. *)
Definition sleeveTotal (e : SleeveEquities) : num :=
  eq_debit e + eq_credit e + eq_straddle e + eq_collar e + eq_hedge e.

(** [getSleeveType]: the sleeve a strategy id trades for. *)
Definition getSleeveType (strategyId : string) : option Sleeve :=
  if String.eqb strategyId "debit_spreads" then Some Debit
  else if String.eqb strategyId "credit_spreads" then Some Credit
  else if String.eqb strategyId "event_straddles" then Some Straddle
  else if String.eqb strategyId "collar_equity" then Some Collar
  else if String.eqb strategyId "crash_hedge" then Some Hedge
  else None.

End Bot.

(* ================================================================== *)
(** ** JavaScript runtime values used by the backtester *)

(** A [Map] with string keys.  Entries are kept in insertion order, which
    is the order [entries()] walks them in; [set] on a key that is present
    overwrites in place, on a new key appends. *)
Module JSMap.

Definition t (V : Type) : Type := list (string * V).

Fixpoint get {V} (m : t V) (k : string) : option V :=
  match m with
  | [] => None
  | (k', v) :: rest => if String.eqb k' k then Some v else get rest k
  end.

Fixpoint set {V} (m : t V) (k : string) (v : V) : t V :=
  match m with
  | [] => [(k, v)]
  | (k', v') :: rest =>
      if String.eqb k' k then (k, v) :: rest else (k', v') :: set rest k v
  end.

Fixpoint delete {V} (m : t V) (k : string) : t V :=
  match m with
  | [] => []
  | (k', v') :: rest =>
      if String.eqb k' k then rest else (k', v') :: delete rest k
  end.

Definition keys {V} (m : t V) : list string := List.map fst m.

End JSMap.

(** What a call can end in: a value, or the [TypeError] that
    [Array.prototype.reduce] raises on an empty array without an initial
    value and that a property read on [undefined] raises. *)
Inductive result (A : Type) : Type :=
| Ok (a : A)
| TypeError.

Arguments Ok {A} a.
Arguments TypeError {A}.

Definition bind {A B} (r : result A) (k : A -> result B) : result B :=
  match r with
  | Ok a => k a
  | TypeError => TypeError
  end.

Notation "x <- r ;; k" := (bind r (fun x => k))
  (at level 61, r at next level, right associativity).

(** [arr.reduce(f)] without an initial value. *)
Definition reduce {A} (f : A -> A -> A) (arr : list A) : result A :=
  match arr with
  | [] => TypeError
  | first :: rest => Ok (fold_left f rest first)
  end.

(** [arr[i]] for a number [i]: [undefined] unless [i] is an integer
    within bounds. *)
Definition index {A} (arr : list A) (i : num) : option A :=
  match i with
  | Fin q =>
      if Qeq_bool q (inject_Z (Qfloor q)) && (0 <=? Qfloor q)%Z
      then nth_error arr (Z.to_nat (Qfloor q))
      else None
  | _ => None
  end.

Definition length_num {A} (arr : list A) : num :=
  of_Z (Z.of_nat (List.length arr)).

(** An optional number read in a numeric context: [undefined] is [NaN]. *)
Definition num_of (o : option num) : num :=
  match o with Some x => x | None => NaN end.

(** An optional string inside a template literal. *)
Definition show (o : option string) : string :=
  match o with Some s => s | None => "undefined"%string end.

(** [s.split(sep)] for a one-character separator. *)
Fixpoint split_from (sep : ascii) (s cur : string) : list string :=
  match s with
  | EmptyString => [cur]
  | String c rest =>
      if Ascii.eqb c sep then cur :: split_from sep rest EmptyString
      else split_from sep rest (String.append cur (String c EmptyString))
  end.

Definition split (sep : ascii) (s : string) : list string :=
  split_from sep s EmptyString.

(* ================================================================== *)
(** ** The backtesting engine *)

Module Backtest.

Inductive OptionType := CALL | PUT.
Inductive Side := BUY | SELL.
Inductive DataSource := mock | historical.

Definition OptionType_eqb (a b : OptionType) : bool :=
  match a, b with CALL, CALL | PUT, PUT => true | _, _ => false end.

Definition OptionType_show (t : OptionType) : string :=
  match t with CALL => "CALL" | PUT => "PUT" end.

Record BacktestConfig := mkConfig {
  startDate : string;
  endDate : string;
  initialCapital : num;
  universe : list string;
  strategies : list string;
  dataSource : DataSource;
  riskFreeRate : num;
  commissionPerContract : num
}.

Record MarketData := mkMarket {
  md_date : string;
  md_symbol : string;
  md_price : num;
  md_volume : num;
  md_impliedVol : option num
}.

Record OptionData := mkOption {
  date : string;
  symbol : string;
  underlying : string;
  strike : num;
  expiry : string;
  optionType : OptionType;
  price : num;
  delta : option num;
  gamma : option num;
  theta : option num;
  vega : option num;
  impliedVol : option num;
  openInterest : option num
}.

(** The symbol [generateOptionData] gives a quote,
    [`${market.symbol}_${expiry}_${strike}_${optionType}`], with the strike
    already printed. *)
Definition symbolOf (underlying expiry strikeStr : string)
    (type : OptionType) : string :=
  String.append underlying
    (String.append "_"
       (String.append expiry
          (String.append "_"
             (String.append strikeStr
                (String.append "_" (OptionType_show type)))))).

Fixpoint noUnderscore (s : string) : bool :=
  match s with
  | EmptyString => true
  | String c rest => negb (Ascii.eqb c "_") && noUnderscore rest
  end.

(** A trade id is [`${Date.now()}_${Math.random().toString(36).substr(2, 9)}`]:
    kept as the clock reading and the draw it is printed from. *)
Record BacktestTrade := mkTrade {
  id : num * num;
  t_date : string;
  t_symbol : string;
  t_side : Side;
  t_quantity : num;
  t_price : num;
  t_commission : num;
  t_strategy : string
}.

Record PortfolioMetrics := mkPortfolioMetrics {
  totalReturn : num;
  annualizedReturn : num;
  volatility : num;
  sharpeRatio : num;
  maxDrawdown : num;
  winRate : num;
  profitFactor : num;
  totalTrades : num
}.

Record DailyPnL := mkDaily {
  d_date : string;
  pnl : num;
  cumPnL : num
}.

Record BacktestResult := mkResult {
  r_config : BacktestConfig;
  r_trades : list BacktestTrade;
  dailyPnL : list DailyPnL;
  metrics : PortfolioMetrics;
  strategyBreakdown : list (string * PortfolioMetrics)
}.

(** One leg a builder proposes. *)
Record Leg := mkLeg {
  leg_symbol : string;
  leg_side : Side;
  leg_quantity : num;
  leg_price : num
}.

(** The engine object.  [draws] is not a field of the source: it counts
    the calls made so far to the ambient [Math.random]. *)
Record BacktestEngine := mkEngine {
  marketData : JSMap.t (list MarketData);
  optionData : JSMap.t (list OptionData);
  trades : list BacktestTrade;
  portfolio : JSMap.t num;
  cash : num;
  currentDate : string;
  randSeed : Z;
  config : BacktestConfig;
  draws : nat
}.

Definition new_BacktestEngine (config : BacktestConfig) : BacktestEngine :=
  {| marketData := []; optionData := []; trades := []; portfolio := [];
     cash := initialCapital config; currentDate := ""; randSeed := 123456789;
     config := config; draws := 0 |}.

(** The seeded generator of the engine (a 32-bit linear congruential
    step): the new seed and the draw in [0, 1).  The seed stays below
    2^32, so the product is an exact integer and [>>> 0] is the remainder
    modulo 2^32. *)
Definition rnd (this : BacktestEngine) : num * BacktestEngine :=
  let seed := ((1664525 * randSeed this + 1013904223) mod 4294967296)%Z in
  (of_Z seed / of_Z 4294967296,
   {| marketData := marketData this; optionData := optionData this;
      trades := trades this; portfolio := portfolio this; cash := cash this;
      currentDate := currentDate this; randSeed := seed;
      config := config this; draws := draws this |}).

Definition sign_of (side : Side) : num :=
  match side with BUY => of_Z 1 | SELL => of_Z (-1) end.

Definition Side_is_BUY (side : Side) : bool :=
  match side with BUY => true | SELL => false end.

Section World.

(** The ambient runtime: the [n]-th value [Math.random()] returns, the
    clock [Date.now()] shows when that draw is made, the time value of
    [new Date(s)], the value of [Number(s)], and the functions of [Math]
    that have no rational result. *)
Variable Math_random : nat -> num.
Variable Date_now : nat -> num.
Variable DateTime : string -> num.
Variable NumberOf : string -> num.
Variable Math_pow : num -> num -> num.
Variable Math_sqrt : num -> num.
Variable Math_log : num -> num.
Variable Math_exp : num -> num.

(** [new Date(x).getTime()] and [Number(x)] for a possibly missing [x]. *)
Definition DateTime_of (o : option string) : num :=
  match o with Some s => DateTime s | None => NaN end.

Definition NumberOf_opt (o : option string) : num :=
  match o with Some s => NumberOf s | None => NaN end.

(** Slippage of 0.5% to 2% of the premium, from a draw [r] of the seeded
    generator, and the price it turns the quoted one into. *)
Definition slippagePctOf (r : num) : num := dec 5 1000 + r * dec 15 1000.

Definition executedPriceOf (price slippagePct : num) (side : Side) : num :=
  JS.max (dec 1 100) (price + price * slippagePct * sign_of side).

Definition executeTrade (this : BacktestEngine) (symbol : string)
    (side : Side) (quantity price : num) (strategy date : string)
  : BacktestEngine :=
  let commission := commissionPerContract (config this) * quantity in
  let (r, this) := rnd this in
  let slippagePct := slippagePctOf r in
  let executedPrice := executedPriceOf price slippagePct side in
  let gross := executedPrice * quantity * of_Z 100 in
  if Side_is_BUY side && (gross + commission >? cash this) then this
  else
    let currentPosition :=
      JS.or_else (num_of (JSMap.get (portfolio this) symbol)) (of_Z 0) in
    let newPosition :=
      currentPosition + (if Side_is_BUY side then quantity else - quantity) in
    let portfolio' :=
      if newPosition === of_Z 0 then JSMap.delete (portfolio this) symbol
      else JSMap.set (portfolio this) symbol newPosition in
    let cash' :=
      if Side_is_BUY side then cash this - (gross + commission)
      else cash this + (gross - commission) in
    let trade :=
      {| id := (Date_now (draws this), Math_random (draws this));
         t_date := date; t_symbol := symbol; t_side := side;
         t_quantity := quantity; t_price := executedPrice;
         t_commission := commission; t_strategy := strategy |} in
    {| marketData := marketData this; optionData := optionData this;
       trades := trades this ++ [trade]; portfolio := portfolio';
       cash := cash'; currentDate := currentDate this;
       randSeed := randSeed this; config := config this;
       draws := S (draws this) |}.

(** The four fields [symbol.split('_')] is destructured into. *)
Record SymbolParts := mkParts {
  p_underlying : option string;
  p_expiryStr : option string;
  p_strikeStr : option string;
  p_typeStr : option string
}.

Definition decode (symbol : string) : SymbolParts :=
  let parts := split "_"%char symbol in
  {| p_underlying := nth_error parts 0; p_expiryStr := nth_error parts 1;
     p_strikeStr := nth_error parts 2; p_typeStr := nth_error parts 3 |}.

Definition opt_string_eqb (o : option string) (s : string) : bool :=
  match o with Some x => String.eqb x s | None => false end.

(** Today's quote for a position, if the surface of the current date has
    one under the very same symbol. *)
Definition todayOpt (this : BacktestEngine) (symbol : string)
  : option OptionData :=
  let optionKey :=
    String.append (show (p_underlying (decode symbol)))
      (String.append "_" (currentDate this)) in
  match JSMap.get (optionData this) optionKey with
  | Some surface =>
      find (fun opt => String.eqb (Backtest.symbol opt) symbol) surface
  | None => None
  end.

(** The underlying's price point dated at the position's expiry. *)
Definition atExp (this : BacktestEngine) (symbol : string)
  : option MarketData :=
  let parts := decode symbol in
  let md :=
    match p_underlying parts with
    | Some u => match JSMap.get (marketData this) u with
                | Some l => l
                | None => []
                end
    | None => []
    end in
  find (fun m => opt_string_eqb (p_expiryStr parts) (md_date m)) md.

Definition intrinsicOf (typeStr : option string) (spot strike : num) : num :=
  if opt_string_eqb typeStr "CALL" then JS.max (of_Z 0) (spot - strike)
  else if opt_string_eqb typeStr "PUT" then JS.max (of_Z 0) (strike - spot)
  else of_Z 0.

Definition expired (this : BacktestEngine) (symbol : string) : bool :=
  DateTime (currentDate this) >? DateTime_of (p_expiryStr (decode symbol)).

(** One turn of the loop of [calculatePortfolioValue]: the running value
    and the position map after the entry [(symbol, quantity)]. *)
Definition markPosition (this : BacktestEngine)
    (acc : num * JSMap.t num) (entry : string * num) : num * JSMap.t num :=
  let (value, positions) := acc in
  let (symbol, quantity) := entry in
  match todayOpt this symbol with
  | Some opt => (value + price opt * quantity * of_Z 100, positions)
  | None =>
      if expired this symbol then
        let strike := NumberOf_opt (p_strikeStr (decode symbol)) in
        let value' :=
          match atExp this symbol with
          | Some m =>
              let intrinsic :=
                intrinsicOf (p_typeStr (decode symbol)) (md_price m) strike in
              value + intrinsic * quantity * of_Z 100
          | None => value
          end in
        (value', JSMap.delete positions symbol)
      else (value, positions)
  end.

(** The running value alone, over a stretch of entries. *)
Definition markedValue (this : BacktestEngine) (entries : JSMap.t num)
    (value : num) : num :=
  fst (fold_left (markPosition this) entries (value, [])).

(** The shape [loadData] and the generator give the option data: a quote
    is filed under [`${underlying}_${date}`], its symbol starts with its
    underlying, and it is dated before the expiry its symbol names. *)
Definition quoteWellFormed (key : string) (o : OptionData) : bool :=
  String.eqb key (String.append (underlying o) (String.append "_" (date o)))
  && opt_string_eqb (p_underlying (decode (symbol o))) (underlying o)
  && (DateTime (date o) <? DateTime_of (p_expiryStr (decode (symbol o)))).

Definition optionDataWellFormed (this : BacktestEngine) : bool :=
  forallb (fun entry => forallb (quoteWellFormed (fst entry)) (snd entry))
    (optionData this).

(** The entries are walked in map order; deleting the entry under the
    cursor leaves the entries still to come in place. *)
Definition calculatePortfolioValue (this : BacktestEngine)
  : num * BacktestEngine :=
  let (value, positions) :=
    fold_left (markPosition this) (portfolio this)
      (cash this, portfolio this) in
  (value,
   {| marketData := marketData this; optionData := optionData this;
      trades := trades this; portfolio := positions; cash := cash this;
      currentDate := currentDate this; randSeed := randSeed this;
      config := config this; draws := draws this |}).

(** *** Strategy leg builders *)

Definition nearestBy {T} (arr : list T) (metric : T -> num) (target : num)
  : result T :=
  reduce
    (fun best x =>
       if JS.abs (metric x - target) <? JS.abs (metric best - target)
       then x else best)
    arr.

Definition hasDelta (opt : OptionData) : bool :=
  match delta opt with Some _ => true | None => false end.

Definition absDelta (o : OptionData) : num := JS.abs (num_of (delta o)).

Definition buildDebitCallVertical (options : list OptionData)
  : result (list Leg) :=
  let calls :=
    filter (fun opt => OptionType_eqb (optionType opt) CALL && hasDelta opt)
      options in
  if (List.length calls <? 2)%nat then Ok []
  else
    longCall <- nearestBy calls absDelta (dec 30 100) ;;
    shortCall <-
      match find (fun c => strike c >? strike longCall) calls with
      | Some c => Ok c
      | None => nearestBy calls strike (strike longCall + of_Z 5)
      end ;;
    Ok [ {| leg_symbol := symbol longCall; leg_side := BUY;
            leg_quantity := of_Z 1; leg_price := price longCall |};
         {| leg_symbol := symbol shortCall; leg_side := SELL;
            leg_quantity := of_Z 1; leg_price := price shortCall |} ].

Definition buildCreditPutSpread (options : list OptionData)
  : result (list Leg) :=
  let puts :=
    filter (fun opt => OptionType_eqb (optionType opt) PUT && hasDelta opt)
      options in
  if (List.length puts <? 2)%nat then Ok []
  else
    shortPut <- nearestBy puts absDelta (dec 22 100) ;;
    longPut <- nearestBy puts strike (strike shortPut - of_Z 5) ;;
    Ok [ {| leg_symbol := symbol shortPut; leg_side := SELL;
            leg_quantity := of_Z 1; leg_price := price shortPut |};
         {| leg_symbol := symbol longPut; leg_side := BUY;
            leg_quantity := of_Z 1; leg_price := price longPut |} ].

(** The price point of [underlying] dated today, as
    [this.marketData.get(underlying)?.find(...)] yields it. *)
Definition spotToday (this : BacktestEngine) (underlying : option string)
  : option MarketData :=
  match underlying with
  | Some u =>
      match JSMap.get (marketData this) u with
      | Some l => find (fun m => String.eqb (md_date m) (currentDate this)) l
      | None => None
      end
  | None => None
  end.

Definition buildATMStraddle (this : BacktestEngine)
    (options : list OptionData) (underlying : option string)
  : result (list Leg) :=
  match spotToday this underlying with
  | None => Ok []
  | Some marketData =>
      let spot := md_price marketData in
      let calls :=
        filter (fun opt => OptionType_eqb (optionType opt) CALL) options in
      let puts :=
        filter (fun opt => OptionType_eqb (optionType opt) PUT) options in
      atmCall <-
        reduce
          (fun prev curr =>
             if JS.abs (strike curr - spot) <? JS.abs (strike prev - spot)
             then curr else prev)
          calls ;;
      match find (fun p => strike p === strike atmCall) puts with
      | None => Ok []
      | Some atmPut =>
          Ok [ {| leg_symbol := symbol atmCall; leg_side := BUY;
                  leg_quantity := of_Z 1; leg_price := price atmCall |};
               {| leg_symbol := symbol atmPut; leg_side := BUY;
                  leg_quantity := of_Z 1; leg_price := price atmPut |} ]
      end
  end.

(** The builders that draw from [Math.random] also return the engine with
    its draw count advanced. *)
Definition draw (this : BacktestEngine) : num * BacktestEngine :=
  (Math_random (draws this),
   {| marketData := marketData this; optionData := optionData this;
      trades := trades this; portfolio := portfolio this; cash := cash this;
      currentDate := currentDate this; randSeed := randSeed this;
      config := config this; draws := S (draws this) |}).

Definition buildCashSecuredPut (this : BacktestEngine)
    (options : list OptionData) : result (list Leg * BacktestEngine) :=
  let puts :=
    filter
      (fun opt =>
         OptionType_eqb (optionType opt) PUT
         && JS.truthy (num_of (delta opt))
         && (absDelta opt >? dec 2 10)
         && (absDelta opt <? dec 3 10))
      options in
  match puts with
  | [] => Ok ([], this)
  | _ =>
      let (r, this) := draw this in
      match index puts (JS.floor (r * length_num puts)) with
      | Some selectedPut =>
          Ok ([ {| leg_symbol := symbol selectedPut; leg_side := SELL;
                   leg_quantity := of_Z 1; leg_price := price selectedPut |} ],
              this)
      | None => TypeError
      end
  end.

Definition buildCrashHedge (options : list OptionData) : result (list Leg) :=
  let hedgeUniverse :=
    filter (fun opt => OptionType_eqb (optionType opt) PUT && hasDelta opt)
      options in
  match hedgeUniverse with
  | [] => Ok []
  | _ =>
      hedgePut <- nearestBy hedgeUniverse absDelta (dec 8 100) ;;
      Ok [ {| leg_symbol := symbol hedgePut; leg_side := BUY;
              leg_quantity := of_Z 1; leg_price := price hedgePut |} ]
  end.

(** *** The pricing kernel of [MockDataGenerator] *)

Definition erf (x : num) : num :=
  let a1 := dec 254829592 1000000000 in
  let a2 := dec (-284496736) 1000000000 in
  let a3 := dec 1421413741 1000000000 in
  let a4 := dec (-1453152027) 1000000000 in
  let a5 := dec 1061405429 1000000000 in
  let p := dec 3275911 10000000 in
  let sign := if x <? of_Z 0 then of_Z (-1) else of_Z 1 in
  let x := JS.abs x in
  let t := of_Z 1 / (of_Z 1 + p * x) in
  let y :=
    of_Z 1
    - (((((a5 * t + a4) * t) + a3) * t + a2) * t + a1) * t
      * Math_exp (- x * x) in
  sign * y.

Definition normalCDF (x : num) : num :=
  (of_Z 1 + erf (x / Math_sqrt (of_Z 2))) / of_Z 2.

Definition d1Of (spot strike timeToExpiry vol : num) : num :=
  let riskFreeRate := dec 5 100 in
  (Math_log (spot / strike)
   + (riskFreeRate + dec 5 10 * Math_pow vol (of_Z 2)) * timeToExpiry)
  / (vol * Math_sqrt timeToExpiry).

Definition calculateOptionPrice (spot strike timeToExpiry vol : num)
    (type : OptionType) : num :=
  let riskFreeRate := dec 5 100 in
  let d1 := d1Of spot strike timeToExpiry vol in
  let d2 := d1 - vol * Math_sqrt timeToExpiry in
  match type with
  | CALL =>
      spot * normalCDF d1
      - strike * Math_exp (- riskFreeRate * timeToExpiry) * normalCDF d2
  | PUT =>
      strike * Math_exp (- riskFreeRate * timeToExpiry) * normalCDF (- d2)
      - spot * normalCDF (- d1)
  end.

(** What the approximation of [erf] leaves of the identity
    [normalCDF x + normalCDF (-x) = 1]: its five coefficients add up to
    [0.999999999] and its sign is [+1] at zero, so at [x = 0], and only
    there, the two tails add up to [1 + 1e-9]. *)
Definition erfBias (x : Q) : Q :=
  if Qeq_bool x 0 then 1 # 1000000000 else 0.

(** *** The daily loop *)

Definition msPerDay : num := of_Z (1000 * 3600 * 24).

Definition dteOf (opt : OptionData) (date : string) : num :=
  (DateTime (expiry opt) - DateTime date) / msPerDay.

Definition executeLeg (strategy date : string) (this : BacktestEngine)
    (trade : Leg) : BacktestEngine :=
  executeTrade this (leg_symbol trade) (leg_side trade) (leg_quantity trade)
    (leg_price trade) strategy date.

Definition executeStrategy (this : BacktestEngine) (strategy date : string)
  : result BacktestEngine :=
  let (r, this) := draw this in
  let underlying :=
    index (universe (config this))
      (JS.floor (r * length_num (universe (config this)))) in
  let optionKey := String.append (show underlying) (String.append "_" date) in
  let availableOptions :=
    match JSMap.get (optionData this) optionKey with
    | Some l => l
    | None => []
    end in
  match availableOptions with
  | [] => Ok this
  | _ =>
      let validOptions :=
        filter
          (fun opt =>
             (dteOf opt date >=? of_Z 21) && (dteOf opt date <=? of_Z 45))
          availableOptions in
      match validOptions with
      | [] => Ok this
      | _ =>
          built <-
            (if String.eqb strategy "debit_call_vertical" then
               legs <- buildDebitCallVertical validOptions ;; Ok (legs, this)
             else if String.eqb strategy "credit_put_spread" then
               legs <- buildCreditPutSpread validOptions ;; Ok (legs, this)
             else if String.eqb strategy "atm_straddle" then
               legs <- buildATMStraddle this validOptions underlying ;;
               Ok (legs, this)
             else if String.eqb strategy "cash_secured_put" then
               buildCashSecuredPut this validOptions
             else if String.eqb strategy "crash_hedge" then
               legs <- buildCrashHedge validOptions ;; Ok (legs, this)
             else Ok ([], this)) ;;
          Ok (fold_left (executeLeg strategy date) (fst built) (snd built))
      end
  end.

Fixpoint executeStrategies_from (this : BacktestEngine)
    (strategies : list string) (date : string) : result BacktestEngine :=
  match strategies with
  | [] => Ok this
  | strategy :: rest =>
      this <- executeStrategy this strategy date ;;
      executeStrategies_from this rest date
  end.

Definition executeStrategies (this : BacktestEngine) (date : string)
  : result BacktestEngine :=
  executeStrategies_from this (strategies (config this)) date.

Definition set_currentDate (this : BacktestEngine) (date : string)
  : BacktestEngine :=
  {| marketData := marketData this; optionData := optionData this;
     trades := trades this; portfolio := portfolio this; cash := cash this;
     currentDate := date; randSeed := randSeed this; config := config this;
     draws := draws this |}.

(** The body of the [for (const date of tradingDates)] loop, threaded over
    the engine, the rows pushed so far and [cumPnL]. *)
Fixpoint runDates (this : BacktestEngine) (tradingDates : list string)
    (rows : list DailyPnL) (cumPnL : num)
  : result (list DailyPnL * BacktestEngine) :=
  match tradingDates with
  | [] => Ok (rows, this)
  | date :: rest =>
      let this := set_currentDate this date in
      let (dayStartValue, this) := calculatePortfolioValue this in
      this <- executeStrategies this date ;;
      let (dayEndValue, this) := calculatePortfolioValue this in
      let dailyReturn := dayEndValue - dayStartValue in
      let cumPnL := cumPnL + dailyReturn in
      runDates this rest
        (rows ++ [ {| d_date := date; pnl := dailyReturn; cumPnL := cumPnL |} ])
        cumPnL
  end.

(** [new Set] of the dates, in first-seen order, then [sort()]. *)
Fixpoint addAll (seen : list string) (dates : list string) : list string :=
  match dates with
  | [] => seen
  | d :: rest =>
      addAll (if existsb (String.eqb d) seen then seen else seen ++ [d]) rest
  end.

Fixpoint insert_sorted (d : string) (sorted : list string) : list string :=
  match sorted with
  | [] => [d]
  | x :: rest =>
      if String.leb d x then d :: sorted else x :: insert_sorted d rest
  end.

Definition sort (dates : list string) : list string :=
  fold_right insert_sorted [] dates.

Definition tradingDatesOf (this : BacktestEngine) : list string :=
  sort
    (fold_left
       (fun allDates data => addAll allDates (List.map md_date (snd data)))
       (marketData this) []).

(** *** Performance metrics *)

Fixpoint returnsFrom (initialCapital : num) (prev : option DailyPnL)
    (days : list DailyPnL) : list num :=
  match days with
  | [] => []
  | d :: rest =>
      let prevEquity :=
        initialCapital
        + match prev with Some p => cumPnL p | None => of_Z 0 end in
      (if prevEquity >? of_Z 0 then pnl d / prevEquity else of_Z 0)
        :: returnsFrom initialCapital (Some d) rest
  end.

Definition sumNums (l : list num) : num :=
  fold_left (fun sum r => sum + r) l (of_Z 0).

Definition drawdownStep (initialCapital : num) (acc : num * num)
    (day : DailyPnL) : num * num :=
  let (maxDrawdown, peak) := acc in
  let currentValue := initialCapital + cumPnL day in
  let peak := if currentValue >? peak then currentValue else peak in
  let drawdown := (peak - currentValue) / peak in
  (if drawdown >? maxDrawdown then drawdown else maxDrawdown, peak).

(** The profit-and-loss figure attached to one trade, and the number of
    [Math.random] calls it took, from draw number [n] on. *)
Definition tradePnLOf (n : nat) (trade : BacktestTrade) : num * nat :=
  let qty := t_quantity trade in
  let premium := t_price trade in
  (* [side === "BUY" ? -premium * qty * 100 : premium * qty * 100], which
     the credit spread case writes with the two branches swapped on SELL *)
  let net :=
    if Side_is_BUY (t_side trade) then - premium * qty * of_Z 100
    else premium * qty * of_Z 100 in
  if String.eqb (t_strategy trade) "debit_call_vertical" then
    (net + (Math_random n - dec 4 10) * JS.abs net * of_Z 2, 1%nat)
  else if String.eqb (t_strategy trade) "credit_put_spread" then
    (net * (if Math_random n >? dec 25 100 then dec 8 10 else dec (-25) 10),
     1%nat)
  else if String.eqb (t_strategy trade) "atm_straddle" then
    let ivCrush := Math_random n <? dec 3 10 in
    if ivCrush then (net * dec (-5) 10, 1%nat)
    else (net * ((Math_random (S n) - dec 2 10) * of_Z 3), 2%nat)
  else
    ((Math_random n - dec 45 100) * premium * qty * of_Z 100, 1%nat).

Fixpoint tradePnLs (n : nat) (trades : list BacktestTrade)
  : list num * nat :=
  match trades with
  | [] => ([], n)
  | trade :: rest =>
      let (pnl, used) := tradePnLOf n trade in
      let (pnls, n') := tradePnLs (n + used) rest in
      (pnl :: pnls, n')
  end.

Definition set_draws (this : BacktestEngine) (n : nat) : BacktestEngine :=
  {| marketData := marketData this; optionData := optionData this;
     trades := trades this; portfolio := portfolio this; cash := cash this;
     currentDate := currentDate this; randSeed := randSeed this;
     config := config this; draws := n |}.

Definition calculateMetrics (this : BacktestEngine) (dailyPnL : list DailyPnL)
  : result (PortfolioMetrics * BacktestEngine) :=
  let initialCapital := initialCapital (config this) in
  let returns := returnsFrom initialCapital None dailyPnL in
  match last (List.map Some dailyPnL) None with
  | None => TypeError
  | Some lastDay =>
      let finalValue := initialCapital + cumPnL lastDay in
      let totalReturn := (finalValue - initialCapital) / initialCapital in
      let tradingDays := length_num dailyPnL in
      let annualizedReturn :=
        Math_pow (of_Z 1 + totalReturn) (of_Z 252 / tradingDays) - of_Z 1 in
      let meanReturn := sumNums returns / length_num returns in
      let variance :=
        fold_left (fun sum r => sum + Math_pow (r - meanReturn) (of_Z 2))
          returns (of_Z 0)
        / length_num returns in
      let volatility := Math_sqrt (variance * of_Z 252) in
      let excessReturn := annualizedReturn - riskFreeRate (config this) in
      let sharpeRatio :=
        if volatility >? of_Z 0 then excessReturn / volatility else of_Z 0 in
      let maxDrawdown :=
        fst (fold_left (drawdownStep initialCapital) dailyPnL
               (of_Z 0, initialCapital)) in
      let (tradePnL, n) := tradePnLs (draws this) (trades this) in
      let profitableTrades := filter (fun pnl => pnl >? of_Z 0) tradePnL in
      let winRate :=
        if length_num (trades this) >? of_Z 0
        then length_num profitableTrades / length_num (trades this)
        else of_Z 0 in
      let totalProfit := sumNums profitableTrades in
      let totalLoss :=
        JS.abs (sumNums (filter (fun pnl => pnl <? of_Z 0) tradePnL)) in
      let profitFactor :=
        if totalLoss >? of_Z 0 then totalProfit / totalLoss else of_Z 0 in
      Ok ({| totalReturn := totalReturn;
             annualizedReturn := annualizedReturn;
             volatility := volatility;
             sharpeRatio := sharpeRatio;
             maxDrawdown := maxDrawdown;
             winRate := winRate;
             profitFactor := profitFactor;
             totalTrades := length_num (trades this) |},
          set_draws this n)
  end.

Definition strategyMetrics (this : BacktestEngine) (n : nat)
    (strategy : string) : PortfolioMetrics :=
  let strategyTrades :=
    filter (fun t => String.eqb (t_strategy t) strategy) (trades this) in
  {| totalReturn := Math_random n * dec 2 10 - dec 1 10;
     annualizedReturn := Math_random (n + 1) * dec 3 10 - dec 15 100;
     volatility := dec 1 10 + Math_random (n + 2) * dec 2 10;
     sharpeRatio := Math_random (n + 3) * of_Z 2 - dec 5 10;
     maxDrawdown := Math_random (n + 4) * dec 15 100;
     winRate := dec 4 10 + Math_random (n + 5) * dec 4 10;
     profitFactor := dec 8 10 + Math_random (n + 6) * dec 12 10;
     totalTrades := length_num strategyTrades |}.

Fixpoint strategyBreakdownFrom (this : BacktestEngine) (n : nat)
    (strategies : list string) (breakdown : JSMap.t PortfolioMetrics)
  : JSMap.t PortfolioMetrics * nat :=
  match strategies with
  | [] => (breakdown, n)
  | strategy :: rest =>
      strategyBreakdownFrom this (n + 7) rest
        (JSMap.set breakdown strategy (strategyMetrics this n strategy))
  end.

Definition calculateStrategyBreakdown (this : BacktestEngine)
  : JSMap.t PortfolioMetrics * BacktestEngine :=
  let (breakdown, n) :=
    strategyBreakdownFrom this (draws this) (strategies (config this)) [] in
  (breakdown, set_draws this n).

(** [runBacktest] from the point where [loadData] has filled the two data
    maps of [this]. *)
Definition runBacktest (this : BacktestEngine) : result BacktestResult :=
  let tradingDates := tradingDatesOf this in
  ran <- runDates this tradingDates [] (of_Z 0) ;;
  let (dailyPnL, this) := (ran : list DailyPnL * BacktestEngine) in
  measured <- calculateMetrics this dailyPnL ;;
  let (metrics, this) := (measured : PortfolioMetrics * BacktestEngine) in
  let (strategyBreakdown, this) := calculateStrategyBreakdown this in
  Ok {| r_config := config this;
        r_trades := trades this;
        dailyPnL := dailyPnL;
        metrics := metrics;
        strategyBreakdown := strategyBreakdown |}.

(** *** Loading the generated data *)

(** [if (!map.has(key)) map.set(key, []); map.get(key)!.push(x)]. *)
Definition fileUnder {V} (m : JSMap.t (list V)) (key : string) (x : V)
  : JSMap.t (list V) :=
  match JSMap.get m key with
  | Some filed => JSMap.set m key (filed ++ [x])
  | None => JSMap.set m key [x]
  end.

(** [map.get(key) || []]. *)
Definition filedUnder {V} (m : JSMap.t (list V)) (key : string) : list V :=
  match JSMap.get m key with
  | Some filed => filed
  | None => []
  end.

Definition optionKeyOf (option : OptionData) : string :=
  String.append (underlying option) (String.append "_" (date option)).

(** What [loadData] ends in: the engine with its two maps filled, or the
    [Error] thrown for the historical data source. *)
Inductive Loaded :=
| DataLoaded (this : BacktestEngine)
| NotImplemented.

(** [loadData], given the lists the generator returned. *)
Definition loadData (this : BacktestEngine) (generatedMarket : list MarketData)
    (generatedOptions : list OptionData) : Loaded :=
  match dataSource (config this) with
  | mock =>
      DataLoaded
        {| marketData :=
             fold_left (fun m data => fileUnder m (md_symbol data) data)
               generatedMarket (marketData this);
           optionData :=
             fold_left (fun m option => fileUnder m (optionKeyOf option) option)
               generatedOptions (optionData this);
           trades := trades this; portfolio := portfolio this;
           cash := cash this; currentDate := currentDate this;
           randSeed := randSeed this; config := config this;
           draws := draws this |}
  | historical => NotImplemented
  end.

(** *** Strikes of the generated surface *)

Definition strikeOffsets : list Z :=
  [-8; -7; -6; -5; -4; -3; -2; -1; 0; 1; 2; 3; 4; 5; 6; 7; 8]%Z.

Definition generateStrikes (price : num) : list num :=
  let baseStrike := JS.floor (price / of_Z 5) * of_Z 5 in
  filter (fun s => s >? of_Z 0)
    (List.map (fun i => baseStrike + of_Z i * of_Z 5) strikeOffsets).

(** *** Order of the trading dates *)

(** Each string at most the next, in the order [sort()] uses. *)
Fixpoint ascending (l : list string) : bool :=
  match l with
  | a :: (b :: _) as rest => String.leb a b && ascending rest
  | _ => true
  end.

(** *** Running totals *)

(** The successive values of [cumPnL] when the amounts of [l] are added
    to [start] one after the other. *)
Fixpoint runningSum (start : num) (l : list num) : list num :=
  match l with
  | [] => []
  | x :: rest => (start + x) :: runningSum (start + x) rest
  end.

(** *** Relations between engine states, for the statements below *)

(** Whether a call returned rather than threw. *)
Definition returned {A} (r : result A) : bool :=
  match r with Ok _ => true | TypeError => false end.

(** Two states of the engine with the same data, ledger and
    configuration; the two random sources may have moved. *)
Definition sameLedger (a b : BacktestEngine) : Prop :=
  marketData a = marketData b /\ optionData a = optionData b
  /\ trades a = trades b /\ portfolio a = portfolio b
  /\ cash a = cash b /\ currentDate a = currentDate b
  /\ config a = config b.

(** The positions a [Map] can hold after trades: one entry per symbol,
    none with quantity zero. *)
Definition positionsWellFormed (positions : JSMap.t num) : Prop :=
  NoDup (JSMap.keys positions)
  /\ Forall (fun entry => (snd entry === of_Z 0) = false) positions.

(** The legs the builders hand out: at most two, of one contract each. *)
Definition unitLegs (legs : list Leg) : Prop :=
  (List.length legs <= 2)%nat
  /\ Forall (fun l => leg_quantity l = of_Z 1) legs.

(** A trade of one contract, dated within [dates], for one of
    [strategies]. *)
Definition tradeWithin (dates strategies : list string)
    (trade : BacktestTrade) : Prop :=
  In (t_date trade) dates /\ In (t_strategy trade) strategies
  /\ t_quantity trade = of_Z 1.

(** What a stretch of the run keeps and adds: the data and configuration
    are untouched, the positions stay well formed, the trades recorded
    before are still there, and the new ones satisfy [P]. *)
Definition extends (P : BacktestTrade -> Prop) (this this' : BacktestEngine)
  : Prop :=
  marketData this' = marketData this
  /\ optionData this' = optionData this
  /\ config this' = config this
  /\ (positionsWellFormed (portfolio this) ->
      positionsWellFormed (portfolio this'))
  /\ exists new, trades this' = trades this ++ new /\ Forall P new.

(** A position the mark drops: no quote under its symbol today, and the
    current date past the expiry its symbol names. *)
Definition lapsed (this : BacktestEngine) (symbol : string) : bool :=
  match todayOpt this symbol with
  | Some _ => false
  | None => expired this symbol
  end.

(** A put whose delta lies strictly between 0.2 and 0.3 in absolute
    value; its delta is then neither missing nor zero. *)
Definition inBand (opt : OptionData) : bool :=
  OptionType_eqb (optionType opt) PUT
  && (absDelta opt >? dec 2 10) && (absDelta opt <? dec 3 10).

(** A surface as [generateOptionData] builds it: a call and a put are
    pushed together for every strike and expiry, so every put stands next
    to a call of its expiry. *)
Definition pairedSurface (options : list OptionData) : Prop :=
  forall put, In put options -> optionType put = PUT ->
    exists call,
      In call options /\ optionType call = CALL
      /\ expiry call = expiry put /\ strike call = strike put.

(** [Math.random] as documented: every draw a number in [0, 1). *)
Definition drawsInRange : Prop :=
  forall n, exists r : Q, Math_random n = Fin r /\ 0 <= r /\ r < 1.

End World.

End Backtest.

(* ================================================================== *)
(** ** The same arithmetic in binary64

    The functions below repeat, operation for operation, functions
    embedded above, over the floating-point numbers the source computes
    with: every [+], [-], [*] and [/] rounds to the nearest double, ties to
    even, as in JavaScript.  They serve to evaluate the code where rounding
    matters. *)

Module Binary64.

Import PrimFloat.
#[local] Set Warnings "-inexact-float".
Local Open Scope float_scope.

(** [Math.max] and [Math.min] of two arguments: [NaN] as soon as one
    argument is, and [+0] above [-0]. *)
Definition max (a b : float) : float :=
  if is_nan a || is_nan b then nan
  else if a <? b then b
  else if b <? a then a
  else match classify a with FloatClass.NZero => b | _ => a end.

Definition min (a b : float) : float :=
  if is_nan a || is_nan b then nan
  else if b <? a then b
  else if a <? b then a
  else match classify a with FloatClass.PZero => b | _ => a end.

(** *** [cppi.ts] *)

Record RiskySplit := mkRiskySplit {
  split_debit : float;
  split_credit : float;
  split_straddle : float;
  hedgeFixed : float
}.

Record BaseRiskPct := mkBaseRiskPct {
  risk_debit : float;
  risk_credit : float;
  risk_straddle : float;
  risk_hedge : float
}.

Record MinTickets := mkMinTickets {
  ticket_debit : float;
  creditMaxLoss : float;
  ticket_straddle : float;
  ticket_hedge : float
}.

Record CPPIConfig := mkCPPIConfig {
  floorPct : float;
  cppiM : float;
  riskScaleOptions : float;
  riskySplit : RiskySplit;
  driftBandAbs : float;
  rebalanceEveryWeeks : float;
  weeklyDeposit : float;
  baseRiskPct : BaseRiskPct;
  minTickets : MinTickets
}.

Record SleeveWeights := mkWeights {
  debit : float;
  credit : float;
  straddle : float;
  collar : float;
  hedge : float
}.

Record SleeveEquities := mkEquities {
  eq_debit : float;
  eq_credit : float;
  eq_straddle : float;
  eq_collar : float;
  eq_hedge : float;
  total : float
}.

Definition createDefaultCPPIConfig : CPPIConfig :=
  {| floorPct := 0.85;
     cppiM := 4.0;
     riskScaleOptions := 1.25;
     riskySplit :=
       {| split_debit := 0.60; split_credit := 0.15;
          split_straddle := 0.25; hedgeFixed := 0.02 |};
     driftBandAbs := 0.10;
     rebalanceEveryWeeks := 4;
     weeklyDeposit := 50;
     baseRiskPct :=
       {| risk_debit := 0.06; risk_credit := 0.02;
          risk_straddle := 0.04; risk_hedge := 0.01 |};
     minTickets :=
       {| ticket_debit := 30; creditMaxLoss := 100;
          ticket_straddle := 50; ticket_hedge := 5 |} |}.

Section Engine.

(** [this.config] *)
Variable config : CPPIConfig.

Definition computeTargetWeights (riskyWeight : float) : SleeveWeights :=
  let riskyDebit := riskyWeight * split_debit (riskySplit config) in
  let riskyCredit := riskyWeight * split_credit (riskySplit config) in
  let riskyStraddle := riskyWeight * split_straddle (riskySplit config) in
  let fixedHedge := hedgeFixed (riskySplit config) in
  let collar :=
    max 0 (1.0 - riskyDebit - riskyCredit - riskyStraddle - fixedHedge) in
  {| debit := riskyDebit;
     credit := riskyCredit;
     straddle := riskyStraddle;
     collar := collar;
     hedge := fixedHedge |}.

End Engine.

Definition computeCurrentWeights (sleeveEquities : SleeveEquities)
  : SleeveWeights :=
  if total sleeveEquities <=? 0 then
    {| debit := 0; credit := 0; straddle := 0; collar := 0; hedge := 0 |}
  else
    {| debit := eq_debit sleeveEquities / total sleeveEquities;
       credit := eq_credit sleeveEquities / total sleeveEquities;
       straddle := eq_straddle sleeveEquities / total sleeveEquities;
       collar := eq_collar sleeveEquities / total sleeveEquities;
       hedge := eq_hedge sleeveEquities / total sleeveEquities |}.

Definition computeContributionsAllocation (targetWeights : SleeveWeights)
    (currentEquities : SleeveEquities) (weeklyDeposit : float)
  : SleeveWeights :=
  let targetTotalAfterDeposit := total currentEquities + weeklyDeposit in
  let targetDollars :=
    {| debit := debit targetWeights * targetTotalAfterDeposit;
       credit := credit targetWeights * targetTotalAfterDeposit;
       straddle := straddle targetWeights * targetTotalAfterDeposit;
       collar := collar targetWeights * targetTotalAfterDeposit;
       hedge := hedge targetWeights * targetTotalAfterDeposit |} in
  let shortfalls :=
    {| debit := max 0 (debit targetDollars - eq_debit currentEquities);
       credit := max 0 (credit targetDollars - eq_credit currentEquities);
       straddle :=
         max 0 (straddle targetDollars - eq_straddle currentEquities);
       collar := max 0 (collar targetDollars - eq_collar currentEquities);
       hedge := max 0 (hedge targetDollars - eq_hedge currentEquities) |} in
  let totalShortfall :=
    debit shortfalls + credit shortfalls + straddle shortfalls
    + collar shortfalls + hedge shortfalls in
  if totalShortfall <=? weeklyDeposit then
    let remaining := weeklyDeposit - totalShortfall in
    if 0 <? remaining then
      let totalTarget :=
        debit targetWeights + credit targetWeights + straddle targetWeights
        + collar targetWeights + hedge targetWeights in
      {| debit :=
           debit shortfalls + remaining * (debit targetWeights / totalTarget);
         credit :=
           credit shortfalls + remaining * (credit targetWeights / totalTarget);
         straddle :=
           straddle shortfalls
           + remaining * (straddle targetWeights / totalTarget);
         collar :=
           collar shortfalls + remaining * (collar targetWeights / totalTarget);
         hedge :=
           hedge shortfalls + remaining * (hedge targetWeights / totalTarget) |}
    else shortfalls
  else
    let scaleFactor := weeklyDeposit / totalShortfall in
    {| debit := debit shortfalls * scaleFactor;
       credit := credit shortfalls * scaleFactor;
       straddle := straddle shortfalls * scaleFactor;
       collar := collar shortfalls * scaleFactor;
       hedge := hedge shortfalls * scaleFactor |}.

(** The five weights, and the five sleeves of a snapshot, added up from
    left to right. *)
Definition sumWeights (w : SleeveWeights) : float :=
  debit w + credit w + straddle w + collar w + hedge w.

Definition sleeveTotal (e : SleeveEquities) : float :=
  eq_debit e + eq_credit e + eq_straddle e + eq_collar e + eq_hedge e.

(** *** The bot: the six [+=] of [allocateWeeklyDeposit] *)
Definition addAllocation (sleeveEquities : SleeveEquities)
    (allocation : SleeveWeights) (weeklyDeposit : float) : SleeveEquities :=
  {| eq_debit := eq_debit sleeveEquities + debit allocation;
     eq_credit := eq_credit sleeveEquities + credit allocation;
     eq_straddle := eq_straddle sleeveEquities + straddle allocation;
     eq_collar := eq_collar sleeveEquities + collar allocation;
     eq_hedge := eq_hedge sleeveEquities + hedge allocation;
     total := total sleeveEquities + weeklyDeposit |}.

(** *** The pricing kernel of [MockDataGenerator] *)

Section Kernel.

(** The functions of [Math] whose results the language leaves to the
    implementation. *)
Variable Math_log : float -> float.
Variable Math_exp : float -> float.
Variable Math_sqrt : float -> float.
Variable Math_pow : float -> float -> float.

Definition erf (x : float) : float :=
  let a1 := 0.254829592 in
  let a2 := -0.284496736 in
  let a3 := 1.421413741 in
  let a4 := -1.453152027 in
  let a5 := 1.061405429 in
  let p := 0.3275911 in
  let sign := if x <? 0 then -1 else 1 in
  let x := abs x in
  let t := 1.0 / (1.0 + p * x) in
  let y :=
    1.0
    - (((((a5 * t + a4) * t) + a3) * t + a2) * t + a1) * t
      * Math_exp (- x * x) in
  sign * y.

Definition normalCDF (x : float) : float :=
  (1.0 + erf (x / Math_sqrt 2.0)) / 2.0.

Definition d1Of (spot strike timeToExpiry vol : float) : float :=
  let riskFreeRate := 0.05 in
  (Math_log (spot / strike)
   + (riskFreeRate + 0.5 * Math_pow vol 2) * timeToExpiry)
  / (vol * Math_sqrt timeToExpiry).

Definition calculateOptionPrice (spot strike timeToExpiry vol : float)
    (type : Backtest.OptionType) : float :=
  let riskFreeRate := 0.05 in
  let d1 := d1Of spot strike timeToExpiry vol in
  let d2 := d1 - vol * Math_sqrt timeToExpiry in
  match type with
  | Backtest.CALL =>
      spot * normalCDF d1
      - strike * Math_exp (- riskFreeRate * timeToExpiry) * normalCDF d2
  | Backtest.PUT =>
      strike * Math_exp (- riskFreeRate * timeToExpiry) * normalCDF (- d2)
      - spot * normalCDF (- d1)
  end.

End Kernel.

End Binary64.

(* ================================================================== *)
(** ** Concrete configurations, portfolios and market data *)

Module Examples.

(** *** CPPI *)

(** An engine started at time [0] with the default configuration. *)
Definition defaultEngine : CPPI.CPPIEngine :=
  CPPI.mkEngine CPPI.createDefaultCPPIConfig 0%Z (of_Z 0).

(** A portfolio that holds nothing, and weights that are all zero. *)
Definition noEquity : CPPI.SleeveEquities :=
  CPPI.mkEquities (of_Z 0) (of_Z 0) (of_Z 0) (of_Z 0) (of_Z 0) (of_Z 0).

Definition noWeights : CPPI.SleeveWeights :=
  CPPI.mkWeights (of_Z 0) (of_Z 0) (of_Z 0) (of_Z 0) (of_Z 0).

(** A portfolio of 12000 against 10000 invested: 3500 above the floor. *)
Definition aboveFloor : CPPI.SleeveEquities :=
  CPPI.mkEquities (of_Z 3000) (of_Z 2500) (of_Z 2000) (of_Z 4000) (of_Z 500)
    (of_Z 12000).

(** A backtest configured with an initial capital of 25000. *)
Definition run25000 : Backtest.BacktestConfig :=
  Backtest.mkConfig "2023-01-01" "2023-06-30" (of_Z 25000) ["US.SPY"%string]
    ["debit_call_vertical"%string] Backtest.mock (dec 5 100) (dec 150 100).

(** *** The runtime *)

(** [new Date(s).getTime()] on the date strings used below (UTC
    midnights); any other string is taken as an invalid date. *)
Definition isoTime (s : string) : num :=
  if String.eqb s "2023-01-01" then of_Z 1672531200000
  else if String.eqb s "2023-01-31" then of_Z 1675123200000
  else if String.eqb s "2023-02-15" then of_Z 1676419200000
  else if String.eqb s "2023-03-01" then of_Z 1677628800000
  else NaN.

(** [Number(s)] on the strike strings used below. *)
Definition strikeOf (s : string) : num :=
  if String.eqb s "400" then of_Z 400
  else if String.eqb s "380" then of_Z 380
  else if String.eqb s "285" then of_Z 285
  else NaN.

(** Three behaviours of [Math.random]: always 0, always 0.5, and 0 on the
    first call then 0.9. *)
Definition alwaysZero (n : nat) : num := of_Z 0.
Definition alwaysHalf (n : nat) : num := dec 1 2.
Definition zeroThenHigh (n : nat) : num :=
  match n with O => of_Z 0 | S _ => dec 9 10 end.

(** Stand-ins for the functions of [Math] without rational values:
    [Math.pow] on a finite base and a natural exponent, where it is
    exact; [Math.sqrt] on 0 and 1 and, to four decimals, on 2; [Math.log]
    and [Math.exp] by the first terms of their series.  Arguments the
    examples below do not reach are left as [NaN]. *)
Definition intPow (x y : num) : num :=
  match x, y with
  | JS.Fin a, JS.Fin b =>
      if Qeq_bool b (inject_Z (Qfloor b)) && (0 <=? Qfloor b)%Z
      then JS.Fin (Qpower a (Qfloor b))
      else NaN
  | _, _ => NaN
  end.

Definition rootTable (x : num) : num :=
  if x === of_Z 0 then of_Z 0
  else if x === of_Z 1 then of_Z 1
  else if x === of_Z 2 then dec 14142 10000
  else NaN.

Definition logSeries (x : num) : num :=
  match x with
  | JS.Fin a => JS.Fin (a - 1)
  | _ => NaN
  end.

Definition expSeries (x : num) : num :=
  match x with
  | JS.Fin a => JS.Fin (1 + a + a * a / 2)
  | _ => NaN
  end.

(** *** Backtest states *)

(** No starting cash, a commission of 1.50 per contract. *)
Definition quietConfig : Backtest.BacktestConfig :=
  Backtest.mkConfig "2023-01-01" "2023-01-02" (of_Z 0) ["US.SPY"%string]
    ["crash_hedge"%string] Backtest.mock (dec 5 100) (dec 150 100).

Definition emptyHanded (cash : num) : Backtest.BacktestEngine :=
  Backtest.mkEngine [] [] [] [] cash "2023-01-01" 123456789 quietConfig 0.

Definition quote (date underlying : string) (strike : num) (strikeStr : string)
    (expiry : string) (type : Backtest.OptionType) (price delta : num)
  : Backtest.OptionData :=
  Backtest.mkOption date (Backtest.symbolOf underlying expiry strikeStr type)
    underlying strike expiry type price (Some delta) None None None None None.

(** Marked on 2023-02-15: two long calls on US.SPY, strike 400, expired on
    2023-01-31 with the underlying at 410, and one put on US.IWM for which
    there is no data at all.  The surface of the day quotes the March call
    on US.SPY only. *)
Definition holdingExpiredCall : Backtest.BacktestEngine :=
  Backtest.mkEngine
    [("US.SPY"%string,
      [Backtest.mkMarket "2023-01-31" "US.SPY" (of_Z 410) (of_Z 1000000) None;
       Backtest.mkMarket "2023-02-15" "US.SPY" (of_Z 405) (of_Z 1000000) None])]
    [("US.SPY_2023-02-15"%string,
      [quote "2023-02-15" "US.SPY" (of_Z 400) "400" "2023-03-01"
         Backtest.CALL (of_Z 9) (dec 6 10)])]
    []
    [("US.SPY_2023-01-31_400_CALL"%string, of_Z 2);
     ("US.IWM_2023-01-31_150_PUT"%string, of_Z 1)]
    (of_Z 1000) "2023-02-15" 123456789 quietConfig 0.

(** The same day and data, holding the expired calls after three of the
    March calls that are quoted today. *)
Definition holdingLiveAndExpired : Backtest.BacktestEngine :=
  Backtest.mkEngine
    (Backtest.marketData holdingExpiredCall)
    (Backtest.optionData holdingExpiredCall)
    []
    [("US.SPY_2023-03-01_400_CALL"%string, of_Z 3);
     ("US.SPY_2023-01-31_400_CALL"%string, of_Z 2)]
    (of_Z 1000) "2023-02-15" 123456789 quietConfig 0.

(** A day on which the surface of US.SPY holds one put and no call. *)
Definition putsOnly : list Backtest.OptionData :=
  [quote "2023-01-01" "US.SPY" (of_Z 380) "380" "2023-01-31"
     Backtest.PUT (dec 120 100) (dec (-8) 100)].

(** A surface of three calls and four puts on US.SPY for 2023-01-31,
    quoted on 2023-01-01. *)
Definition callsAndPuts : list Backtest.OptionData :=
  [quote "2023-01-01" "US.SPY" (of_Z 395) "395" "2023-01-31"
     Backtest.CALL (of_Z 12) (dec 62 100);
   quote "2023-01-01" "US.SPY" (of_Z 400) "400" "2023-01-31"
     Backtest.CALL (of_Z 9) (dec 50 100);
   quote "2023-01-01" "US.SPY" (of_Z 405) "405" "2023-01-31"
     Backtest.CALL (of_Z 6) (dec 31 100);
   quote "2023-01-01" "US.SPY" (of_Z 400) "400" "2023-01-31"
     Backtest.PUT (of_Z 8) (dec (-50) 100);
   quote "2023-01-01" "US.SPY" (of_Z 395) "395" "2023-01-31"
     Backtest.PUT (of_Z 5) (dec (-30) 100);
   quote "2023-01-01" "US.SPY" (of_Z 390) "390" "2023-01-31"
     Backtest.PUT (of_Z 3) (dec (-22) 100);
   quote "2023-01-01" "US.SPY" (of_Z 380) "380" "2023-01-31"
     Backtest.PUT (dec 120 100) (dec (-8) 100)].

Definition straddleConfig : Backtest.BacktestConfig :=
  Backtest.mkConfig "2023-01-01" "2023-01-01" (of_Z 10000) ["US.SPY"%string]
    ["atm_straddle"%string] Backtest.mock (dec 5 100) (dec 150 100).

Definition loadedPutsOnly : Backtest.BacktestEngine :=
  Backtest.mkEngine
    [("US.SPY"%string,
      [Backtest.mkMarket "2023-01-01" "US.SPY" (of_Z 400) (of_Z 1000000) None])]
    [("US.SPY_2023-01-01"%string, putsOnly)]
    [] [] (of_Z 10000) "2023-01-01" 123456789 straddleConfig 0.

(** Two underlyings, each with one hedge put on the single trading day. *)
Definition hedgeConfig : Backtest.BacktestConfig :=
  Backtest.mkConfig "2023-01-01" "2023-01-01" (of_Z 10000)
    ["US.SPY"%string; "US.QQQ"%string] ["crash_hedge"%string] Backtest.mock
    (dec 5 100) (dec 150 100).

Definition loadedTwoSymbols : Backtest.BacktestEngine :=
  Backtest.mkEngine
    [("US.SPY"%string,
      [Backtest.mkMarket "2023-01-01" "US.SPY" (of_Z 400) (of_Z 1000000) None]);
     ("US.QQQ"%string,
      [Backtest.mkMarket "2023-01-01" "US.QQQ" (of_Z 300) (of_Z 1000000) None])]
    [("US.SPY_2023-01-01"%string, putsOnly);
     ("US.QQQ_2023-01-01"%string,
      [quote "2023-01-01" "US.QQQ" (of_Z 285) "285" "2023-01-31"
         Backtest.PUT (dec 90 100) (dec (-8) 100)])]
    [] [] (of_Z 10000) "" 123456789 hedgeConfig 0.

(** *** A ticker with an underscore *)

(** One underlying, BRK_B, as the generator and [loadData] would file it:
    three price points and, on the first day, a call and a put struck at
    380 for 2023-01-31.  The underlying is at 350 on the expiry date. *)
Definition underscoreConfig : Backtest.BacktestConfig :=
  Backtest.mkConfig "2023-01-01" "2023-02-15" (of_Z 10000) ["BRK_B"%string]
    ["crash_hedge"%string] Backtest.mock (dec 5 100) (dec 150 100).

Definition underscoreMarket : list Backtest.MarketData :=
  [Backtest.mkMarket "2023-01-01" "BRK_B" (of_Z 400) (of_Z 1000000) None;
   Backtest.mkMarket "2023-01-31" "BRK_B" (of_Z 350) (of_Z 1000000) None;
   Backtest.mkMarket "2023-02-15" "BRK_B" (of_Z 345) (of_Z 1000000) None].

Definition underscoreOptions : list Backtest.OptionData :=
  [quote "2023-01-01" "BRK_B" (of_Z 380) "380" "2023-01-31"
     Backtest.CALL (of_Z 25) (dec 80 100);
   quote "2023-01-01" "BRK_B" (of_Z 380) "380" "2023-01-31"
     Backtest.PUT (dec 120 100) (dec (-8) 100)].

Definition loadedUnderscore : Backtest.BacktestEngine :=
  Backtest.mkEngine
    [("BRK_B"%string, underscoreMarket)]
    [("BRK_B_2023-01-01"%string, underscoreOptions)]
    [] [] (of_Z 10000) "" 123456789 underscoreConfig 0.

(** *** Binary64 *)

Import PrimFloat.

(** Stand-ins for the functions of [Math] in binary64: [Math.log] at 1,
    where it is [+0]; [Math.exp] at [0] and [-0], where it is 1, and at
    the five arguments the examples below reach (two next to [-0.05], and
    [-0.0528125], [-0.0028125] as they come out rounded), to the nearest
    double; squares as the rounded product; the square root is the
    correctly rounded one.  Other arguments are not reached and are left
    as [NaN]. *)
Definition logOfOne (x : float) : float :=
  if (x =? 1)%float then 0%float else nan.

Definition expTable (x : float) : float :=
  if (x =? 0)%float then 1%float
  else if (x =? -0x1.999999999999ap-5)%float
          || (x =? -0x1.9999999999999p-5)%float
       then 0x1.e7078b0a726a6p-1%float
  else if (x =? -0x1.b0a3d70a3d70ap-5)%float then 0x1.e5a95fe3b823bp-1%float
  else if (x =? -0x1.70a3d70a3d70cp-9)%float then 0x1.fe8fe0befe899p-1%float
  else nan.

Definition squareOnly (x y : float) : float :=
  if (y =? 2)%float then (x * x)%float else nan.

(** The sleeves of a portfolio of 9000. *)
Definition nineThousand : Binary64.SleeveEquities :=
  Binary64.mkEquities 2000 1500 1000 4000 500 9000.

End Examples.

(* ================================================================== *)
(** * Properties *)

(** ** Numbers *)

Section NumFacts.

Lemma Qltb_spec (x y : Q) : BoolSpec (x < y)%Q (y <= x)%Q (JS.Qltb x y).
Proof.
  unfold JS.Qltb. destruct (x ?= y) eqn:E; constructor.
  - apply Qeq_alt in E. rewrite E. apply Qle_refl.
  - now apply Qlt_alt.
  - apply Qgt_alt in E. now apply Qlt_le_weak.
Qed.

Lemma Qeq_bool_spec (x y : Q) : BoolSpec (x == y) (~ x == y) (Qeq_bool x y).
Proof.
  destruct (Qeq_bool x y) eqn:E; constructor.
  - now apply Qeq_bool_eq.
  - now apply Qeq_bool_neq.
Qed.

Lemma max_Fin (x y : Q) :
  JS.max (Fin x) (Fin y) = Fin (if JS.Qltb x y then y else x).
Proof. unfold JS.max; simpl. now destruct (JS.Qltb x y). Qed.

Lemma min_Fin (x y : Q) :
  JS.min (Fin x) (Fin y) = Fin (if JS.Qltb y x then y else x).
Proof. unfold JS.min; simpl. now destruct (JS.Qltb y x). Qed.

Lemma div_Fin (x y : Q) :
  ~ y == 0 -> Fin x / Fin y = Fin (x / y).
Proof.
  intros H. unfold JS.div.
  destruct (Qeq_bool_spec y 0); [contradiction | reflexivity].
Qed.

Lemma le_Fin (x y : Q) :
  (Fin x <=? Fin y) = true <-> (x <= y)%Q.
Proof.
  unfold JS.le; simpl.
  destruct (Qltb_spec x y), (Qeq_bool_spec x y); simpl;
    split; intros; try easy; lra.
Qed.

Lemma le_Fin_false (x y : Q) :
  (Fin x <=? Fin y) = false <-> (y < x)%Q.
Proof.
  unfold JS.le; simpl.
  destruct (Qltb_spec x y), (Qeq_bool_spec x y); simpl;
    split; intros; try easy; lra.
Qed.

Lemma same_refl (a : num) : a =~ a.
Proof. destruct a; simpl; auto. reflexivity. Qed.

Lemma same_sym (a b : num) : a =~ b -> b =~ a.
Proof. destruct a, b; simpl; auto. intros H; now symmetry. Qed.

Lemma same_trans (a b c : num) : a =~ b -> b =~ c -> a =~ c.
Proof.
  destruct a, b, c; simpl; auto; try contradiction.
  intros H1 H2; now rewrite H1.
Qed.

End NumFacts.

(** ** Where binary64 rounding separates the code from the exact model *)

Module Binary64Proofs.

Import PrimFloat Examples.
#[local] Set Warnings "-inexact-float".
Local Open Scope float_scope.

(** C3 as stated fails in the arithmetic of the code: under the default
    configuration and a risky weight of one half the target weights are
    0.3, 0.075, 0.125, 0.48 and 0.02, which add up to 1; for a portfolio
    of 9000 and a deposit of 50 the five allocations add up to
    49.999999999999993, not to 50. *)
Lemma computeContributionsAllocation_misses_deposit :
  let targetWeights :=
    Binary64.computeTargetWeights Binary64.createDefaultCPPIConfig 0.5 in
  let allocation :=
    Binary64.computeContributionsAllocation targetWeights nineThousand 50 in
  Binary64.sumWeights targetWeights = 1
  /\ Binary64.sleeveTotal nineThousand = Binary64.total nineThousand
  /\ allocation
     = Binary64.mkWeights 30.035706784289012 0 5.5135475740390669
         14.450745641671917 0
  /\ Binary64.sumWeights allocation = 49.999999999999993
  /\ (Binary64.sumWeights allocation =? 50) = false.
Proof. vm_compute. repeat split. Qed.

(** The five target weights at a risky weight of 0.1 add up to
    0.99999999999999989. *)
Lemma computeTargetWeights_sum_rounds :
  let targetWeights :=
    Binary64.computeTargetWeights Binary64.createDefaultCPPIConfig 0.1 in
  Binary64.sumWeights targetWeights = 0.99999999999999989
  /\ (Binary64.sumWeights targetWeights =? 1) = false.
Proof. vm_compute. repeat split. Qed.

(** The current weights of five sleeves that make up the total add up to
    0.99999999999999989. *)
Lemma computeCurrentWeights_sum_rounds :
  let sleeveEquities := Binary64.mkEquities 2323 87 4733 4263 400 11806 in
  Binary64.sleeveTotal sleeveEquities = Binary64.total sleeveEquities
  /\ Binary64.sumWeights (Binary64.computeCurrentWeights sleeveEquities)
     = 0.99999999999999989.
Proof. vm_compute. repeat split. Qed.

(** After the weekly deposit the total is 5550 and the five sleeves add up
    to 5549.9999999999991: the total stops being the sum of the
    sleeves. *)
Lemma addAllocation_total_drifts :
  let sleeveEquities := Binary64.mkEquities 500 1000 3000 500 500 5500 in
  let targetWeights :=
    Binary64.computeTargetWeights Binary64.createDefaultCPPIConfig 0.25 in
  let allocation :=
    Binary64.computeContributionsAllocation targetWeights sleeveEquities 50 in
  let after := Binary64.addAllocation sleeveEquities allocation 50 in
  Binary64.sleeveTotal sleeveEquities = Binary64.total sleeveEquities
  /\ Binary64.total after = 5550
  /\ Binary64.sleeveTotal after = 5549.9999999999991.
Proof. vm_compute. repeat split. Qed.

(** C7 as stated fails inside its domain, in two ways.  At spot and
    strike 2000000, one year to expiry and volatility [sqrt 0.1] (about
    0.316), [d1] is the volatility itself and [d2] is exactly 0; the error
    function returns [1e-9] at 0 on both sides, so the two tails of the
    normal law at [d2] add up to more than 1 and call minus put misses
    spot minus discounted strike by 0.0019.  At spot and strike [1e15],
    one year and volatility 0.25, neither [d1] nor [d2] is 0 and rounding
    alone puts the difference at 0.1875. *)
Lemma calculateOptionPrice_parity_off :
  let parityGap (S K T vol : float) :=
    Binary64.calculateOptionPrice logOfOne expTable sqrt squareOnly
      S K T vol Backtest.CALL
    - Binary64.calculateOptionPrice logOfOne expTable sqrt squareOnly
        S K T vol Backtest.PUT
    - (S - K * expTable (- 0.05 * T)) in
  let d1 := Binary64.d1Of logOfOne sqrt squareOnly in
  let inDomain (S K T vol : float) :=
    (0 <? S) && (0 <? K) && (0.02 <=? T) && (T <=? 1)
    && (0.05 <=? vol) && (vol <=? 1) in
  (inDomain 2000000 2000000 1 (sqrt 0.1) = true
   /\ d1 2000000 2000000 1 (sqrt 0.1) = sqrt 0.1
   /\ d1 2000000 2000000 1 (sqrt 0.1) - sqrt 0.1 * sqrt 1 = 0
   /\ Binary64.erf expTable 0 = 9.9999997171806854e-10
   /\ Binary64.normalCDF expTable sqrt 0
      + Binary64.normalCDF expTable sqrt (- 0)
      = 1.000000001
   /\ parityGap 2000000 2000000 1 (sqrt 0.1) = -0.0019024589564651251
   /\ (0.001 <? abs (parityGap 2000000 2000000 1 (sqrt 0.1))) = true)
  /\ (inDomain 1000000000000000 1000000000000000 1 0.25 = true
      /\ d1 1000000000000000 1000000000000000 1 0.25 = 0.325
      /\ d1 1000000000000000 1000000000000000 1 0.25 - 0.25 * sqrt 1
         = 0.07500000000000001
      /\ parityGap 1000000000000000 1000000000000000 1 0.25 = -0.1875
      /\ (0.001 <? abs (parityGap 1000000000000000 1000000000000000 1 0.25))
         = true).
Proof. vm_compute. repeat split. Qed.

End Binary64Proofs.

(** ** The CPPI policy engine *)

Module CPPIProofs.

Import CPPI Examples.

(** *** Weeks and invested-to-date *)

Lemma getWeeksSinceStart_div (this : CPPIEngine) (currentDate : Date) :
  getWeeksSinceStart this currentDate
  = of_Z ((currentDate - startDate this) / 604800000)%Z.
Proof.
  unfold getWeeksSinceStart, getTime, msPerWeek.
  change (of_Z currentDate - of_Z (startDate this))
    with (Fin (inject_Z currentDate + - inject_Z (startDate this))).
  unfold JS.of_Z at 1. rewrite div_Fin by (compute; discriminate).
  change (7 * 24 * 60 * 60 * 1000)%Z with 604800000%Z.
  unfold JS.floor. f_equal.
  rewrite Zdiv_Qdiv. apply Qfloor_comp.
  unfold Z.sub. rewrite inject_Z_plus, inject_Z_opp. reflexivity.
Qed.

(** C9, as the code has it: the starting capital is the literal 10000,
    whatever the run is configured with; the weeks are whole weeks between
    the two time values. *)
Theorem computeInvestedToDate_fixed_start (this : CPPIEngine)
    (currentDate : Date) :
  computeInvestedToDate this currentDate
  = of_Z 10000
    + weeklyDeposit (config this)
      * of_Z ((currentDate - startDate this) / 604800000)%Z.
Proof.
  unfold computeInvestedToDate. now rewrite getWeeksSinceStart_div.
Qed.

(** C9 as stated fails: a run configured with an initial capital of 25000
    still has 10000 invested at its start date. *)
Lemma computeInvestedToDate_ignores_initialCapital :
  ~ (computeInvestedToDate defaultEngine 0%Z
     =~ Backtest.initialCapital run25000
        + weeklyDeposit (config defaultEngine)
          * getWeeksSinceStart defaultEngine 0%Z).
Proof. vm_compute. discriminate. Qed.

(** *** Floor, cushion and risky weight *)

(** Away from a zero total, a portfolio at or below its floor has no
    cushion and no risky weight. *)
Lemma metrics_below_floor (this : CPPIEngine)
    (e : SleeveEquities) (currentDate : Date) (t f m : Q) :
  total e = Fin t ->
  floorPct (config this) * computeInvestedToDate this currentDate = Fin f ->
  cppiM (config this) = Fin m ->
  (t <= f)%Q -> ~ t == 0 ->
  cushion (computeCPPIMetrics this e currentDate) =~ of_Z 0
  /\ riskyWeight (computeCPPIMetrics this e currentDate) =~ of_Z 0.
Proof.
  intros Ht Hf Hm Hle Hnz.
  unfold computeCPPIMetrics; cbn [cushion riskyWeight]. rewrite Ht, Hf, Hm.
  change (Fin t - Fin f) with (Fin (t + - f)%Q).
  unfold JS.of_Z. rewrite max_Fin.
  set (c :=
         (if JS.Qltb (t + - f) (inject_Z 0) then inject_Z 0 else t + - f)%Q).
  assert (Hc : c == 0).
  { subst c. destruct (Qltb_spec (t + - f)%Q (inject_Z 0));
      unfold inject_Z in *; [reflexivity | lra]. }
  change (Fin m * Fin c) with (Fin (m * c)%Q).
  rewrite div_Fin by assumption. rewrite min_Fin.
  assert (Hr : (m * c / t == 0)%Q) by (rewrite Hc; field; assumption).
  split; [exact Hc |].
  simpl. destruct (Qltb_spec (inject_Z 1) (m * c / t)%Q);
    unfold inject_Z in *; [lra | exact Hr].
Qed.

(** C1 at a portfolio that holds nothing: the total is below the floor and
    the cushion is 0, but the risky weight is [0 / 0]. *)
Theorem computeCPPIMetrics_zero_equity :
  let m := computeCPPIMetrics defaultEngine noEquity 0%Z in
  (total noEquity <=? floor m) = true
  /\ cushion m = of_Z 0
  /\ riskyWeight m = NaN
  /\ (riskyWeight m === of_Z 0) = false.
Proof. vm_compute. repeat split. Qed.

(** *** Target weights *)

(** The collar weight is clamped at zero from below, for finite inputs. *)
Lemma targetWeights_collar_nonneg (this : CPPIEngine) (r d c s h : Q) :
  riskySplit (config this) = mkRiskySplit d c s h ->
  exists k : Q,
    collar (computeTargetWeights this r) = Fin k /\ (0 <= k)%Q.
Proof.
  intros E. unfold computeTargetWeights. rewrite E.
  cbn [split_debit split_credit split_straddle hedgeFixed collar].
  unfold JS.of_Z. cbn [JS.add JS.mul JS.sub JS.neg]. rewrite max_Fin.
  eexists; split; [reflexivity |].
  match goal with |- context [JS.Qltb ?a ?b] => destruct (Qltb_spec a b) end;
    unfold inject_Z in *; lra.
Qed.

(** The five target weights add up to 1 as long as the four others leave
    room for the collar, and to the sum of the four others beyond that. *)
Lemma targetWeights_total (this : CPPIEngine) (r d c s h : Q) :
  riskySplit (config this) = mkRiskySplit d c s h ->
  sumWeights (computeTargetWeights this r)
  =~ Fin (Qmax 1 (r * d + r * c + r * s + h)).
Proof.
  intros E. unfold computeTargetWeights, sumWeights. rewrite E.
  cbn [split_debit split_credit split_straddle hedgeFixed
       debit credit straddle collar hedge].
  unfold JS.of_Z. cbn [JS.add JS.mul JS.sub JS.neg]. rewrite max_Fin.
  cbn [JS.add JS.same].
  destruct (Q.max_spec 1 (r * d + r * c + r * s + h)) as [[Hlt ->] | [Hle ->]];
    match goal with |- context [JS.Qltb ?a ?b] => destruct (Qltb_spec a b) end;
    unfold inject_Z in *; lra.
Qed.

(** C2 under the default configuration, for a portfolio whose risky weight
    is 1: the collar weight is 0 and the five weights add up to 1.02. *)
Theorem computeTargetWeights_sum_above_one :
  let m := computeCPPIMetrics defaultEngine aboveFloor 0%Z in
  riskyWeight m =~ of_Z 1
  /\ targetWeights m = computeTargetWeights defaultEngine (riskyWeight m)
  /\ collar (targetWeights m) =~ of_Z 0
  /\ sumWeights (targetWeights m) =~ dec 102 100
  /\ (JS.abs (sumWeights (targetWeights m) - of_Z 1) >? dec 1 1000000) = true.
Proof. vm_compute. repeat split. Qed.

(** *** Contribution allocation *)

(** Each clamped shortfall is a non-negative finite amount. *)
Lemma shortfall_Fin (w t d e : Q) :
  exists s : Q, (0 <= s)%Q
    /\ JS.max (of_Z 0) (Fin w * (Fin t + Fin d) - Fin e) = Fin s.
Proof.
  unfold JS.of_Z. cbn [JS.add JS.mul JS.sub JS.neg]. rewrite max_Fin.
  eexists; split; [| reflexivity].
  destruct (Qltb_spec (inject_Z 0) (w * (t + d) + - e)%Q);
    unfold inject_Z in *; lra.
Qed.

(** For finite weights that do not add up to zero, finite equities and a
    finite deposit that is not negative, the five allocations add up to
    the deposit over the rationals, in both branches. *)
Lemma allocation_sums_to_deposit
    (wd wc ws wl wh ed ec es el eh tot dep : Q) :
  (0 <= dep)%Q ->
  ~ (wd + wc + ws + wl + wh == 0)%Q ->
  sumWeights
    (computeContributionsAllocation (mkWeights wd wc ws wl wh)
       (mkEquities ed ec es el eh tot) dep)
  =~ Fin dep.
Proof.
  intros Hdep HW.
  unfold computeContributionsAllocation.
  cbn [debit credit straddle collar hedge
       eq_debit eq_credit eq_straddle eq_collar eq_hedge total].
  destruct (shortfall_Fin wd tot dep ed) as (s1 & H1 & ->).
  destruct (shortfall_Fin wc tot dep ec) as (s2 & H2 & ->).
  destruct (shortfall_Fin ws tot dep es) as (s3 & H3 & ->).
  destruct (shortfall_Fin wl tot dep el) as (s4 & H4 & ->).
  destruct (shortfall_Fin wh tot dep eh) as (s5 & H5 & ->).
  cbn [JS.add JS.sub JS.neg].
  rewrite !div_Fin by exact HW.
  destruct (Fin (s1 + s2 + s3 + s4 + s5) <=? Fin dep) eqn:Hle.
  - (* shortfalls funded in full, the rest spread by target weight *)
    apply le_Fin in Hle.
    unfold JS.gt, JS.of_Z, JS.lt.
    destruct (Qltb_spec (inject_Z 0) (dep + - (s1 + s2 + s3 + s4 + s5))%Q)
      as [Hrem | Hrem];
      unfold sumWeights;
      cbn [debit credit straddle collar hedge JS.add JS.mul JS.same].
    + field. exact HW.
    + unfold inject_Z in Hrem. lra.
  - (* every shortfall scaled by deposit / totalShortfall *)
    apply le_Fin_false in Hle.
    assert (HTS : ~ (s1 + s2 + s3 + s4 + s5 == 0)%Q) by lra.
    rewrite div_Fin by exact HTS.
    unfold sumWeights;
      cbn [debit credit straddle collar hedge JS.add JS.mul JS.same].
    field. exact HTS.
Qed.

(** The target weights of a finite risky weight under a finite split are
    five finite numbers that add up to 1 or more. *)
Lemma targetWeights_Fin (this : CPPIEngine) (r d c s h : Q) :
  riskySplit (config this) = mkRiskySplit d c s h ->
  exists l : Q,
    computeTargetWeights this r = mkWeights (r * d) (r * c) (r * s) l h
    /\ (1 <= r * d + r * c + r * s + l + h)%Q.
Proof.
  intros E. unfold computeTargetWeights. rewrite E.
  cbn [split_debit split_credit split_straddle hedgeFixed].
  unfold JS.of_Z. cbn [JS.add JS.mul JS.sub JS.neg]. rewrite max_Fin.
  eexists; split; [reflexivity |].
  match goal with |- context [JS.Qltb ?a ?b] => destruct (Qltb_spec a b) end;
    unfold inject_Z in *; lra.
Qed.

(** C3, amended: over the rationals, the five allocations computed for the
    target weights of a finite risky weight, finite equities and a finite
    deposit that is not negative add up to the deposit, whichever branch
    is taken.  In the binary64 arithmetic of the code the same input
    can miss the deposit by a rounding error, as module
    [Binary64Proofs] shows at a deposit of 50. *)
Theorem computeContributionsAllocation_sums_exactly
    (this : CPPIEngine) (r d c s h ed ec es el eh tot dep : Q) :
  riskySplit (config this) = mkRiskySplit d c s h ->
  (0 <= dep)%Q ->
  sumWeights
    (computeContributionsAllocation (computeTargetWeights this r)
       (mkEquities ed ec es el eh tot) dep)
  =~ Fin dep.
Proof.
  intros E Hdep.
  destruct (targetWeights_Fin this r d c s h E) as (l & -> & Hsum).
  apply allocation_sums_to_deposit; [exact Hdep | lra].
Qed.

(** Under the default configuration, at a risky weight of one half, a
    portfolio of 9000 and a deposit of 50. *)
Lemma computeContributionsAllocation_sums_exactly_witness :
  sumWeights
    (computeContributionsAllocation
       (computeTargetWeights defaultEngine (1 # 2))
       (mkEquities 2000 1500 1000 4000 500 9000) 50)
  =~ Fin 50.
Proof.
  apply (computeContributionsAllocation_sums_exactly defaultEngine
           (1 # 2) (60 # 100) (15 # 100) (25 # 100) (2 # 100)
           2000 1500 1000 4000 500 9000 50).
  - reflexivity.
  - unfold Qle; simpl; lia.
Defined.

(** The division by the sum of the target weights has no guard: on
    weights that add up to zero, which [computeTargetWeights] never
    returns, the remainder is spread by [0 / 0] and every allocation is
    [NaN]. *)
Lemma computeContributionsAllocation_zero_weights :
  (of_Z 50 >=? of_Z 0) = true
  /\ computeContributionsAllocation noWeights noEquity (of_Z 50)
     = mkWeights NaN NaN NaN NaN NaN
  /\ ~ (sumWeights (computeContributionsAllocation noWeights noEquity (of_Z 50))
        =~ of_Z 50).
Proof. vm_compute. repeat split. intros []. Qed.

End CPPIProofs.

(** ** More of the CPPI policy engine *)

Module CPPIExtra.

Import CPPI Examples CPPIProofs.

Lemma lt_Fin (x y : Q) : (Fin x <? Fin y) = true <-> (x < y)%Q.
Proof.
  cbn [JS.lt]. destruct (Qltb_spec x y); split; intros; try easy; lra.
Qed.

(** *** Floor, cushion and risky weight *)

(** X1: for a positive total and a multiplier that is not negative, the
    cushion is exactly the excess of the total over the floor, clamped at
    zero, and the risky weight is exactly [M * cushion / total], capped at
    1: between 0 and 1, zero at or below the floor, one as soon as
    [M * cushion] reaches the total. *)
Theorem computeCPPIMetrics_riskyWeight_range (this : CPPIEngine)
    (e : SleeveEquities) (currentDate : Date) (t f m : Q) :
  total e = Fin t ->
  floorPct (config this) * computeInvestedToDate this currentDate = Fin f ->
  cppiM (config this) = Fin m ->
  (0 < t)%Q -> (0 <= m)%Q ->
  exists c r : Q,
    cushion (computeCPPIMetrics this e currentDate) = Fin c
    /\ riskyWeight (computeCPPIMetrics this e currentDate) = Fin r
    /\ (c == Qmax (t - f) 0)%Q
    /\ (r == Qmin (m * c / t) 1)%Q
    /\ (0 <= c)%Q /\ (t - f <= c)%Q
    /\ (t <= f -> c == 0 /\ r == 0)%Q
    /\ (0 <= r <= 1)%Q
    /\ (t <= m * c -> r == 1)%Q
    /\ (m * c <= t -> r == m * c / t)%Q.
Proof.
  intros Ht Hf Hm Hpos Hm0.
  unfold computeCPPIMetrics; cbn [cushion riskyWeight]. rewrite Ht, Hf, Hm.
  change (Fin t - Fin f) with (Fin (t + - f)%Q).
  unfold JS.of_Z. rewrite max_Fin.
  set (c :=
         (if JS.Qltb (t + - f) (inject_Z 0) then inject_Z 0 else t + - f)%Q).
  assert (Hc : (c == Qmax (t - f) 0)%Q).
  { subst c. destruct (Qltb_spec (t + - f)%Q (inject_Z 0));
      unfold inject_Z in *.
    - rewrite Q.max_r by lra. reflexivity.
    - rewrite Q.max_l by lra. reflexivity. }
  assert (Hc0 : (0 <= c)%Q) by (rewrite Hc; apply Q.le_max_r).
  assert (Hc1 : (t - f <= c)%Q) by (rewrite Hc; apply Q.le_max_l).
  assert (Hc2 : (t <= f -> c == 0)%Q).
  { intros H. rewrite Hc. apply Q.max_r. lra. }
  change (Fin m * Fin c) with (Fin (m * c)%Q).
  assert (Ht0 : ~ t == 0) by lra.
  rewrite div_Fin by exact Ht0. rewrite min_Fin.
  set (r := (if JS.Qltb (inject_Z 1) (m * c / t) then inject_Z 1
             else m * c / t)%Q).
  assert (Hr : (r == Qmin (m * c / t) 1)%Q).
  { subst r. destruct (Qltb_spec (inject_Z 1) (m * c / t)%Q);
      unfold inject_Z in *.
    - rewrite Q.min_r by lra. reflexivity.
    - rewrite Q.min_l by lra. reflexivity. }
  exists c, r. split; [reflexivity |]. split; [reflexivity |].
  split; [exact Hc |]. split; [exact Hr |].
  split; [exact Hc0 |]. split; [exact Hc1 |].
  assert (Hz : (c == 0 -> m * c / t == 0)%Q).
  { intros E. rewrite E. field. exact Ht0. }
  assert (Hq : (0 <= m * c / t)%Q).
  { apply Qle_shift_div_l; [exact Hpos | nra]. }
  assert (Hiff1 : (t <= m * c -> 1 <= m * c / t)%Q).
  { intros H. apply Qle_shift_div_l; [exact Hpos | lra]. }
  assert (Hiff2 : (m * c <= t -> m * c / t <= 1)%Q).
  { intros H. apply Qle_shift_div_r; [exact Hpos | lra]. }
  split.
  { intros H. split; [exact (Hc2 H) |].
    rewrite Hr, (Hz (Hc2 H)). apply Q.min_l. lra. }
  split.
  { rewrite Hr. split.
    - apply Q.min_glb; lra.
    - apply Q.le_min_r. }
  split.
  - intros H. rewrite Hr. apply Q.min_r. exact (Hiff1 H).
  - intros H. rewrite Hr. apply Q.min_l. exact (Hiff2 H).
Qed.

(** A portfolio of 9000 against a floor of 8500 under a multiplier of 4:
    the cushion is 500 and the risky weight 2000 / 9000. *)
Lemma computeCPPIMetrics_riskyWeight_range_witness :
  exists c r : Q,
    cushion
      (computeCPPIMetrics defaultEngine
         (mkEquities 2000 1500 1000 4000 500 9000) 0%Z)
    = Fin c
    /\ riskyWeight
         (computeCPPIMetrics defaultEngine
            (mkEquities 2000 1500 1000 4000 500 9000) 0%Z)
       = Fin r
    /\ (c == Qmax (9000 - (850000 # 100)) 0)%Q
    /\ (r == Qmin ((4 # 1) * c / 9000) 1)%Q
    /\ (0 <= r <= 1)%Q.
Proof.
  destruct (computeCPPIMetrics_riskyWeight_range defaultEngine
              (mkEquities 2000 1500 1000 4000 500 9000) 0%Z
              9000 (850000 # 100) (4 # 1))
    as (c & r & Hc & Hr & Hcushion & Hweight & _ & _ & _ & Hrange & _).
  - reflexivity.
  - vm_compute. reflexivity.
  - reflexivity.
  - unfold Qlt; simpl; lia.
  - unfold Qle; simpl; lia.
  - exists c, r. repeat split; try assumption; apply Hrange.
Defined.

(** *** Target and current weights *)

(** X2: in exact arithmetic, over the rationals.  The collar weight is
    never negative; the five target weights add up to 1 as long as the
    risky weights and the hedge leave room for the collar, and to their
    own sum, with a collar of 0, beyond that.  In binary64 the sum is 1
    up to rounding only: at a risky weight of 0.1 the five weights add up
    to 0.99999999999999989, as module [Binary64Proofs] shows. *)
Theorem computeTargetWeights_collar_absorbs (this : CPPIEngine)
    (r d c s h : Q) :
  riskySplit (config this) = mkRiskySplit d c s h ->
  (exists k : Q,
     collar (computeTargetWeights this r) = Fin k /\ (0 <= k)%Q)
  /\ ((r * d + r * c + r * s + h <= 1)%Q ->
      sumWeights (computeTargetWeights this r) =~ of_Z 1)
  /\ ((1 < r * d + r * c + r * s + h)%Q ->
      collar (computeTargetWeights this r) =~ of_Z 0
      /\ sumWeights (computeTargetWeights this r)
         =~ Fin (r * d + r * c + r * s + h)).
Proof.
  intros E. split; [exact (targetWeights_collar_nonneg this r d c s h E) |].
  pose proof (targetWeights_total this r d c s h E) as Htot.
  split.
  - intros Hle. eapply same_trans; [exact Htot |].
    cbn [JS.same]. unfold JS.of_Z, inject_Z; cbn [JS.same].
    rewrite Q.max_l by exact Hle. reflexivity.
  - intros Hgt. split.
    + unfold computeTargetWeights. rewrite E.
      cbn [split_debit split_credit split_straddle hedgeFixed collar].
      unfold JS.of_Z. cbn [JS.add JS.mul JS.sub JS.neg]. rewrite max_Fin.
      match goal with |- context [JS.Qltb ?a ?b] => destruct (Qltb_spec a b) end;
        unfold inject_Z in *; cbn [JS.same]; [lra | reflexivity].
    + eapply same_trans; [exact Htot |]. cbn [JS.same].
      rewrite Q.max_r by lra. reflexivity.
Qed.

Lemma computeTargetWeights_collar_absorbs_witness :
  sumWeights (computeTargetWeights defaultEngine (1 # 2)) =~ of_Z 1.
Proof.
  destruct (computeTargetWeights_collar_absorbs defaultEngine (1 # 2)
              (60 # 100) (15 # 100) (25 # 100) (2 # 100) eq_refl)
    as (_ & Hsum & _).
  apply Hsum. unfold Qle; simpl; lia.
Defined.

(** X3: the current weights are all zero for a total that is not
    positive; for a positive total that is the sum of its five sleeves
    they add up to 1 in exact arithmetic, over the rationals.  In binary64
    the five quotients are rounded and add up to 1 up to rounding only:
    0.99999999999999989 for sleeves of 2323, 87, 4733, 4263 and 400, as
    module [Binary64Proofs] shows. *)
Theorem computeCurrentWeights_sum (d c s l h t : Q) :
  let e := mkEquities d c s l h t in
  ((t <= 0)%Q ->
   computeCurrentWeights e
   = mkWeights (of_Z 0) (of_Z 0) (of_Z 0) (of_Z 0) (of_Z 0))
  /\ ((0 < t)%Q -> (t == d + c + s + l + h)%Q ->
      sumWeights (computeCurrentWeights e) =~ of_Z 1).
Proof.
  intros e. subst e. unfold computeCurrentWeights. cbn [total]. unfold JS.of_Z.
  split.
  - intros Hle. now rewrite (proj2 (le_Fin t (inject_Z 0)) Hle).
  - intros Hpos Hsum.
    assert (Hf : (Fin t <=? Fin (inject_Z 0)) = false)
      by (apply le_Fin_false; exact Hpos).
    rewrite Hf. cbn [eq_debit eq_credit eq_straddle eq_collar eq_hedge].
    assert (Ht : ~ t == 0) by lra.
    rewrite !div_Fin by exact Ht.
    unfold sumWeights. cbn [debit credit straddle collar hedge JS.add JS.same].
    unfold inject_Z. rewrite Hsum. field. lra.
Qed.

Lemma computeCurrentWeights_sum_witness :
  sumWeights (computeCurrentWeights (mkEquities 2000 1500 1000 4000 500 9000))
  =~ of_Z 1.
Proof.
  apply (computeCurrentWeights_sum 2000 1500 1000 4000 500 9000).
  - unfold Qlt; simpl; lia.
  - unfold Qeq; simpl; lia.
Defined.


(** *** Rebalance cadence *)

(** X4: once a rebalance is marked as executed in week [marked], no
    rebalance is signalled before week [marked + rebalanceEveryWeeks],
    whatever the drift. *)
Theorem shouldRebalance_after_executeRebalance (this : CPPIEngine)
    (targetWeights currentWeights : SleeveWeights) (marked every week : Q) :
  rebalanceEveryWeeks (config this) = Fin every ->
  (week < marked + every)%Q ->
  shouldRebalance (executeRebalance this (Fin marked))
    targetWeights currentWeights (Fin week)
  = false.
Proof.
  intros Hevery Hlt. unfold shouldRebalance, executeRebalance.
  cbn [lastRebalanceWeek config]. rewrite Hevery. cbn [JS.add].
  now rewrite (proj2 (lt_Fin week (marked + every)) Hlt).
Qed.

Lemma shouldRebalance_after_executeRebalance_witness :
  shouldRebalance (executeRebalance defaultEngine (Fin 8))
    (mkWeights 1 0 0 0 0) (mkWeights 0 0 0 1 0) (Fin 11)
  = false.
Proof.
  apply (shouldRebalance_after_executeRebalance defaultEngine
           (mkWeights 1 0 0 0 0) (mkWeights 0 0 0 1 0) 8 4 11 eq_refl).
  unfold Qlt; simpl; lia.
Defined.


(** Division by four, truncated as [%] does it. *)
Lemma trunc_quarter (z : Z) :
  JS.trunc (inject_Z z / inject_Z 4) = Z.quot z 4.
Proof.
  unfold JS.trunc.
  destruct (Qle_bool 0 (inject_Z z / inject_Z 4)) eqn:E.
  - apply Qle_bool_iff in E.
    assert (Hz : (0 <= z)%Z).
    { apply Qmult_le_r with (z := inject_Z 4) in E; [| reflexivity].
      rewrite Qmult_0_l in E.
      assert (H4 : inject_Z z / inject_Z 4 * inject_Z 4 == inject_Z z)
        by (field; discriminate).
      rewrite H4 in E. rewrite (Zle_Qle 0 z). exact E. }
    rewrite <- Zdiv_Qdiv. symmetry. apply Z.quot_div_nonneg; lia.
  - assert (Hz : (z < 0)%Z).
    { destruct (Z_lt_le_dec z 0) as [H | H]; [exact H | exfalso].
      assert (Hq : (0 <= inject_Z z / inject_Z 4)%Q).
      { apply Qle_shift_div_l; [reflexivity |]. rewrite Qmult_0_l.
        rewrite (Zle_Qle 0 z) in H. exact H. }
      apply Qle_bool_iff in Hq. congruence. }
    unfold Qceiling.
    assert (Hneg : (- (inject_Z z / inject_Z 4) == inject_Z (- z) / inject_Z 4)%Q).
    { rewrite inject_Z_opp. field. }
    rewrite (Qfloor_comp _ _ Hneg), <- Zdiv_Qdiv.
    rewrite <- (Z.opp_involutive z) at 2.
    rewrite Z.quot_opp_l by lia.
    rewrite Z.quot_div_nonneg by lia. reflexivity.
Qed.

(** X9: straddles are placed in the weeks whose number is a multiple of
    four, and in no other. *)
Theorem shouldPlaceStraddleThisWeek_every_fourth (week : Z) :
  shouldPlaceStraddleThisWeek (of_Z week) = true <-> (week mod 4 = 0)%Z.
Proof.
  unfold shouldPlaceStraddleThisWeek, JS.rem, JS.of_Z.
  change (Qeq_bool (inject_Z 4) 0) with false. cbn iota.
  rewrite trunc_quarter. cbn [JS.eqb].
  rewrite Qeq_bool_iff.
  rewrite <- inject_Z_mult. unfold Qminus. rewrite <- inject_Z_opp, <- inject_Z_plus.
  rewrite inject_Z_injective.
  pose proof (Z.quot_rem' week 4) as Hqr.
  pose proof (Z.rem_mod_eq_0 week 4 ltac:(lia)) as Hrm.
  split; intros H.
  - apply Hrm. lia.
  - apply Hrm in H. lia.
Qed.

(** *** Invested to date *)

(** X8: one week later the week count is one higher and, for a weekly
    deposit that is a whole number, the amount invested to date is one
    deposit higher.  The two bounds keep the time difference and the
    amounts below 2^53, where every number involved is an integer that a
    double holds exactly, so that the rationals and binary64 agree. *)
Theorem computeInvestedToDate_weekly_step (this : CPPIEngine)
    (currentDate : Date) (w : Z) :
  weeklyDeposit (config this) = of_Z w ->
  (Z.abs (currentDate - startDate this) + 604800000 < 2 ^ 53)%Z ->
  (10000
   + Z.abs w * (Z.abs (currentDate - startDate this) / 604800000 + 2)
   < 2 ^ 53)%Z ->
  getWeeksSinceStart this (currentDate + 604800000)%Z
  =~ getWeeksSinceStart this currentDate + of_Z 1
  /\ computeInvestedToDate this (currentDate + 604800000)%Z
     =~ computeInvestedToDate this currentDate + of_Z w.
Proof.
  intros Hw _ _. unfold computeInvestedToDate.
  rewrite !getWeeksSinceStart_div, Hw.
  replace ((currentDate + 604800000 - startDate this) / 604800000)%Z
    with ((currentDate - startDate this) / 604800000 + 1)%Z.
  - unfold JS.of_Z. cbn [JS.add JS.mul JS.same].
    rewrite !inject_Z_plus. change (inject_Z 1) with 1%Q. split; ring.
  - replace (currentDate + 604800000 - startDate this)%Z
      with (currentDate - startDate this + 1 * 604800000)%Z by lia.
    rewrite Z.div_add by lia. reflexivity.
Qed.

(** Three weeks after the start, under the default deposit of 50. *)
Lemma computeInvestedToDate_weekly_step_witness :
  getWeeksSinceStart defaultEngine (3 * 604800000 + 604800000)%Z
  =~ getWeeksSinceStart defaultEngine (3 * 604800000)%Z + of_Z 1
  /\ computeInvestedToDate defaultEngine (3 * 604800000 + 604800000)%Z
     =~ computeInvestedToDate defaultEngine (3 * 604800000)%Z + of_Z 50.
Proof.
  apply (computeInvestedToDate_weekly_step defaultEngine (3 * 604800000)%Z 50).
  - reflexivity.
  - vm_compute. reflexivity.
  - vm_compute. reflexivity.
Defined.

(** *** Contribution allocation *)

(** The allocation, sleeve by sleeve: finite, not negative, and adding up
    to the deposit. *)
Lemma allocation_shape (wd wc ws wl wh ed ec es el eh tot dep : Q) :
  (0 <= wd)%Q -> (0 <= wc)%Q -> (0 <= ws)%Q -> (0 <= wl)%Q -> (0 <= wh)%Q ->
  (0 < wd + wc + ws + wl + wh)%Q ->
  (0 <= dep)%Q ->
  exists a1 a2 a3 a4 a5 : Q,
    computeContributionsAllocation (mkWeights wd wc ws wl wh)
      (mkEquities ed ec es el eh tot) dep
    = mkWeights a1 a2 a3 a4 a5
    /\ (0 <= a1)%Q /\ (0 <= a2)%Q /\ (0 <= a3)%Q /\ (0 <= a4)%Q /\ (0 <= a5)%Q
    /\ (a1 + a2 + a3 + a4 + a5 == dep)%Q.
Proof.
  intros Hd Hc Hs Hl Hh HW Hdep.
  assert (HW0 : ~ (wd + wc + ws + wl + wh == 0)%Q) by lra.
  unfold computeContributionsAllocation.
  cbn [debit credit straddle collar hedge
       eq_debit eq_credit eq_straddle eq_collar eq_hedge total].
  destruct (shortfall_Fin wd tot dep ed) as (s1 & H1 & ->).
  destruct (shortfall_Fin wc tot dep ec) as (s2 & H2 & ->).
  destruct (shortfall_Fin ws tot dep es) as (s3 & H3 & ->).
  destruct (shortfall_Fin wl tot dep el) as (s4 & H4 & ->).
  destruct (shortfall_Fin wh tot dep eh) as (s5 & H5 & ->).
  cbn [JS.add JS.sub JS.neg].
  rewrite !div_Fin by exact HW0.
  set (W := (wd + wc + ws + wl + wh)%Q) in *.
  assert (Hfrac : forall w : Q, (0 <= w)%Q -> (0 <= w / W)%Q).
  { intros w Hw. apply Qle_shift_div_l; [exact HW | lra]. }
  destruct (Fin (s1 + s2 + s3 + s4 + s5) <=? Fin dep) eqn:Hle.
  - apply le_Fin in Hle.
    unfold JS.gt, JS.of_Z, JS.lt.
    destruct (Qltb_spec (inject_Z 0) (dep + - (s1 + s2 + s3 + s4 + s5))%Q)
      as [Hrem | Hrem]; unfold inject_Z in Hrem.
    + cbn [JS.add JS.mul]. do 5 eexists. split; [reflexivity |].
      pose proof (Hfrac wd Hd). pose proof (Hfrac wc Hc).
      pose proof (Hfrac ws Hs). pose proof (Hfrac wl Hl).
      pose proof (Hfrac wh Hh).
      repeat split; try nra.
      subst W. field. exact HW0.
    + do 5 eexists. split; [reflexivity |]. repeat split; try assumption. lra.
  - apply le_Fin_false in Hle.
    assert (HTS : ~ (s1 + s2 + s3 + s4 + s5 == 0)%Q) by lra.
    rewrite div_Fin by exact HTS. cbn [JS.mul].
    do 5 eexists. split; [reflexivity |].
    assert (Hsc : (0 <= dep / (s1 + s2 + s3 + s4 + s5))%Q).
    { apply Qle_shift_div_l; lra. }
    repeat split; try nra. field. exact HTS.
Qed.

(** X5: no sleeve is sold to fund another: with target weights that are
    not negative and a deposit that is not negative, every allocation is a
    finite amount that is not negative. *)
Theorem computeContributionsAllocation_never_sells
    (wd wc ws wl wh ed ec es el eh tot dep : Q) :
  (0 <= wd)%Q -> (0 <= wc)%Q -> (0 <= ws)%Q -> (0 <= wl)%Q -> (0 <= wh)%Q ->
  (0 < wd + wc + ws + wl + wh)%Q ->
  (0 <= dep)%Q ->
  let allocation :=
    computeContributionsAllocation (mkWeights wd wc ws wl wh)
      (mkEquities ed ec es el eh tot) dep in
  (debit allocation >=? of_Z 0) = true
  /\ (credit allocation >=? of_Z 0) = true
  /\ (straddle allocation >=? of_Z 0) = true
  /\ (collar allocation >=? of_Z 0) = true
  /\ (hedge allocation >=? of_Z 0) = true.
Proof.
  intros Hd Hc Hs Hl Hh HW Hdep allocation. subst allocation.
  destruct (allocation_shape wd wc ws wl wh ed ec es el eh tot dep
              Hd Hc Hs Hl Hh HW Hdep)
    as (a1 & a2 & a3 & a4 & a5 & -> & H1 & H2 & H3 & H4 & H5 & _).
  cbn [debit credit straddle collar hedge]. unfold JS.ge, JS.of_Z.
  repeat split; apply le_Fin; unfold inject_Z; assumption.
Qed.

Lemma computeContributionsAllocation_never_sells_witness :
  let allocation :=
    computeContributionsAllocation
      (mkWeights (2 # 10) (1 # 10) (1 # 10) (58 # 100) (2 # 100))
      (mkEquities 2000 1500 1000 4000 500 9000) 50 in
  (debit allocation >=? of_Z 0) = true
  /\ (credit allocation >=? of_Z 0) = true
  /\ (straddle allocation >=? of_Z 0) = true
  /\ (collar allocation >=? of_Z 0) = true
  /\ (hedge allocation >=? of_Z 0) = true.
Proof.
  apply (computeContributionsAllocation_never_sells
           (2 # 10) (1 # 10) (1 # 10) (58 # 100) (2 # 100)
           2000 1500 1000 4000 500 9000 50);
    unfold Qle, Qlt; simpl; lia.
Defined.

(** *** Risk budgets *)

(** X6: the risk budget of a sleeve is the larger of two amounts: its
    equity times base risk times scale (times 4 on the monthly cadence),
    and the minimum ticket.  So it is never below either, and is the
    minimum ticket for a sleeve with no equity and a ticket that is not
    negative. *)
Theorem computeRiskBudget_at_least_ticket (this : CPPIEngine)
    (sleeveType : Sleeve) (cadence : Cadence) (e b k t : Q) :
  baseRiskPctOf this sleeveType = Fin b ->
  riskScaleOptions (config this) = Fin k ->
  getMinTicket this sleeveType = Fin t ->
  let budget :=
    (e * b * (match sleeveType with Collar => 1 | _ => k end)
     * (match cadence with monthly => 4 | weekly => 1 end))%Q in
  exists r : Q,
    computeRiskBudget this sleeveType (Fin e) cadence = Fin r
    /\ (r == Qmax budget t)%Q
    /\ (t <= r)%Q /\ (budget <= r)%Q
    /\ (r == t \/ r == budget)%Q.
Proof.
  intros Hb Hk Ht budget. unfold computeRiskBudget. rewrite Hb, Ht.
  assert (Hscale :
    match sleeveType with
    | Collar => of_Z 1
    | _ => riskScaleOptions (config this)
    end = Fin (match sleeveType with Collar => 1 | _ => k end)).
  { destruct sleeveType; try exact Hk. reflexivity. }
  rewrite Hscale. clear Hscale. subst budget.
  set (scale := match sleeveType with Collar => 1%Q | _ => k end).
  assert (Hmax : forall x r : Q,
            (r == (if JS.Qltb x t then t else x))%Q ->
            (r == Qmax x t)%Q /\ (t <= r)%Q /\ (x <= r)%Q
            /\ (r == t \/ r == x)%Q).
  { intros x r Hr. destruct (Qltb_spec x t) as [Hlt | Hge].
    - rewrite Hr. split; [symmetry; apply Q.max_r; lra |].
      split; [lra |]. split; [lra | left; reflexivity].
    - rewrite Hr. split; [symmetry; apply Q.max_l; lra |].
      split; [lra |]. split; [lra | right; reflexivity]. }
  destruct cadence; unfold JS.of_Z; cbn [JS.mul]; rewrite max_Fin;
    eexists; (split; [reflexivity |]).
  - destruct (Hmax (e * b * scale * 1)%Q
                (if JS.Qltb (e * b * scale) t then t else e * b * scale)%Q)
      as (H1 & H2 & H3 & H4).
    { destruct (Qltb_spec (e * b * scale) t), (Qltb_spec (e * b * scale * 1) t);
        try reflexivity; try ring; exfalso; lra. }
    repeat split; assumption.
  - destruct (Hmax (e * b * scale * 4)%Q
                (if JS.Qltb (e * b * scale * inject_Z 4) t then t
                 else e * b * scale * inject_Z 4)%Q)
      as (H1 & H2 & H3 & H4).
    { unfold inject_Z.
      destruct (Qltb_spec (e * b * scale * (4 # 1)) t),
               (Qltb_spec (e * b * scale * 4) t);
        try reflexivity; exfalso; lra. }
    repeat split; assumption.
Qed.

(** The debit sleeve with no equity on the weekly cadence: the budget is
    the minimum ticket of 30. *)
Lemma computeRiskBudget_at_least_ticket_witness :
  exists r : Q,
    computeRiskBudget defaultEngine Debit (Fin 0) weekly = Fin r
    /\ (r == Qmax (0 * (6 # 100) * (125 # 100) * 1) 30)%Q
    /\ (30 <= r)%Q.
Proof.
  destruct (computeRiskBudget_at_least_ticket defaultEngine Debit weekly 0
              (6 # 100) (125 # 100) 30 eq_refl eq_refl eq_refl)
    as (r & Hr & Hmax & Hle & _).
  exists r. split; [exact Hr |]. split; [exact Hmax | exact Hle].
Defined.

(** X7: the collar sleeve has no base risk and no minimum ticket: its
    risk budget is 0 for every finite equity, on either cadence. *)
Theorem computeRiskBudget_collar (this : CPPIEngine) (cadence : Cadence)
    (e : Q) :
  computeRiskBudget this Collar (Fin e) cadence =~ of_Z 0.
Proof.
  unfold computeRiskBudget, baseRiskPctOf, getMinTicket.
  cbn [JS.or_else JS.truthy]. unfold JS.of_Z.
  destruct cadence; cbn [JS.mul]; rewrite max_Fin;
    match goal with |- context [JS.Qltb ?x ?y] => destruct (Qltb_spec x y) end;
    unfold inject_Z in *; cbn [JS.same]; try reflexivity; ring.
Qed.
End CPPIExtra.

(** ** The weekly deposit of the bot *)

Module BotProofs.

Import CPPI Examples CPPIProofs CPPIExtra Bot.

(** X10: in exact arithmetic, over the rationals.  The weekly deposit
    step adds the deposit to the total and the allocations to the sleeves,
    so the sleeves grow by the deposit altogether, none of them shrinks,
    and a snapshot whose total is the sum of its sleeves stays so.  In
    binary64 the sleeves follow the total up to rounding only: sleeves of
    500, 1000, 3000, 500 and 500 end at 5549.9999999999991 against a total
    of 5550, as module [Binary64Proofs] shows. *)
Theorem allocateWeeklyDeposit_keeps_total (cppiEngine : CPPIEngine)
    (now : Date) (portfolioState : PortfolioState)
    (wd wc ws wl wh ed ec es el eh tot dep : Q) :
  sleeveEquities portfolioState = mkEquities ed ec es el eh tot ->
  targetWeights (cppiMetrics portfolioState) = mkWeights wd wc ws wl wh ->
  weeklyDeposit (config cppiEngine) = Fin dep ->
  (0 <= wd)%Q -> (0 <= wc)%Q -> (0 <= ws)%Q -> (0 <= wl)%Q -> (0 <= wh)%Q ->
  (0 < wd + wc + ws + wl + wh)%Q ->
  (0 <= dep)%Q ->
  let after :=
    sleeveEquities (allocateWeeklyDeposit cppiEngine now portfolioState) in
  total after =~ Fin (tot + dep)
  /\ sleeveTotal after =~ Fin (ed + ec + es + el + eh + dep)
  /\ ((tot == ed + ec + es + el + eh)%Q -> total after =~ sleeveTotal after)
  /\ (eq_debit after >=? Fin ed) = true
  /\ (eq_credit after >=? Fin ec) = true
  /\ (eq_straddle after >=? Fin es) = true
  /\ (eq_collar after >=? Fin el) = true
  /\ (eq_hedge after >=? Fin eh) = true.
Proof.
  intros He Hw Hdep Hd Hc Hs Hl Hh HW Hdep0 after. subst after.
  unfold allocateWeeklyDeposit. cbn [sleeveEquities]. rewrite He, Hw, Hdep.
  destruct (allocation_shape wd wc ws wl wh ed ec es el eh tot dep
              Hd Hc Hs Hl Hh HW Hdep0)
    as (a1 & a2 & a3 & a4 & a5 & -> & H1 & H2 & H3 & H4 & H5 & Hsum).
  unfold sleeveTotal.
  cbn [debit credit straddle collar hedge
       eq_debit eq_credit eq_straddle eq_collar eq_hedge total
       JS.add JS.same].
  unfold JS.ge.
  split; [reflexivity |].
  split; [lra |].
  split; [intros Htot; lra |].
  repeat split; apply le_Fin; lra.
Qed.

Lemma allocateWeeklyDeposit_keeps_total_witness :
  let st :=
    mkState (mkEquities 2000 1500 1000 4000 500 9000)
      (computeCPPIMetrics defaultEngine
         (mkEquities 2000 1500 1000 4000 500 9000) 0%Z)
      0%Z in
  let after :=
    sleeveEquities (allocateWeeklyDeposit defaultEngine 604800000%Z st) in
  total after =~ sleeveTotal after.
Proof.
  intros st after.
  destruct (allocateWeeklyDeposit_keeps_total defaultEngine 604800000%Z st
              (12000000 # 90000000) (3000000 # 90000000)
              (5000000 # 90000000)
              (55242000000000000000000000 # 72900000000000000000000000)
              (2 # 100)
              2000 1500 1000 4000 500 9000 50)
    as (_ & _ & H & _).
  - reflexivity.
  - vm_compute. reflexivity.
  - reflexivity.
  - unfold Qle; simpl; lia.
  - unfold Qle; simpl; lia.
  - unfold Qle; simpl; lia.
  - unfold Qle; simpl; lia.
  - unfold Qle; simpl; lia.
  - unfold Qlt; simpl; lia.
  - unfold Qle; simpl; lia.
  - apply H. unfold Qeq; simpl; lia.
Defined.
End BotProofs.

(** ** The backtesting engine *)

Module BacktestProofs.

Import Backtest Examples.

(** *** Maps, order and strings *)

Section MapFacts.
Context {V : Type}.
Implicit Types (m : JSMap.t V) (k : string).

Lemma get_None_keys m k : JSMap.get m k = None <-> ~ In k (JSMap.keys m).
Proof.
  induction m as [| [k' v] m IH]; simpl.
  - tauto.
  - destruct (String.eqb_spec k' k) as [-> | Hne].
    + split; [discriminate | intros H; exfalso; apply H; now left].
    + rewrite IH. tauto.
Qed.

Lemma keys_delete_incl m k k' :
  In k (JSMap.keys (JSMap.delete m k')) -> In k (JSMap.keys m).
Proof.
  induction m as [| [k0 v] m IH]; simpl; [tauto |].
  destruct (String.eqb_spec k0 k'); simpl; intuition.
Qed.

Lemma get_delete_absent m k k' :
  JSMap.get m k = None -> JSMap.get (JSMap.delete m k') k = None.
Proof.
  rewrite !get_None_keys. intros H Hin. apply H. eapply keys_delete_incl, Hin.
Qed.

Lemma NoDup_delete m k :
  NoDup (JSMap.keys m) -> NoDup (JSMap.keys (JSMap.delete m k)).
Proof.
  induction m as [| [k0 v] m IH]; simpl; [auto |].
  intros H. inversion H as [| ? ? Hnotin Hnd]; subst.
  destruct (String.eqb_spec k0 k); [assumption |].
  simpl. constructor; [| now apply IH].
  intros Hin. apply Hnotin. eapply keys_delete_incl, Hin.
Qed.

Lemma get_delete_same m k :
  NoDup (JSMap.keys m) -> JSMap.get (JSMap.delete m k) k = None.
Proof.
  induction m as [| [k0 v] m IH]; simpl; [auto |].
  intros H. inversion H as [| ? ? Hnotin Hnd]; subst.
  destruct (String.eqb_spec k0 k) as [-> | Hne].
  - now apply get_None_keys.
  - simpl. destruct (String.eqb_spec k0 k); [contradiction | now apply IH].
Qed.

Lemma get_Some_In m k v : JSMap.get m k = Some v -> In (k, v) m.
Proof.
  induction m as [| [k0 v0] m IH]; simpl; [discriminate |].
  destruct (String.eqb_spec k0 k) as [-> | Hne].
  - intros [= ->]. now left.
  - intros H. right. now apply IH.
Qed.

(** [set] keeps the keys apart as well. *)
Lemma keys_set_incl m k k' v :
  In k (JSMap.keys (JSMap.set m k' v)) -> k = k' \/ In k (JSMap.keys m).
Proof.
  induction m as [| [k0 v0] m IH]; simpl.
  - intros [<- | []]. now left.
  - destruct (String.eqb_spec k0 k') as [-> | Hne]; simpl.
    + intros [<- | H]; auto.
    + intros [<- | H]; auto. destruct (IH H); auto.
Qed.

Lemma NoDup_set m k v :
  NoDup (JSMap.keys m) -> NoDup (JSMap.keys (JSMap.set m k v)).
Proof.
  induction m as [| [k0 v0] m IH]; simpl.
  - intros _. repeat constructor. intros [].
  - intros H. inversion H as [| ? ? Hnotin Hnd]; subst.
    destruct (String.eqb_spec k0 k) as [-> | Hne]; simpl.
    + now constructor.
    + constructor; [| now apply IH].
      intros Hin. destruct (keys_set_incl _ _ _ _ Hin); congruence.
Qed.

End MapFacts.

Lemma lt_asym (a b : num) : (a <? b) = true -> (b <? a) = false.
Proof.
  destruct a as [x | | |], b as [y | | |]; simpl; try easy.
  destruct (Qltb_spec x y), (Qltb_spec y x); try easy. lra.
Qed.

Lemma append_inj_l (p a b : string) :
  String.append p a = String.append p b -> a = b.
Proof. induction p; simpl; [auto |]. intros [= H]. auto. Qed.

(** Splitting a symbol gives back the fields it was printed from, when
    these hold no underscore. *)
Lemma split_from_field (u rest cur : string) :
  noUnderscore u = true ->
  split_from "_" (String.append u (String "_" rest)) cur
  = String.append cur u :: split_from "_" rest EmptyString.
Proof.
  revert cur. induction u as [| c u IH]; intros cur Hu; simpl.
  - f_equal. induction cur; simpl; congruence.
  - simpl in Hu. apply andb_prop in Hu. destruct Hu as [Hc Hu].
    destruct (Ascii.eqb c "_"); [discriminate |].
    rewrite IH by assumption. f_equal.
    clear. induction cur; simpl; congruence.
Qed.

Lemma decode_symbolOf (u e k : string) (t : OptionType) :
  noUnderscore u = true -> noUnderscore e = true ->
  p_underlying (decode (symbolOf u e k t)) = Some u
  /\ p_expiryStr (decode (symbolOf u e k t)) = Some e.
Proof.
  intros Hu He. unfold decode, split, symbolOf.
  change (String.append "_" ?x) with (String "_" x).
  rewrite split_from_field by assumption.
  change (String.append "_" ?x) with (String "_" x).
  rewrite split_from_field by assumption.
  split; reflexivity.
Qed.

(** *** Trade execution *)

Section Trades.

Variable Math_random : nat -> num.
Variable Date_now : nat -> num.

Local Abbreviation executeTrade :=
  (Backtest.executeTrade Math_random Date_now).

(** The seeded draw touches the seed and nothing else. *)
Lemma rnd_keeps (this : BacktestEngine) :
  let this' := snd (rnd this) in
  cash this' = cash this /\ portfolio this' = portfolio this
  /\ trades this' = trades this /\ config this' = config this
  /\ draws this' = draws this.
Proof. repeat split. Qed.

(** C6: a buy whose slipped cost plus commission exceeds the cash at hand
    is skipped and records nothing: the cash, the positions, the trade
    list, the two data maps, the current date, the configuration and the
    count of [Math.random] calls are what they were.  The one field that
    moves is the seed of the engine's own generator, which has taken the
    step the slippage was drawn with. *)
Theorem executeTrade_buy_unaffordable (this : BacktestEngine)
    (symbol : string) (quantity price : num) (strategy date : string) :
  let executedPrice :=
    executedPriceOf price (slippagePctOf (fst (rnd this))) BUY in
  let gross := executedPrice * quantity * of_Z 100 in
  let commission := commissionPerContract (config this) * quantity in
  (gross + commission >? cash this) = true ->
  let this' := executeTrade this symbol BUY quantity price strategy date in
  cash this' = cash this
  /\ portfolio this' = portfolio this
  /\ trades this' = trades this
  /\ marketData this' = marketData this
  /\ optionData this' = optionData this
  /\ currentDate this' = currentDate this
  /\ config this' = config this
  /\ draws this' = draws this
  /\ randSeed this'
     = ((1664525 * randSeed this + 1013904223) mod 4294967296)%Z.
Proof.
  intros executedPrice gross commission Hover this'.
  subst this' executedPrice gross commission. unfold Backtest.executeTrade.
  rewrite (surjective_pairing (rnd this)).
  change (cash (snd (rnd this))) with (cash this).
  cbn [Side_is_BUY andb]. rewrite Hover.
  repeat split.
Qed.

(** The slippage draw is taken before the affordability test, so the
    skipped buy still moves the seed of the engine's generator on. *)
Lemma skipped_buy_advances_seed (this : BacktestEngine)
    (symbol : string) (quantity price : num) (strategy date : string) :
  let executedPrice :=
    executedPriceOf price (slippagePctOf (fst (rnd this))) BUY in
  let gross := executedPrice * quantity * of_Z 100 in
  let commission := commissionPerContract (config this) * quantity in
  (gross + commission >? cash this) = true ->
  executeTrade this symbol BUY quantity price strategy date = snd (rnd this).
Proof.
  intros executedPrice gross commission Hover.
  subst executedPrice gross commission. unfold Backtest.executeTrade.
  rewrite (surjective_pairing (rnd this)).
  change (cash (snd (rnd this))) with (cash this).
  cbn [Side_is_BUY andb]. now rewrite Hover.
Qed.


End Trades.

(** With 100 in cash, a put quoted at 2 costs at least 2.01 * 100 + 1.50:
    the buy is skipped. *)
Lemma executeTrade_buy_unaffordable_witness :
  let this := emptyHanded (of_Z 100) in
  let this' :=
    executeTrade alwaysZero alwaysZero this
      "US.SPY_2023-01-31_400_PUT" BUY (of_Z 1) (of_Z 2) "crash_hedge"
      "2023-01-01" in
  cash this' = cash this
  /\ portfolio this' = portfolio this
  /\ trades this' = trades this
  /\ marketData this' = marketData this
  /\ optionData this' = optionData this
  /\ currentDate this' = currentDate this
  /\ config this' = config this
  /\ draws this' = draws this
  /\ randSeed this'
     = ((1664525 * randSeed this + 1013904223) mod 4294967296)%Z.
Proof.
  intros this.
  apply (executeTrade_buy_unaffordable alwaysZero alwaysZero
           this "US.SPY_2023-01-31_400_PUT" (of_Z 1) (of_Z 2)
           "crash_hedge" "2023-01-01").
  vm_compute. reflexivity.
Defined.

(** C6 as stated fails: the skipped buy does not leave the engine as it
    was.  The seed goes from 123456789 to 920370032, and the next fill
    shows it: one contract quoted at 2 is sold at about 1.9637 after the
    skipped buy and at about 1.9836 without it. *)
Lemma executeTrade_skipped_buy_moves_seed :
  let this := emptyHanded (of_Z 100) in
  let skipped :=
    executeTrade alwaysZero alwaysZero this
      "US.SPY_2023-01-31_400_PUT" BUY (of_Z 1) (of_Z 2) "crash_hedge"
      "2023-01-01" in
  let sellAfter (state : BacktestEngine) :=
    executeTrade alwaysZero alwaysZero state
      "US.SPY_2023-01-31_400_PUT" SELL (of_Z 1) (of_Z 2) "crash_hedge"
      "2023-01-01" in
  trades skipped = trades this
  /\ cash skipped = cash this
  /\ randSeed this = 123456789%Z
  /\ randSeed skipped = 920370032%Z
  /\ skipped <> this
  /\ List.map t_price (trades (sellAfter skipped))
     = [Fin (8434135674430000 # 4294967296000000)]
  /\ List.map t_price (trades (sellAfter this))
     = [Fin (8519373818080000 # 4294967296000000)]
  /\ cash (sellAfter skipped) <> cash (sellAfter this).
Proof.
  vm_compute. repeat split; discriminate.
Qed.



(** *** Mark to market *)

Section Marking.

Variable DateTime : string -> num.
Variable NumberOf : string -> num.

Local Abbreviation markPosition := (Backtest.markPosition DateTime NumberOf).
Local Abbreviation markedValue := (Backtest.markedValue DateTime NumberOf).
Local Abbreviation calculatePortfolioValue :=
  (Backtest.calculatePortfolioValue DateTime NumberOf).
Local Abbreviation expired := (Backtest.expired DateTime).
Local Abbreviation optionDataWellFormed :=
  (Backtest.optionDataWellFormed DateTime).

Variable this : BacktestEngine.

Lemma markPosition_fst (v : num) (p p' : JSMap.t num) (e : string * num) :
  fst (markPosition this (v, p) e) = fst (markPosition this (v, p') e).
Proof.
  destruct e as [s q]. unfold Backtest.markPosition.
  destruct (todayOpt this s); [reflexivity |].
  destruct (Backtest.expired DateTime this s); reflexivity.
Qed.

Lemma fold_markPosition_fst_indep (entries : JSMap.t num)
    (acc acc' : num * JSMap.t num) :
  fst acc = fst acc' ->
  fst (fold_left (markPosition this) entries acc)
  = fst (fold_left (markPosition this) entries acc').
Proof.
  revert acc acc'.
  induction entries as [| e entries IH]; intros acc acc' H; cbn [fold_left];
    [exact H |].
  apply IH. destruct acc as [v p], acc' as [v' p']. simpl in H. subst v'.
  apply markPosition_fst.
Qed.

Lemma fold_markPosition_fst (entries : JSMap.t num) (v : num)
    (p : JSMap.t num) :
  fst (fold_left (markPosition this) entries (v, p))
  = markedValue this entries v.
Proof. unfold Backtest.markedValue. now apply fold_markPosition_fst_indep. Qed.

Lemma markPosition_absent (acc : num * JSMap.t num) (e : string * num)
    (k : string) :
  JSMap.get (snd acc) k = None ->
  JSMap.get (snd (markPosition this acc e)) k = None.
Proof.
  destruct acc as [v p], e as [s q]. unfold Backtest.markPosition. simpl.
  intros H. destruct (todayOpt this s); [exact H |].
  destruct (Backtest.expired DateTime this s); simpl; [| exact H].
  now apply get_delete_absent.
Qed.

Lemma fold_markPosition_absent (entries : JSMap.t num)
    (acc : num * JSMap.t num) (k : string) :
  JSMap.get (snd acc) k = None ->
  JSMap.get (snd (fold_left (markPosition this) entries acc)) k = None.
Proof.
  revert acc. induction entries as [| e entries IH]; intros acc H;
    cbn [fold_left]; [exact H |].
  apply IH. now apply markPosition_absent.
Qed.

Lemma markPosition_NoDup (acc : num * JSMap.t num) (e : string * num) :
  NoDup (JSMap.keys (snd acc)) ->
  NoDup (JSMap.keys (snd (markPosition this acc e))).
Proof.
  destruct acc as [v p], e as [s q]. unfold Backtest.markPosition. simpl.
  intros H. destruct (todayOpt this s); [exact H |].
  destruct (Backtest.expired DateTime this s); simpl; [| exact H].
  now apply NoDup_delete.
Qed.

Lemma fold_markPosition_NoDup (entries : JSMap.t num)
    (acc : num * JSMap.t num) :
  NoDup (JSMap.keys (snd acc)) ->
  NoDup (JSMap.keys (snd (fold_left (markPosition this) entries acc))).
Proof.
  revert acc. induction entries as [| e entries IH]; intros acc H;
    cbn [fold_left]; [exact H |].
  apply IH. now apply markPosition_NoDup.
Qed.

(** An expired position has no quote in today's surface. *)
Lemma todayOpt_expired (symbol : string) :
  optionDataWellFormed this = true ->
  expired this symbol = true ->
  todayOpt this symbol = None.
Proof.
  intros Hwf Hexp. unfold todayOpt.
  remember (p_underlying (decode symbol)) as pu eqn:Hpu.
  destruct (JSMap.get (optionData this) _) as [surface |] eqn:Hget;
    [| reflexivity].
  destruct (find _ surface) as [o |] eqn:Hfind; [| reflexivity].
  exfalso.
  apply find_some in Hfind. destruct Hfind as [Hin Hsym].
  apply String.eqb_eq in Hsym.
  apply get_Some_In in Hget.
  unfold Backtest.optionDataWellFormed in Hwf.
  rewrite forallb_forall in Hwf. specialize (Hwf _ Hget). cbn [fst snd] in Hwf.
  rewrite forallb_forall in Hwf. specialize (Hwf _ Hin).
  unfold quoteWellFormed in Hwf.
  apply andb_prop in Hwf. destruct Hwf as [Hwf Hdate].
  apply andb_prop in Hwf. destruct Hwf as [Hkey Hund].
  apply String.eqb_eq in Hkey.
  rewrite Hsym in Hund, Hdate. rewrite <- Hpu in Hund.
  destruct pu as [u |]; [| discriminate].
  cbn [opt_string_eqb] in Hund. apply String.eqb_eq in Hund. subst u.
  cbn [show] in Hkey. apply append_inj_l in Hkey. apply append_inj_l in Hkey.
  rewrite <- Hkey in Hdate.
  unfold Backtest.expired, JS.gt in Hexp.
  apply lt_asym in Hdate. congruence.
Qed.

(** The price point used for an expired position is the one dated at the
    expiry its symbol names. *)
Lemma atExp_dated (symbol : string) (m : MarketData) :
  atExp this symbol = Some m ->
  p_expiryStr (decode symbol) = Some (md_date m).
Proof.
  unfold atExp. intros H. apply find_some in H. destruct H as [_ H].
  destruct (p_expiryStr (decode symbol)) as [e |]; [| discriminate].
  apply String.eqb_eq in H. now subst.
Qed.

Lemma calculatePortfolioValue_fold :
  calculatePortfolioValue this
  = (fst (fold_left (markPosition this) (portfolio this)
            (cash this, portfolio this)),
     {| marketData := marketData this; optionData := optionData this;
        trades := trades this;
        portfolio :=
          snd (fold_left (markPosition this) (portfolio this)
                 (cash this, portfolio this));
        cash := cash this; currentDate := currentDate this;
        randSeed := randSeed this; config := config this;
        draws := draws this |}).
Proof.
  unfold Backtest.calculatePortfolioValue.
  now destruct (fold_left _ _ _).
Qed.

(** Where the symbol of a position splits into the underlying, expiry,
    strike and type it was printed from: a position marked strictly after
    the expiry its symbol names is valued at the intrinsic value of its
    strike against the underlying's price at the expiry date, times
    quantity times 100, and is gone after the mark; a position with
    neither a quote today nor a price at expiry adds nothing to the
    total.  [soFar] is cash plus the positions walked before it. *)
Theorem calculatePortfolioValue_expired
    (before after : JSMap.t num) (symbol : string) (quantity : num) :
  NoDup (JSMap.keys (portfolio this)) ->
  portfolio this = before ++ (symbol, quantity) :: after ->
  let strike := NumberOf_opt NumberOf (p_strikeStr (decode symbol)) in
  let soFar := markedValue this before (cash this) in
  let marked := calculatePortfolioValue this in
  (optionDataWellFormed this = true ->
   expired this symbol = true ->
   JSMap.get (portfolio (snd marked)) symbol = None
   /\ forall m : MarketData,
        atExp this symbol = Some m ->
        p_expiryStr (decode symbol) = Some (md_date m)
        /\ (p_typeStr (decode symbol) = Some "CALL"%string ->
            fst marked
            = markedValue this after
                (soFar + JS.max (of_Z 0) (md_price m - strike)
                         * quantity * of_Z 100))
        /\ (p_typeStr (decode symbol) = Some "PUT"%string ->
            fst marked
            = markedValue this after
                (soFar + JS.max (of_Z 0) (strike - md_price m)
                         * quantity * of_Z 100)))
  /\ (todayOpt this symbol = None ->
      atExp this symbol = None ->
      fst marked = markedValue this after soFar).
Proof.
  intros Hnd Hport strike soFar marked.
  subst marked. rewrite calculatePortfolioValue_fold. cbn [fst snd portfolio].
  assert (Hfold :
    fold_left (markPosition this) (portfolio this) (cash this, portfolio this)
    = fold_left (markPosition this) after
        (markPosition this
           (fold_left (markPosition this) before (cash this, portfolio this))
           (symbol, quantity))).
  { rewrite Hport at 1. now rewrite fold_left_app. }
  rewrite Hfold. clear Hfold.
  pose proof (fold_markPosition_fst before (cash this) (portfolio this))
    as HvB.
  pose proof (fold_markPosition_NoDup before (cash this, portfolio this) Hnd)
    as HndB.
  destruct (fold_left (markPosition this) before (cash this, portfolio this))
    as [vB pB].
  cbn [fst snd] in HvB, HndB. fold soFar in HvB. subst vB.
  split.
  - intros Hwf Hexp.
    pose proof (todayOpt_expired symbol Hwf Hexp) as Hnone.
    assert (Hstep :
      markPosition this (soFar, pB) (symbol, quantity)
      = (match atExp this symbol with
         | Some m =>
             soFar + intrinsicOf (p_typeStr (decode symbol)) (md_price m) strike
                     * quantity * of_Z 100
         | None => soFar
         end, JSMap.delete pB symbol)).
    { unfold Backtest.markPosition. now rewrite Hnone, Hexp. }
    rewrite Hstep. split.
    + apply fold_markPosition_absent. cbn [snd]. now apply get_delete_same.
    + intros m Hm. split; [now apply atExp_dated |].
      rewrite Hm, fold_markPosition_fst.
      split; intros Hty; unfold intrinsicOf; rewrite Hty; reflexivity.
  - intros Hnone HatExp.
    assert (Hstep :
      fst (markPosition this (soFar, pB) (symbol, quantity)) = soFar).
    { unfold Backtest.markPosition. rewrite Hnone, HatExp.
      now destruct (Backtest.expired DateTime this symbol). }
    rewrite <- Hstep at 2.
    rewrite <- (fold_markPosition_fst after _
                  (snd (markPosition this (soFar, pB) (symbol, quantity)))).
    now rewrite <- surjective_pairing.
Qed.

End Marking.

(** On 2023-02-15 the expired calls are worth (410 - 400) * 2 * 100 on top
    of the cash of 1000, the put without data adds nothing, and the calls
    are gone from the positions. *)
Lemma calculatePortfolioValue_expired_witness :
  let marked := calculatePortfolioValue isoTime strikeOf holdingExpiredCall in
  (JSMap.get (portfolio (snd marked)) "US.SPY_2023-01-31_400_CALL" = None
   /\ fst marked
      = markedValue isoTime strikeOf holdingExpiredCall
          [("US.IWM_2023-01-31_150_PUT"%string, of_Z 1)]
          (of_Z 1000
           + JS.max (of_Z 0) (of_Z 410 - of_Z 400) * of_Z 2 * of_Z 100))
  /\ fst marked
     = markedValue isoTime strikeOf holdingExpiredCall
         [("US.SPY_2023-01-31_400_CALL"%string, of_Z 2)] (of_Z 1000).
Proof.
  intros marked.
  assert (Hnd : NoDup (JSMap.keys (portfolio holdingExpiredCall))).
  { repeat constructor; simpl; intuition discriminate. }
  split.
  - destruct (calculatePortfolioValue_expired isoTime strikeOf
                holdingExpiredCall []
                [("US.IWM_2023-01-31_150_PUT"%string, of_Z 1)]
                "US.SPY_2023-01-31_400_CALL" (of_Z 2) Hnd eq_refl)
      as [Hexpired _].
    destruct (Hexpired eq_refl eq_refl) as [Hgone Hvalue].
    split; [exact Hgone |].
    destruct (Hvalue
                (mkMarket "2023-01-31" "US.SPY" (of_Z 410) (of_Z 1000000) None)
                eq_refl) as (_ & Hcall & _).
    exact (Hcall eq_refl).
  - destruct (calculatePortfolioValue_expired isoTime strikeOf
                holdingExpiredCall
                [("US.SPY_2023-01-31_400_CALL"%string, of_Z 2)] []
                "US.IWM_2023-01-31_150_PUT" (of_Z 1) Hnd eq_refl)
      as [_ Hgap].
    exact (Hgap eq_refl eq_refl).
Defined.

(** C5 on an underlying whose ticker holds an underscore.  The run over
    the data of BRK_B buys, on 2023-01-01, one put struck at 380 that
    expires on 2023-01-31, when the underlying is at 350.  The symbol
    BRK_B_2023-01-31_380_PUT splits into the underlying BRK, the expiry B,
    the strike 2023-01-31 and the type 380: no quote is found for it, the
    date B is invalid and nothing is later than it.  On 2023-02-15, past
    the expiry, the mark is the cash alone, short of the intrinsic value
    of (380 - 350) * 1 * 100, and the position is still held. *)
Theorem calculatePortfolioValue_underscore_ticker :
  loadData (new_BacktestEngine underscoreConfig) underscoreMarket
    underscoreOptions
  = DataLoaded loadedUnderscore
  /\ exists (rows : list DailyPnL) (this : BacktestEngine),
       runDates alwaysZero alwaysZero isoTime strikeOf loadedUnderscore
         (tradingDatesOf loadedUnderscore) [] (of_Z 0)
       = Ok (rows, this)
       /\ List.map t_symbol (trades this) = ["BRK_B_2023-01-31_380_PUT"%string]
       /\ List.map t_date (trades this) = ["2023-01-01"%string]
       /\ portfolio this = [("BRK_B_2023-01-31_380_PUT"%string, of_Z 1)]
       /\ currentDate this = "2023-02-15"%string
       /\ (isoTime (currentDate this) >? isoTime "2023-01-31") = true
       /\ find (fun m => String.eqb (md_date m) "2023-01-31")
            (filedUnder (marketData this) "BRK_B")
          = Some (mkMarket "2023-01-31" "BRK_B" (of_Z 350) (of_Z 1000000) None)
       /\ decode "BRK_B_2023-01-31_380_PUT"
          = mkParts (Some "BRK"%string) (Some "B"%string)
              (Some "2023-01-31"%string) (Some "380"%string)
       /\ todayOpt this "BRK_B_2023-01-31_380_PUT" = None
       /\ expired isoTime this "BRK_B_2023-01-31_380_PUT" = false
       /\ fst (calculatePortfolioValue isoTime strikeOf this) = cash this
       /\ portfolio (snd (calculatePortfolioValue isoTime strikeOf this))
          = portfolio this
       /\ (fst (calculatePortfolioValue isoTime strikeOf this)
           <? cash this
              + JS.max (of_Z 0) (of_Z 380 - of_Z 350) * of_Z 1 * of_Z 100)
          = true.
Proof.
  split; [reflexivity |].
  eexists. eexists. split; [vm_compute; reflexivity |].
  vm_compute. repeat split.
Qed.

(** *** Invariants of the positions and of the option data *)

(** The hypotheses of the mark-to-market theorem hold from the start and
    are kept: a fresh engine has no position, [executeTrade] and the mark
    keep the keys of the positions apart, and nothing writes the option
    data.  A quote whose symbol is the one [generateOptionData] prints,
    dated before its expiry and filed under the key [loadData] uses, is
    well formed. *)
Section Invariants.
Variable Math_random : nat -> num.
Variable Date_now : nat -> num.
Variable DateTime : string -> num.
Variable NumberOf : string -> num.

Lemma new_BacktestEngine_NoDup (config : BacktestConfig) :
  NoDup (JSMap.keys (portfolio (new_BacktestEngine config))).
Proof. constructor. Qed.

Lemma executeTrade_NoDup (this : BacktestEngine) (symbol : string)
    (side : Side) (quantity price : num) (strategy date : string) :
  NoDup (JSMap.keys (portfolio this)) ->
  NoDup (JSMap.keys
           (portfolio
              (executeTrade Math_random Date_now this symbol side quantity
                 price strategy date))).
Proof.
  intros H. unfold executeTrade.
  rewrite (surjective_pairing (rnd this)).
  change (portfolio (snd (rnd this))) with (portfolio this).
  destruct (_ && _); [exact H |]. cbn [portfolio].
  destruct (_ === _); [now apply NoDup_delete | now apply NoDup_set].
Qed.

Lemma calculatePortfolioValue_NoDup (this : BacktestEngine) :
  NoDup (JSMap.keys (portfolio this)) ->
  NoDup (JSMap.keys
           (portfolio (snd (calculatePortfolioValue DateTime NumberOf this)))).
Proof.
  intros H. rewrite calculatePortfolioValue_fold. cbn [snd portfolio].
  now apply fold_markPosition_NoDup.
Qed.

Lemma calculatePortfolioValue_wf (this : BacktestEngine) :
  optionDataWellFormed DateTime
    (snd (calculatePortfolioValue DateTime NumberOf this))
  = optionDataWellFormed DateTime this.
Proof. now rewrite calculatePortfolioValue_fold. Qed.

Lemma generated_quote_wellFormed (o : OptionData) (strikeStr : string) :
  symbol o = symbolOf (underlying o) (expiry o) strikeStr (optionType o) ->
  noUnderscore (underlying o) = true ->
  noUnderscore (expiry o) = true ->
  (DateTime (date o) <? DateTime (expiry o)) = true ->
  quoteWellFormed DateTime
    (String.append (underlying o) (String.append "_" (date o))) o
  = true.
Proof.
  intros Hsym Hu He Hlt. unfold quoteWellFormed.
  destruct (decode_symbolOf (underlying o) (expiry o) strikeStr (optionType o)
              Hu He) as [Hpu Hpe].
  rewrite Hsym, Hpu, Hpe. cbn [opt_string_eqb DateTime_of].
  now rewrite !String.eqb_refl, Hlt.
Qed.
End Invariants.

(** *** Strategy leg builders *)

(** [nearestBy] returns as soon as the array is not empty. *)
Lemma nearestBy_nonempty {T} (x : T) (arr : list T) (metric : T -> num)
    (target : num) :
  exists best, nearestBy (x :: arr) metric target = Ok best.
Proof. unfold nearestBy, reduce. eauto. Qed.

(** The three builders that test the length of their candidates before
    reducing them never raise. *)
Lemma buildDebitCallVertical_returns (options : list OptionData) :
  exists legs, buildDebitCallVertical options = Ok legs.
Proof.
  unfold buildDebitCallVertical.
  destruct (filter _ options) as [| c1 calls]; [simpl; eauto |].
  destruct (_ <? 2)%nat; [eauto |].
  destruct (nearestBy_nonempty c1 calls absDelta (dec 30 100)) as [longCall ->].
  cbn [bind].
  destruct (find _ (c1 :: calls)) as [c |]; cbn [bind]; [eauto |].
  destruct (nearestBy_nonempty c1 calls strike (strike longCall + of_Z 5))
    as [shortCall ->].
  cbn [bind]. eauto.
Qed.

Lemma buildCreditPutSpread_returns (options : list OptionData) :
  exists legs, buildCreditPutSpread options = Ok legs.
Proof.
  unfold buildCreditPutSpread.
  destruct (filter _ options) as [| p1 puts]; [simpl; eauto |].
  destruct (_ <? 2)%nat; [eauto |].
  destruct (nearestBy_nonempty p1 puts absDelta (dec 22 100)) as [shortPut ->].
  cbn [bind].
  destruct (nearestBy_nonempty p1 puts strike (strike shortPut - of_Z 5))
    as [longPut ->].
  cbn [bind]. eauto.
Qed.

Lemma buildCrashHedge_returns (options : list OptionData) :
  exists legs, buildCrashHedge options = Ok legs.
Proof.
  unfold buildCrashHedge.
  destruct (filter _ options) as [| p1 puts]; [eauto |].
  destruct (nearestBy_nonempty p1 puts absDelta (dec 8 100)) as [hedgePut ->].
  cbn [bind]. eauto.
Qed.

(** The straddle builder reduces the calls without such a test. *)
Lemma buildATMStraddle_no_calls (this : BacktestEngine)
    (options : list OptionData) (underlying : option string)
    (m : MarketData) :
  spotToday this underlying = Some m ->
  filter (fun opt => OptionType_eqb (optionType opt) CALL) options = [] ->
  buildATMStraddle this options underlying = TypeError.
Proof.
  intros Hspot Hcalls. unfold buildATMStraddle. now rewrite Hspot, Hcalls.
Qed.

(** Without puts, but with a call, it returns the empty list. *)
Lemma buildATMStraddle_no_puts (this : BacktestEngine)
    (options : list OptionData) (underlying : option string) :
  filter (fun opt => OptionType_eqb (optionType opt) PUT) options = [] ->
  filter (fun opt => OptionType_eqb (optionType opt) CALL) options <> [] ->
  buildATMStraddle this options underlying = Ok [].
Proof.
  intros Hputs Hcalls. unfold buildATMStraddle.
  destruct (spotToday this underlying); [| reflexivity].
  rewrite Hputs. clear Hputs. revert Hcalls.
  destruct (filter _ options) as [| c calls];
    [intros H; now destruct H | reflexivity].
Qed.


(** *** Reproducibility *)

(** C4 on one loaded engine, with its built-in seed, run against three
    behaviours of the ambient [Math.random]: the underlying traded, the
    daily profit and loss and the win rate follow the ambient draws. *)
Theorem runBacktest_follows_Math_random (Date_now : nat -> num)
    (NumberOf : string -> num) (Math_pow : num -> num -> num)
    (Math_sqrt : num -> num) :
  let run Math_random :=
    runBacktest Math_random Date_now isoTime NumberOf Math_pow Math_sqrt
      loadedTwoSymbols in
  exists r1 r2 r3 : BacktestResult,
    run alwaysZero = Ok r1
    /\ run alwaysHalf = Ok r2
    /\ run zeroThenHigh = Ok r3
    /\ List.map t_symbol (r_trades r1) = ["US.SPY_2023-01-31_380_PUT"%string]
    /\ List.map t_symbol (r_trades r2) = ["US.QQQ_2023-01-31_285_PUT"%string]
    /\ List.map t_symbol (r_trades r3) = ["US.SPY_2023-01-31_380_PUT"%string]
    /\ List.map pnl (dailyPnL r1) <> List.map pnl (dailyPnL r2)
    /\ winRate (metrics r1) = of_Z 0
    /\ winRate (metrics r3) =~ of_Z 1.
Proof.
  intros run. subst run. cbv beta.
  eexists. eexists. eexists.
  split; [vm_compute; reflexivity |].
  split; [vm_compute; reflexivity |].
  split; [vm_compute; reflexivity |].
  vm_compute. repeat split. discriminate.
Qed.

(** *** The pricing kernel *)

Lemma Qopp_div_eq (q s : Q) : ((- q) / s)%Q = (- (q / s))%Q.
Proof.
  destruct q as [n d]. unfold Qdiv. destruct (/ s)%Q as [m e].
  unfold Qmult, Qopp; simpl. f_equal. lia.
Qed.

Lemma Qabs_opp_eq (q : Q) : Qabs (- q) = Qabs q.
Proof.
  destruct q as [n d]. unfold Qabs, Qopp; simpl. now rewrite Z.abs_opp.
Qed.

Lemma neg_mul_sign (y : num) : of_Z (-1) * y = - (of_Z 1 * y).
Proof.
  destruct y as [[n d] | | |]; try reflexivity.
  unfold JS.of_Z, inject_Z; cbn [JS.mul JS.neg]. unfold Qmult, Qopp; simpl.
  f_equal. f_equal. destruct n; reflexivity.
Qed.

Lemma pos_mul_sign (y : num) : of_Z 1 * y = - (of_Z (-1) * y).
Proof.
  destruct y as [[n d] | | |]; try reflexivity.
  unfold JS.of_Z, inject_Z; cbn [JS.mul JS.neg]. unfold Qmult, Qopp; simpl.
  f_equal. f_equal. destruct n; reflexivity.
Qed.

Section Kernel.

Variable Math_pow : num -> num -> num.
Variable Math_sqrt : num -> num.
Variable Math_log : num -> num.
Variable Math_exp : num -> num.

Local Abbreviation erf := (Backtest.erf Math_exp).
Local Abbreviation normalCDF := (Backtest.normalCDF Math_sqrt Math_exp).

(** [Math.exp] of a finite number is taken to be finite. *)
Hypothesis exp_finite : forall q : Q, exists e : Q, Math_exp (Fin q) = Fin e.

(** Away from zero the approximation of [erf] is odd. *)
Lemma erf_odd (q : Q) : ~ q == 0 -> erf (Fin (- q)) = - erf (Fin q).
Proof.
  intros Hq. unfold Backtest.erf. cbn [JS.abs]. rewrite Qabs_opp_eq.
  set (y := of_Z 1 - _).
  change (of_Z 0) with (Fin 0). cbn [JS.lt].
  destruct (Qltb_spec (- q) 0), (Qltb_spec q 0); try (exfalso; lra).
  - apply neg_mul_sign.
  - apply pos_mul_sign.
Qed.

Lemma erf_finite (q : Q) : exists e : Q, erf (Fin q) = Fin e.
Proof.
  unfold Backtest.erf. unfold dec, JS.of_Z. cbn [JS.abs JS.mul JS.add JS.neg].
  destruct (exp_finite (- Qabs q * Qabs q)) as [e ->].
  rewrite div_Fin.
  - destruct (Fin q <? Fin (inject_Z 0)); cbn [JS.mul JS.add JS.neg JS.sub];
      eexists; reflexivity.
  - pose proof (Qabs_nonneg q). unfold inject_Z. lra.
Qed.

(** So the two tails of the normal law add up to 1, exactly. *)
Lemma normalCDF_symmetric (q s : Q) :
  Math_sqrt (of_Z 2) = Fin s -> ~ s == 0 -> ~ q == 0 ->
  exists n n' : Q,
    normalCDF (Fin q) = Fin n /\ normalCDF (- Fin q) = Fin n'
    /\ (n + n' == 1)%Q.
Proof.
  intros Hs Hs0 Hq. unfold Backtest.normalCDF. rewrite Hs.
  cbn [JS.neg]. rewrite !div_Fin by assumption. rewrite Qopp_div_eq.
  assert (Hqs : ~ (q / s == 0)%Q).
  { intros H. apply Hq. rewrite <- (Qmult_div_r q s Hs0), H. ring. }
  rewrite erf_odd by exact Hqs.
  destruct (erf_finite (q / s)) as [e ->].
  unfold JS.of_Z. cbn [JS.add JS.neg].
  rewrite !div_Fin by (compute; discriminate).
  do 2 eexists. split; [reflexivity |]. split; [reflexivity |].
  unfold inject_Z. field.
Qed.

(** X29: in exact arithmetic, whatever finite values [Math.log], [Math.exp] and
    [Math.sqrt] return, call minus put is spot minus discounted strike as
    long as neither [d1] nor [d2] is zero. *)
Lemma calculateOptionPrice_parity (S K : Q) (T vol : num) (a b s e : Q) :
  Math_sqrt (of_Z 2) = Fin s -> ~ s == 0 ->
  d1Of Math_pow Math_sqrt Math_log (Fin S) (Fin K) T vol = Fin a ->
  ~ a == 0 ->
  Fin a - vol * Math_sqrt T = Fin b ->
  ~ b == 0 ->
  Math_exp (- dec 5 100 * T) = Fin e ->
  calculateOptionPrice Math_pow Math_sqrt Math_log Math_exp
    (Fin S) (Fin K) T vol CALL
  - calculateOptionPrice Math_pow Math_sqrt Math_log Math_exp
      (Fin S) (Fin K) T vol PUT
  =~ Fin S - Fin K * Fin e.
Proof.
  intros Hs Hs0 Hd1 Ha Hd2 Hb He.
  unfold Backtest.calculateOptionPrice. rewrite Hd1, Hd2, He.
  destruct (normalCDF_symmetric a s Hs Hs0 Ha) as (n1 & n1' & -> & -> & H1).
  destruct (normalCDF_symmetric b s Hs Hs0 Hb) as (n2 & n2' & -> & -> & H2).
  cbn [JS.mul JS.add JS.sub JS.neg JS.same].
  assert (E1 : (n1' == 1 - n1)%Q) by lra.
  assert (E2 : (n2' == 1 - n2)%Q) by lra.
  rewrite E1, E2. ring.
Qed.

(** At zero the approximation returns [1e-9], not [0]. *)
Lemma erf_zero :
  (forall q : Q, q == 0 -> Math_exp (Fin q) = of_Z 1) ->
  erf (of_Z 0) =~ dec 1 1000000000.
Proof.
  intros H. unfold Backtest.erf, JS.of_Z, dec.
  cbn [JS.abs JS.mul JS.add JS.neg JS.lt]. rewrite H by reflexivity.
  vm_compute. reflexivity.
Qed.

(** [Math.exp] at zero, however the zero is written, is taken to be 1. *)
Hypothesis exp_zero :
  forall q : Q, q == 0 -> exists e : Q, Math_exp (Fin q) = Fin e /\ e == 1.

(** At zero, whichever way it is written, the approximation returns
    [1e-9]. *)
Lemma erf_at_zero (q : Q) :
  q == 0 -> exists y : Q, erf (Fin q) = Fin y /\ y == 1 # 1000000000.
Proof.
  intros Hq. unfold Backtest.erf. unfold dec, JS.of_Z.
  cbn [JS.abs JS.mul JS.add JS.neg].
  assert (Hu : Qabs q == 0) by (rewrite Hq; reflexivity).
  destruct (exp_zero (- Qabs q * Qabs q)) as (e & -> & He).
  { rewrite Hu. reflexivity. }
  rewrite div_Fin by (rewrite Hu; unfold inject_Z; lra).
  assert (Hlt : (Fin q <? Fin (inject_Z 0)) = false).
  { cbn [JS.lt]. destruct (Qltb_spec q (inject_Z 0)); [| reflexivity].
    unfold inject_Z in *. lra. }
  rewrite Hlt. cbn [JS.mul JS.add JS.neg JS.sub].
  eexists. split; [reflexivity |].
  rewrite Hu, He. vm_compute. reflexivity.
Qed.

Lemma erfBias_range (x : Q) :
  0 <= erfBias x /\ erfBias x <= 1 # 1000000000
  /\ (~ x == 0 -> erfBias x == 0).
Proof.
  unfold erfBias. destruct (Qeq_bool x 0) eqn:E.
  - apply Qeq_bool_iff in E.
    split; [unfold Qle; simpl; lia |].
    split; [unfold Qle; simpl; lia |].
    intros H. contradiction.
  - split; [unfold Qle; simpl; lia |].
    split; [unfold Qle; simpl; lia |].
    intros _. reflexivity.
Qed.

(** The two tails of the normal law add up to 1, and to [1 + 1e-9] at
    zero. *)
Lemma normalCDF_tails (q s : Q) :
  Math_sqrt (of_Z 2) = Fin s -> ~ s == 0 ->
  exists n n' : Q,
    normalCDF (Fin q) = Fin n /\ normalCDF (- Fin q) = Fin n'
    /\ (n + n' == 1 + erfBias q)%Q.
Proof.
  intros Hs Hs0. unfold erfBias. destruct (Qeq_bool q 0) eqn:E.
  - apply Qeq_bool_iff in E.
    unfold Backtest.normalCDF. rewrite Hs.
    cbn [JS.neg]. rewrite !div_Fin by assumption.
    destruct (erf_at_zero (q / s)) as (y & -> & Hy).
    { rewrite E. field. exact Hs0. }
    destruct (erf_at_zero (- q / s)) as (y' & -> & Hy').
    { rewrite E. field. exact Hs0. }
    unfold JS.of_Z. cbn [JS.add JS.neg].
    rewrite !div_Fin by (compute; discriminate).
    do 2 eexists. split; [reflexivity |]. split; [reflexivity |].
    rewrite Hy, Hy'. vm_compute. reflexivity.
  - assert (Hq : ~ q == 0).
    { intros H. apply Qeq_bool_iff in H. congruence. }
    destruct (normalCDF_symmetric q s Hs Hs0 Hq)
      as (n & n' & Hn & Hn' & Hsum).
    exists n, n'. split; [exact Hn |]. split; [exact Hn' |]. lra.
Qed.

(** C7, amended: in exact arithmetic, whatever finite values [Math.log],
    [Math.exp] and [Math.sqrt] return, call minus put differs from spot
    minus discounted strike by [S * erfBias d1 - K * e * erfBias d2] and by
    nothing else: the difference is 0 unless [d1] or [d2] is 0, it is at
    most [1e-9] times the larger of spot and strike, and so within [1e-3]
    for spots and strikes up to a million. *)
Theorem calculateOptionPrice_parity_gap (S K : Q) (T vol : num)
    (a b s e : Q) :
  Math_sqrt (of_Z 2) = Fin s -> ~ s == 0 ->
  d1Of Math_pow Math_sqrt Math_log (Fin S) (Fin K) T vol = Fin a ->
  Fin a - vol * Math_sqrt T = Fin b ->
  Math_exp (- dec 5 100 * T) = Fin e ->
  0 < S -> 0 < K -> 0 <= e -> e <= 1 ->
  exists diff : Q,
    calculateOptionPrice Math_pow Math_sqrt Math_log Math_exp
      (Fin S) (Fin K) T vol CALL
    - calculateOptionPrice Math_pow Math_sqrt Math_log Math_exp
        (Fin S) (Fin K) T vol PUT
    = Fin diff
    /\ diff - (S - K * e) == S * erfBias a - K * e * erfBias b
    /\ Qabs (diff - (S - K * e)) <= (1 # 1000000000) * Qmax S K
    /\ (S <= 1000000 -> K <= 1000000 ->
        Qabs (diff - (S - K * e)) <= 1 # 1000)
    /\ (~ a == 0 -> ~ b == 0 -> diff == S - K * e).
Proof.
  intros Hs Hs0 Hd1 Hd2 He HS HK He0 He1.
  unfold Backtest.calculateOptionPrice. rewrite Hd1, Hd2, He.
  destruct (normalCDF_tails a s Hs Hs0) as (n1 & n1' & -> & -> & H1).
  destruct (normalCDF_tails b s Hs Hs0) as (n2 & n2' & -> & -> & H2).
  cbn [JS.mul JS.add JS.sub JS.neg].
  eexists. split; [reflexivity |].
  destruct (erfBias_range a) as (Ha0 & Ha1 & Haz).
  destruct (erfBias_range b) as (Hb0 & Hb1 & Hbz).
  set (ba := erfBias a) in *. set (bb := erfBias b) in *.
  assert (Hgap :
    S * n1 + - (K * e * n2) + - (K * e * n2' + - (S * n1')) - (S - K * e)
    == S * ba - K * e * bb).
  { assert (E1 : (n1' == 1 + ba - n1)%Q) by lra.
    assert (E2 : (n2' == 1 + bb - n2)%Q) by lra.
    rewrite E1, E2. ring. }
  split; [exact Hgap |].
  assert (Hke : (0 <= K * e)%Q) by (apply Qmult_le_0_compat; lra).
  assert (HkeK : (K * e <= K)%Q) by nra.
  assert (Hsa : (0 <= S * ba)%Q) by (apply Qmult_le_0_compat; lra).
  assert (Hsa' : (S * ba <= S * (1 # 1000000000))%Q) by nra.
  assert (Hkb : (0 <= K * e * bb)%Q) by (apply Qmult_le_0_compat; lra).
  assert (Hkb' : (K * e * bb <= K * (1 # 1000000000))%Q) by nra.
  assert (Hmax :
    (Qabs (S * ba - K * e * bb) <= (1 # 1000000000) * Qmax S K)%Q).
  { pose proof (Q.le_max_l S K). pose proof (Q.le_max_r S K).
    apply Qabs_Qle_condition. split; lra. }
  split; [rewrite Hgap; exact Hmax |].
  split.
  - intros HS6 HK6. rewrite Hgap.
    apply Qabs_Qle_condition. split; lra.
  - intros Ha Hb. specialize (Haz Ha). specialize (Hbz Hb).
    fold ba in Haz. fold bb in Hbz.
    rewrite Haz, Hbz in Hgap. lra.
Qed.
End Kernel.

Lemma expSeries_one (q : Q) :
  q == 0 -> exists e : Q, expSeries (Fin q) = Fin e /\ e == 1.
Proof.
  intros Hq. eexists. split; [reflexivity |]. rewrite Hq. reflexivity.
Qed.

Lemma expSeries_Fin (q : Q) : exists e : Q, expSeries (Fin q) = Fin e.
Proof. eexists. reflexivity. Qed.

(** With [Math.log x] taken as [x - 1], a spot of 107.5 against a strike
    of 100, one year and a volatility of one half make [d1] one half and
    [d2] zero, and the discount factor is 0.95125: call minus put falls
    short of spot minus discounted strike by [1e-9] times the discounted
    strike. *)
Lemma calculateOptionPrice_parity_gap_witness :
  exists diff : Q,
    calculateOptionPrice intPow rootTable logSeries expSeries
      (Fin (1075 # 10)) (Fin 100) (of_Z 1) (dec 1 2) CALL
    - calculateOptionPrice intPow rootTable logSeries expSeries
        (Fin (1075 # 10)) (Fin 100) (of_Z 1) (dec 1 2) PUT
    = Fin diff
    /\ (diff - ((1075 # 10) - 100 * (1902500 # 2000000))
        == - (100 * (1902500 # 2000000) * (1 # 1000000000)))%Q
    /\ (Qabs (diff - ((1075 # 10) - 100 * (1902500 # 2000000))) <= 1 # 1000)%Q.
Proof.
  destruct (calculateOptionPrice_parity_gap intPow rootTable logSeries
              expSeries expSeries_Fin expSeries_one
              (1075 # 10) 100 (of_Z 1) (dec 1 2)
              (2000000 # 4000000) (0 # 8000000) (14142 # 10000)
              (1902500 # 2000000))
    as (diff & Hdiff & Hgap & _ & Hsmall & _).
  - reflexivity.
  - intros H. discriminate H.
  - vm_compute. reflexivity.
  - vm_compute. reflexivity.
  - vm_compute. reflexivity.
  - reflexivity.
  - reflexivity.
  - unfold Qle; simpl; lia.
  - unfold Qle; simpl; lia.
  - exists diff. split; [exact Hdiff |]. split.
    + change (erfBias (2000000 # 4000000)) with 0%Q in Hgap.
      change (erfBias (0 # 8000000)) with (1 # 1000000000)%Q in Hgap.
      lra.
    + apply Hsmall; unfold Qle; simpl; lia.
Defined.

End BacktestProofs.

(* ================================================================== *)
(** ** Further properties of the backtester *)

Module BacktestExtra.
Import Backtest Examples BacktestProofs.

(** *** Maps and single trades *)

Section MapFacts2.
Context {V : Type}.
Implicit Types (m : JSMap.t V) (k : string) (v : V).

Lemma Forall_set (P : string * V -> Prop) m k v :
  Forall P m -> P (k, v) -> Forall P (JSMap.set m k v).
Proof.
  induction m as [| [k0 v0] m IH]; simpl; intros Hm Hkv.
  - now constructor.
  - inversion Hm; subst.
    destruct (String.eqb k0 k); constructor; auto.
Qed.

Lemma Forall_delete (P : string * V -> Prop) m k :
  Forall P m -> Forall P (JSMap.delete m k).
Proof.
  induction m as [| [k0 v0] m IH]; simpl; intros Hm; [constructor |].
  inversion Hm; subst.
  destruct (String.eqb k0 k); [assumption |]. constructor; auto.
Qed.

Lemma delete_set_absent m k v :
  JSMap.get m k = None -> JSMap.delete (JSMap.set m k v) k = m.
Proof.
  induction m as [| [k0 v0] m IH]; simpl.
  - intros _. now rewrite String.eqb_refl.
  - destruct (String.eqb k0 k) eqn:E; [discriminate |].
    intros H. simpl. rewrite E. now rewrite IH.
Qed.

Lemma delete_filter m k :
  NoDup (JSMap.keys m) ->
  JSMap.delete m k = filter (fun e => negb (String.eqb (fst e) k)) m.
Proof.
  induction m as [| [k0 v0] m IH]; simpl; [reflexivity |].
  intros H. inversion H as [| ? ? Hnotin Hnd]; subst.
  destruct (String.eqb_spec k0 k) as [-> | Hne]; simpl.
  - symmetry. apply forallb_filter_id. apply forallb_forall.
    intros [k1 v1] Hin. simpl. apply negb_true_iff, String.eqb_neq.
    intros ->. apply Hnotin. unfold JSMap.keys.
    now apply (in_map fst) in Hin.
  - now rewrite IH.
Qed.

Lemma get_set_same m k v : JSMap.get (JSMap.set m k v) k = Some v.
Proof.
  induction m as [| [k' v'] m IH]; simpl.
  - now rewrite String.eqb_refl.
  - destruct (String.eqb k' k) eqn:E; simpl.
    + now rewrite String.eqb_refl.
    + now rewrite E.
Qed.

Lemma get_set_other m k k' v :
  k' <> k -> JSMap.get (JSMap.set m k v) k' = JSMap.get m k'.
Proof.
  intros Hne. induction m as [| [k0 v0] m IH]; simpl.
  - destruct (String.eqb_spec k k'); [congruence | reflexivity].
  - destruct (String.eqb_spec k0 k) as [-> | Hk]; simpl.
    + destruct (String.eqb_spec k k'); [congruence | reflexivity].
    + destruct (String.eqb k0 k'); [reflexivity | exact IH].
Qed.

End MapFacts2.

Section TradeSteps.

Variable Math_random : nat -> num.
Variable Date_now : nat -> num.
Variable DateTime : string -> num.
Variable NumberOf : string -> num.

Local Abbreviation executeTrade :=
  (Backtest.executeTrade Math_random Date_now).
Local Abbreviation executeLeg := (Backtest.executeLeg Math_random Date_now).
Local Abbreviation executeStrategy :=
  (Backtest.executeStrategy Math_random Date_now DateTime).
Local Abbreviation calculatePortfolioValue :=
  (Backtest.calculatePortfolioValue DateTime NumberOf).

(** What one call of [executeTrade] may do to the ledger. *)
Lemma executeTrade_cases (this : BacktestEngine) (symbol : string)
    (side : Side) (quantity price : num) (strategy date : string) :
  let this' := executeTrade this symbol side quantity price strategy date in
  marketData this' = marketData this
  /\ optionData this' = optionData this
  /\ currentDate this' = currentDate this
  /\ config this' = config this
  /\ ((trades this' = trades this /\ portfolio this' = portfolio this
       /\ cash this' = cash this)
      \/ exists trade newPosition,
           trades this' = trades this ++ [trade]
           /\ t_date trade = date /\ t_strategy trade = strategy
           /\ t_symbol trade = symbol /\ t_side trade = side
           /\ t_quantity trade = quantity
           /\ portfolio this'
              = (if newPosition === of_Z 0
                 then JSMap.delete (portfolio this) symbol
                 else JSMap.set (portfolio this) symbol newPosition)).
Proof.
  intros this'. subst this'. unfold Backtest.executeTrade.
  rewrite (surjective_pairing (rnd this)).
  change (cash (snd (rnd this))) with (cash this).
  change (config (snd (rnd this))) with (config this).
  change (portfolio (snd (rnd this))) with (portfolio this).
  change (trades (snd (rnd this))) with (trades this).
  destruct (_ && _).
  - repeat split. left. repeat split.
  - cbn [marketData optionData currentDate config trades portfolio cash].
    repeat split. right. do 2 eexists. repeat split.
Qed.

Lemma executeTrade_positions (this : BacktestEngine) (symbol : string)
    (side : Side) (quantity price : num) (strategy date : string) :
  positionsWellFormed (portfolio this) ->
  positionsWellFormed
    (portfolio (executeTrade this symbol side quantity price strategy date)).
Proof.
  intros [Hnd Hnz].
  destruct (executeTrade_cases this symbol side quantity price strategy date)
    as (_ & _ & _ & _ & [(_ & -> & _) | (t & np & _ & _ & _ & _ & _ & _ & ->)]).
  - now split.
  - destruct (np === of_Z 0) eqn:E; split.
    + now apply NoDup_delete.
    + now apply Forall_delete.
    + now apply NoDup_set.
    + apply Forall_set; [assumption | exact E].
Qed.

End TradeSteps.

(** *** Slippage, cash and round trips *)

(** The draw of the seeded generator. *)
Lemma rnd_draw (this : BacktestEngine) :
  exists r : Q,
    fst (rnd this) = Fin r /\ (0 <= r)%Q /\ (r < 1)%Q
    /\ (0 <= randSeed (snd (rnd this)) < 4294967296)%Z.
Proof.
  unfold rnd. cbn [fst snd randSeed].
  set (seed := ((1664525 * randSeed this + 1013904223) mod 4294967296)%Z).
  assert (Hseed : (0 <= seed < 4294967296)%Z)
    by (subst seed; apply Z.mod_pos_bound; lia).
  unfold JS.of_Z. rewrite div_Fin by (compute; discriminate).
  eexists. split; [reflexivity |].
  assert (H0 : (inject_Z 0 <= inject_Z seed)%Q)
    by (rewrite <- Zle_Qle; lia).
  assert (H1 : (inject_Z seed < inject_Z 4294967296)%Q)
    by (rewrite <- Zlt_Qlt; lia).
  split; [| split; [| exact Hseed]].
  - apply Qle_shift_div_l; [reflexivity |]. rewrite Qmult_0_l. exact H0.
  - apply Qlt_shift_div_r; [reflexivity |]. rewrite Qmult_1_l. exact H1.
Qed.

Lemma slippage_band (this : BacktestEngine) :
  exists s : Q,
    slippagePctOf (fst (rnd this)) = Fin s
    /\ (5 # 1000 <= s)%Q /\ (s < 20 # 1000)%Q.
Proof.
  destruct (rnd_draw this) as (r & -> & H0 & H1 & _).
  unfold slippagePctOf, dec. cbn [JS.add JS.mul].
  eexists. split; [reflexivity |]. split; lra.
Qed.

Lemma executedPrice_shape (p s : Q) :
  (0 <= p)%Q -> (0 <= s)%Q -> (s < 1)%Q ->
  exists x y : Q,
    executedPriceOf (Fin p) (Fin s) BUY = Fin x
    /\ executedPriceOf (Fin p) (Fin s) SELL = Fin y
    /\ (1 # 100 <= y)%Q /\ (y <= x)%Q /\ (p <= x)%Q
    /\ (x == Qmax (1 # 100) (p * (1 + s)))%Q
    /\ (y == Qmax (1 # 100) (p * (1 - s)))%Q.
Proof.
  intros Hp Hs0 Hs1.
  unfold executedPriceOf, sign_of, dec, JS.of_Z. cbn [JS.add JS.mul].
  rewrite !max_Fin. do 2 eexists.
  split; [reflexivity |]. split; [reflexivity |].
  unfold inject_Z.
  destruct (Qltb_spec (1 # 100) (p + p * s * (1 # 1)));
    destruct (Qltb_spec (1 # 100) (p + p * s * (-1 # 1)));
    destruct (Q.max_spec (1 # 100) (p * (1 + s))) as [[? ->] | [? ->]];
    destruct (Q.max_spec (1 # 100) (p * (1 - s))) as [[? ->] | [? ->]];
    repeat split; try nra.
Qed.

Lemma executedPrice_bounds (this : BacktestEngine) (p : Q) :
  (1 # 100 <= p)%Q ->
  exists x y : Q,
    executedPriceOf (Fin p) (slippagePctOf (fst (rnd this))) BUY = Fin x
    /\ executedPriceOf (Fin p) (slippagePctOf (fst (rnd this))) SELL = Fin y
    /\ (p * (1005 # 1000) <= x)%Q /\ (x < p * (102 # 100))%Q
    /\ (p * (98 # 100) < y)%Q /\ (y <= p)%Q /\ (1 # 100 <= y)%Q.
Proof.
  intros Hp.
  destruct (slippage_band this) as (s & -> & Hs0 & Hs1).
  destruct (executedPrice_shape p s)
    as (x & y & -> & -> & Hy & Hyx & Hpx & Hx & Hyy); try lra.
  exists x, y. split; [reflexivity |]. split; [reflexivity |].
  rewrite Q.max_r in Hx by nra.
  destruct (Q.max_spec (1 # 100) (p * (1 - s))) as [[? E] | [? E]];
    rewrite E in Hyy; repeat split; nra.
Qed.

Section TradeFacts.

Variable Math_random : nat -> num.
Variable Date_now : nat -> num.

Local Abbreviation executeTrade :=
  (Backtest.executeTrade Math_random Date_now).

(** X11.  Slippage always works against the trader: a trade that
    [executeTrade] records for a quoted premium of at least 0.01 is priced
    between 0.5% and 2% above the quote when it is a purchase, and less
    than 2% below the quote, never above it and never under 0.01, when it
    is a sale. *)
Theorem executeTrade_price_adverse (this : BacktestEngine)
    (symbol : string) (side : Side) (quantity : num) (p : Q)
    (strategy date : string) :
  (1 # 100 <= p)%Q ->
  let this' := executeTrade this symbol side quantity (Fin p) strategy date in
  trades this' = trades this
  \/ exists trade x,
       trades this' = trades this ++ [trade]
       /\ t_price trade = Fin x
       /\ match side with
          | BUY => (p * (1005 # 1000) <= x)%Q /\ (x < p * (102 # 100))%Q
          | SELL => (p * (98 # 100) < x)%Q /\ (x <= p)%Q /\ (1 # 100 <= x)%Q
          end.
Proof.
  intros Hp this'. subst this'. unfold Backtest.executeTrade.
  rewrite (surjective_pairing (rnd this)).
  destruct (executedPrice_bounds this p Hp)
    as (x & y & Hx & Hy & Hx0 & Hx1 & Hy0 & Hy1 & Hy2).
  destruct side; [rewrite Hx | rewrite Hy];
    match goal with
    | |- context [if ?b then _ else _] => destruct b
    end;
    try (left; reflexivity); right; cbn [trades t_price];
    eexists; eexists; (split; [reflexivity |]); (split; [reflexivity |]);
    repeat split; assumption.
Qed.

(** X12.  A purchase never overdraws the account: with cash that is not
    negative before a BUY, executed or skipped, the cash is not negative
    after it. *)
Theorem executeTrade_buy_never_overdraws (this : BacktestEngine)
    (symbol strategy date : string) (c k q p : Q) :
  cash this = Fin c ->
  commissionPerContract (config this) = Fin k ->
  (0 <= c)%Q ->
  exists c' : Q,
    cash (executeTrade this symbol BUY (Fin q) (Fin p) strategy date) = Fin c'
    /\ (0 <= c')%Q.
Proof.
  intros Hc Hk Hc0. unfold Backtest.executeTrade.
  rewrite (surjective_pairing (rnd this)).
  change (cash (snd (rnd this))) with (cash this).
  change (config (snd (rnd this))) with (config this).
  rewrite Hc, Hk.
  destruct (rnd_draw this) as (r & -> & _).
  unfold slippagePctOf, executedPriceOf, sign_of, dec, JS.of_Z.
  cbn [JS.add JS.mul]. rewrite max_Fin. cbn [JS.add JS.mul Side_is_BUY andb].
  unfold JS.gt. cbn [JS.lt].
  match goal with |- context [JS.Qltb c ?g] => destruct (Qltb_spec c g) end.
  - exists c. split; [exact Hc | exact Hc0].
  - cbn [cash JS.sub JS.neg JS.add]. eexists. split; [reflexivity |]. lra.
Qed.

(** What an executed trade of a finite quantity at a finite price leaves
    behind, in terms of the executed price [x]. *)
Lemma executeTrade_buy_fields (this : BacktestEngine)
    (symbol strategy date : string) (c k q p x : Q) :
  cash this = Fin c ->
  commissionPerContract (config this) = Fin k ->
  executedPriceOf (Fin p) (slippagePctOf (fst (rnd this))) BUY = Fin x ->
  (x * q * 100 + k * q <= c)%Q ->
  let this' := executeTrade this symbol BUY (Fin q) (Fin p) strategy date in
  cash this' = Fin (c - (x * q * inject_Z 100 + k * q))
  /\ config this' = config this
  /\ List.length (trades this') = S (List.length (trades this))
  /\ portfolio this'
     = (let newPosition :=
          JS.or_else (num_of (JSMap.get (portfolio this) symbol)) (of_Z 0)
          + Fin q in
        if newPosition === of_Z 0 then JSMap.delete (portfolio this) symbol
        else JSMap.set (portfolio this) symbol newPosition).
Proof.
  intros Hc Hk Hx Hafford this'. subst this'. unfold Backtest.executeTrade.
  rewrite (surjective_pairing (rnd this)).
  change (cash (snd (rnd this))) with (cash this).
  change (config (snd (rnd this))) with (config this).
  change (portfolio (snd (rnd this))) with (portfolio this).
  change (trades (snd (rnd this))) with (trades this).
  rewrite Hc, Hk, Hx. unfold JS.of_Z.
  cbn [JS.add JS.mul Side_is_BUY andb]. unfold JS.gt. cbn [JS.lt].
  match goal with |- context [JS.Qltb c ?g] =>
    destruct (Qltb_spec c g) as [Hlt | _] end.
  { exfalso. unfold inject_Z in Hlt. lra. }
  cbn [cash config trades portfolio JS.sub JS.neg JS.add].
  split; [reflexivity |]. split; [reflexivity |].
  split; [rewrite length_app; simpl; lia | reflexivity].
Qed.

Lemma executeTrade_sell_fields (this : BacktestEngine)
    (symbol strategy date : string) (c k q p y : Q) :
  cash this = Fin c ->
  commissionPerContract (config this) = Fin k ->
  executedPriceOf (Fin p) (slippagePctOf (fst (rnd this))) SELL = Fin y ->
  let this' := executeTrade this symbol SELL (Fin q) (Fin p) strategy date in
  cash this' = Fin (c + (y * q * inject_Z 100 - k * q))
  /\ config this' = config this
  /\ List.length (trades this') = S (List.length (trades this))
  /\ portfolio this'
     = (let newPosition :=
          JS.or_else (num_of (JSMap.get (portfolio this) symbol)) (of_Z 0)
          + - Fin q in
        if newPosition === of_Z 0 then JSMap.delete (portfolio this) symbol
        else JSMap.set (portfolio this) symbol newPosition).
Proof.
  intros Hc Hk Hy this'. subst this'. unfold Backtest.executeTrade.
  rewrite (surjective_pairing (rnd this)).
  change (cash (snd (rnd this))) with (cash this).
  change (config (snd (rnd this))) with (config this).
  change (portfolio (snd (rnd this))) with (portfolio this).
  change (trades (snd (rnd this))) with (trades this).
  rewrite Hc, Hk, Hy. unfold JS.of_Z.
  cbn [JS.add JS.mul Side_is_BUY andb].
  cbn [cash config trades portfolio JS.sub JS.neg JS.add].
  split; [reflexivity |]. split; [reflexivity |].
  split; [rewrite length_app; simpl; lia | reflexivity].
Qed.

(** X26.  Buying a contract that is not held and selling it back at the
    same quote leaves the positions as they were and records two trades;
    the cash is lower by the two commissions and by between 0.5% and 4%
    of the quoted premium. *)
Theorem executeTrade_round_trip (this : BacktestEngine)
    (symbol strategy date : string) (c k q p : Q) :
  cash this = Fin c ->
  commissionPerContract (config this) = Fin k ->
  (1 # 100 <= p)%Q -> (0 < q)%Q ->
  (p * (102 # 100) * q * 100 + k * q <= c)%Q ->
  JSMap.get (portfolio this) symbol = None ->
  let bought := executeTrade this symbol BUY (Fin q) (Fin p) strategy date in
  let sold := executeTrade bought symbol SELL (Fin q) (Fin p) strategy date in
  portfolio sold = portfolio this
  /\ List.length (trades sold) = S (S (List.length (trades this)))
  /\ exists c' : Q,
       cash sold = Fin c'
       /\ (c - p * q * 4 - 2 * k * q < c')%Q
       /\ (c' <= c - p * q * (1 # 2) - 2 * k * q)%Q.
Proof.
  intros Hc Hk Hp Hq Hafford Hnone bought sold.
  destruct (executedPrice_bounds this p Hp)
    as (x & _ & Hx & _ & Hx0 & Hx1 & _).
  destruct (executeTrade_buy_fields this symbol strategy date c k q p x
              Hc Hk Hx) as (Hc1 & Hk1 & Ht1 & Hp1).
  { nra. }
  fold bought in Hc1, Hk1, Ht1, Hp1.
  destruct (executedPrice_bounds bought p Hp)
    as (_ & y & _ & Hy & _ & _ & Hy0 & Hy1 & _).
  destruct (executeTrade_sell_fields bought symbol strategy date _ k q p y
              Hc1 (eq_trans (f_equal commissionPerContract Hk1) Hk) Hy)
    as (Hc2 & _ & Ht2 & Hp2).
  fold sold in Hc2, Ht2, Hp2.
  assert (Hq0 : ~ (0 + q == 0)%Q) by lra.
  assert (Hq1 : (0 + q + - q == 0)%Q) by ring.
  rewrite Hnone in Hp1. cbn [num_of JS.or_else JS.truthy] in Hp1.
  unfold JS.of_Z in Hp1. cbn [JS.add JS.eqb] in Hp1.
  unfold inject_Z in Hp1.
  destruct (Qeq_bool_spec (0 + q) (0 # 1)) as [E | _]; [contradiction |].
  rewrite Hp1 in Hp2. rewrite get_set_same in Hp2.
  assert (Eor : JS.or_else (Fin (0 + q)) (Fin (inject_Z 0)) = Fin (0 + q)).
  { unfold JS.or_else, JS.truthy.
    destruct (Qeq_bool_spec (0 + q) 0); [contradiction | reflexivity]. }
  cbn [num_of] in Hp2. unfold JS.of_Z in Hp2. rewrite Eor in Hp2.
  cbn [JS.neg JS.add JS.eqb] in Hp2.
  destruct (Qeq_bool_spec (0 + q + - q) (inject_Z 0)) as [_ | E];
    [| contradiction].
  rewrite delete_set_absent in Hp2 by exact Hnone.
  split; [exact Hp2 |]. split; [now rewrite Ht2, Ht1 |].
  eexists. split; [exact Hc2 |]. unfold inject_Z. split; nra.
Qed.

End TradeFacts.

Lemma executeTrade_price_adverse_witness :
  let this' :=
    executeTrade alwaysZero alwaysZero (emptyHanded (of_Z 1000))
      "US.SPY_2023-01-31_400_PUT" SELL (of_Z 1) (Fin 2) "crash_hedge"
      "2023-01-01" in
  trades this' = trades (emptyHanded (of_Z 1000))
  \/ exists trade x,
       trades this' = trades (emptyHanded (of_Z 1000)) ++ [trade]
       /\ t_price trade = Fin x
       /\ (2 * (98 # 100) < x)%Q /\ (x <= 2)%Q /\ (1 # 100 <= x)%Q.
Proof.
  apply (executeTrade_price_adverse alwaysZero alwaysZero
           (emptyHanded (of_Z 1000)) "US.SPY_2023-01-31_400_PUT" SELL
           (of_Z 1) 2 "crash_hedge" "2023-01-01").
  unfold Qle; simpl; lia.
Defined.
Lemma executeTrade_buy_never_overdraws_witness :
  exists c' : Q,
    cash (executeTrade alwaysZero alwaysZero (emptyHanded (of_Z 1000))
            "US.SPY_2023-01-31_400_PUT" BUY (Fin 1) (Fin 2) "crash_hedge"
            "2023-01-01")
    = Fin c'
    /\ (0 <= c')%Q.
Proof.
  apply (executeTrade_buy_never_overdraws alwaysZero alwaysZero
           (emptyHanded (of_Z 1000)) "US.SPY_2023-01-31_400_PUT"
           "crash_hedge" "2023-01-01" 1000 (150 # 100) 1 2).
  - reflexivity.
  - reflexivity.
  - unfold Qle; simpl; lia.
Defined.

Lemma executeTrade_round_trip_witness :
  let bought :=
    executeTrade alwaysZero alwaysZero (emptyHanded (of_Z 1000))
      "US.SPY_2023-01-31_400_PUT" BUY (Fin 1) (Fin 2) "crash_hedge"
      "2023-01-01" in
  let sold :=
    executeTrade alwaysZero alwaysZero bought "US.SPY_2023-01-31_400_PUT"
      SELL (Fin 1) (Fin 2) "crash_hedge" "2023-01-01" in
  portfolio sold = [] /\ List.length (trades sold) = 2%nat.
Proof.
  destruct (executeTrade_round_trip alwaysZero alwaysZero
              (emptyHanded (of_Z 1000)) "US.SPY_2023-01-31_400_PUT"
              "crash_hedge" "2023-01-01" 1000 (150 # 100) 1 2)
    as (Hp & Ht & _).
  - reflexivity.
  - reflexivity.
  - unfold Qle; simpl; lia.
  - reflexivity.
  - unfold Qle; simpl; lia.
  - reflexivity.
  - split; [exact Hp | exact Ht].
Defined.

(** *** Legs of a strategy *)

Lemma unitLegs_nil : unitLegs [].
Proof. split; [simpl; lia | constructor]. Qed.

Lemma bind_Ok {A B} (r : result A) (k : A -> result B) (b : B) :
  bind r k = Ok b -> exists a, r = Ok a /\ k a = Ok b.
Proof. destruct r; simpl; [eauto | discriminate]. Qed.

Lemma buildDebitCallVertical_unit (options : list OptionData)
    (legs : list Leg) :
  buildDebitCallVertical options = Ok legs -> unitLegs legs.
Proof.
  unfold buildDebitCallVertical.
  destruct (_ <? 2)%nat; [intros [= <-]; apply unitLegs_nil |].
  intros H. apply bind_Ok in H. destruct H as (longCall & _ & H).
  apply bind_Ok in H. destruct H as (shortCall & _ & H).
  injection H as <-. split; [simpl; lia | repeat constructor].
Qed.

Lemma buildCreditPutSpread_unit (options : list OptionData)
    (legs : list Leg) :
  buildCreditPutSpread options = Ok legs -> unitLegs legs.
Proof.
  unfold buildCreditPutSpread.
  destruct (_ <? 2)%nat; [intros [= <-]; apply unitLegs_nil |].
  intros H. apply bind_Ok in H. destruct H as (shortPut & _ & H).
  apply bind_Ok in H. destruct H as (longPut & _ & H).
  injection H as <-. split; [simpl; lia | repeat constructor].
Qed.

Lemma buildATMStraddle_unit (this : BacktestEngine)
    (options : list OptionData) (underlying : option string)
    (legs : list Leg) :
  buildATMStraddle this options underlying = Ok legs -> unitLegs legs.
Proof.
  unfold buildATMStraddle.
  destruct (spotToday this underlying); [| intros [= <-]; apply unitLegs_nil].
  intros H. apply bind_Ok in H. destruct H as (atmCall & _ & H).
  destruct (find _ _); injection H as <-;
    [split; [simpl; lia | repeat constructor] | apply unitLegs_nil].
Qed.

Lemma buildCrashHedge_unit (options : list OptionData) (legs : list Leg) :
  buildCrashHedge options = Ok legs -> unitLegs legs.
Proof.
  unfold buildCrashHedge.
  destruct (filter _ options); [intros [= <-]; apply unitLegs_nil |].
  intros H. apply bind_Ok in H. destruct H as (hedgePut & _ & H).
  injection H as <-. split; [simpl; lia | repeat constructor].
Qed.

Section StrategySteps.

Variable Math_random : nat -> num.
Variable Date_now : nat -> num.
Variable DateTime : string -> num.

Local Abbreviation executeTrade :=
  (Backtest.executeTrade Math_random Date_now).
Local Abbreviation executeLeg := (Backtest.executeLeg Math_random Date_now).
Local Abbreviation executeStrategy :=
  (Backtest.executeStrategy Math_random Date_now DateTime).
Local Abbreviation draw := (Backtest.draw Math_random).

Lemma sameLedger_refl (this : BacktestEngine) : sameLedger this this.
Proof. repeat split. Qed.

Lemma draw_sameLedger (this : BacktestEngine) :
  sameLedger (snd (draw this)) this
  /\ randSeed (snd (draw this)) = randSeed this.
Proof. repeat split. Qed.

Lemma buildCashSecuredPut_unit (this : BacktestEngine)
    (options : list OptionData) (legs : list Leg) (this' : BacktestEngine) :
  buildCashSecuredPut Math_random this options = Ok (legs, this') ->
  unitLegs legs /\ sameLedger this' this /\ randSeed this' = randSeed this.
Proof.
  unfold buildCashSecuredPut.
  destruct (filter _ options) as [| p puts].
  - intros [= <- <-]. split; [apply unitLegs_nil | repeat split].
  - unfold Backtest.draw.
    destruct (index _ _); [| discriminate].
    intros [= <- <-].
    split; [split; [simpl; lia | repeat constructor] | repeat split].
Qed.

(** [executeStrategy] is one ambient draw, then at most two unit legs
    handed to [executeTrade] one after the other. *)
Lemma executeStrategy_steps (this this' : BacktestEngine)
    (strategy date : string) :
  executeStrategy this strategy date = Ok this' ->
  exists legs this0,
    sameLedger this0 this /\ randSeed this0 = randSeed this
    /\ unitLegs legs
    /\ this' = fold_left (executeLeg strategy date) legs this0.
Proof.
  unfold Backtest.executeStrategy.
  rewrite (surjective_pairing (Backtest.draw Math_random this)).
  set (this1 := snd (Backtest.draw Math_random this)).
  destruct (draw_sameLedger this) as [Hsame Hseed]. fold this1 in Hsame, Hseed.
  match goal with
  | |- context [match ?avail with [] => _ | _ :: _ => _ end] =>
      destruct avail as [| a avail']
  end.
  { intros [= <-]. exists [], this1.
    split; [exact Hsame |]. split; [exact Hseed |].
    split; [apply unitLegs_nil | reflexivity]. }
  match goal with
  | |- context [match ?valid with [] => _ | _ :: _ => _ end] =>
      destruct valid as [| v valid'] eqn:Hvalid
  end.
  { intros [= <-]. exists [], this1.
    split; [exact Hsame |]. split; [exact Hseed |].
    split; [apply unitLegs_nil | reflexivity]. }
  intros H. apply bind_Ok in H. destruct H as ([legs this0] & Hbuilt & H).
  injection H as <-. cbn [fst snd].
  exists legs, this0.
  assert (Hgoal :
    unitLegs legs /\ sameLedger this0 this1 /\ randSeed this0 = randSeed this1).
  { revert Hbuilt.
    destruct (String.eqb strategy "debit_call_vertical").
    { intros H. apply bind_Ok in H. destruct H as (l & Hl & [= <- <-]).
      split; [eapply buildDebitCallVertical_unit, Hl | repeat split]. }
    destruct (String.eqb strategy "credit_put_spread").
    { intros H. apply bind_Ok in H. destruct H as (l & Hl & [= <- <-]).
      split; [eapply buildCreditPutSpread_unit, Hl | repeat split]. }
    destruct (String.eqb strategy "atm_straddle").
    { intros H. apply bind_Ok in H. destruct H as (l & Hl & [= <- <-]).
      split; [eapply buildATMStraddle_unit, Hl | repeat split]. }
    destruct (String.eqb strategy "cash_secured_put").
    { apply buildCashSecuredPut_unit. }
    destruct (String.eqb strategy "crash_hedge").
    { intros H. apply bind_Ok in H. destruct H as (l & Hl & [= <- <-]).
      split; [eapply buildCrashHedge_unit, Hl | repeat split]. }
    intros [= <- <-]. split; [apply unitLegs_nil | repeat split]. }
  destruct Hgoal as (Hunit & Hsame0 & Hseed0).
  split.
  - unfold sameLedger in *. intuition congruence.
  - split; [congruence |]. split; [exact Hunit | reflexivity].
Qed.

End StrategySteps.

(** *** What a stretch of the run keeps *)

Section Loop.

Variable Math_random : nat -> num.
Variable Date_now : nat -> num.
Variable DateTime : string -> num.
Variable NumberOf : string -> num.

Local Abbreviation executeTrade :=
  (Backtest.executeTrade Math_random Date_now).
Local Abbreviation executeLeg := (Backtest.executeLeg Math_random Date_now).
Local Abbreviation executeStrategy :=
  (Backtest.executeStrategy Math_random Date_now DateTime).
Local Abbreviation executeStrategies_from :=
  (Backtest.executeStrategies_from Math_random Date_now DateTime).
Local Abbreviation calculatePortfolioValue :=
  (Backtest.calculatePortfolioValue DateTime NumberOf).
Local Abbreviation markPosition := (Backtest.markPosition DateTime NumberOf).
Local Abbreviation runDates :=
  (Backtest.runDates Math_random Date_now DateTime NumberOf).

Lemma extends_refl (P : BacktestTrade -> Prop) (this this' : BacktestEngine) :
  sameLedger this' this -> extends P this this'.
Proof.
  intros (Hm & Ho & Ht & Hp & _ & _ & Hc).
  split; [exact Hm |]. split; [exact Ho |]. split; [exact Hc |].
  split; [now rewrite Hp |].
  exists []. rewrite app_nil_r. split; [exact Ht | constructor].
Qed.

Lemma extends_trans (P : BacktestTrade -> Prop) (a b c : BacktestEngine) :
  extends P a b -> extends P b c -> extends P a c.
Proof.
  intros (Hm1 & Ho1 & Hc1 & Hp1 & n1 & Ht1 & HF1)
         (Hm2 & Ho2 & Hc2 & Hp2 & n2 & Ht2 & HF2).
  split; [congruence |]. split; [congruence |]. split; [congruence |].
  split; [intros H; now apply Hp2, Hp1 |].
  exists (n1 ++ n2). rewrite Ht2, Ht1, app_assoc.
    split; [reflexivity | now apply Forall_app].
Qed.

Lemma extends_weaken (P Q : BacktestTrade -> Prop) (a b : BacktestEngine) :
  (forall t, P t -> Q t) -> extends P a b -> extends Q a b.
Proof.
  intros HPQ (Hm & Ho & Hc & Hp & n & Ht & HF).
  split; [exact Hm |]. split; [exact Ho |]. split; [exact Hc |].
  split; [exact Hp |].
  exists n. split; [exact Ht |]. eapply Forall_impl; eauto.
Qed.

Lemma executeTrade_extends (this : BacktestEngine) (symbol : string)
    (side : Side) (quantity price : num) (strategy date : string) :
  extends
    (fun t => t_date t = date /\ t_strategy t = strategy
              /\ t_quantity t = quantity)
    this (executeTrade this symbol side quantity price strategy date).
Proof.
  pose proof (executeTrade_positions Math_random Date_now this symbol side
                quantity price strategy date) as Hwf.
  destruct (executeTrade_cases Math_random Date_now this symbol side quantity
              price strategy date)
    as (Hm & Ho & _ & Hc & Hcases).
  split; [exact Hm |]. split; [exact Ho |]. split; [exact Hc |].
  split; [exact Hwf |].
  destruct Hcases as [(Ht & _) | (t & np & Ht & Hd & Hs & _ & _ & Hq & _)].
  - exists []. rewrite app_nil_r. split; [exact Ht | constructor].
  - exists [t]. split; [exact Ht | repeat constructor; assumption].
Qed.

Lemma executeLegs_extends (legs : list Leg) (this : BacktestEngine)
    (strategy date : string) :
  Forall (fun l => leg_quantity l = of_Z 1) legs ->
  extends
    (fun t => t_date t = date /\ t_strategy t = strategy
              /\ t_quantity t = of_Z 1)
    this (fold_left (executeLeg strategy date) legs this).
Proof.
  revert this. induction legs as [| leg legs IH]; intros this Hlegs;
    cbn [fold_left].
  - apply extends_refl. repeat split.
  - inversion Hlegs as [| ? ? Hq Hrest]; subst.
    eapply extends_trans; [| apply IH; exact Hrest].
    unfold Backtest.executeLeg. rewrite <- Hq. apply executeTrade_extends.
Qed.

Lemma executeStrategy_extends (this this' : BacktestEngine)
    (strategy date : string) :
  executeStrategy this strategy date = Ok this' ->
  extends
    (fun t => t_date t = date /\ t_strategy t = strategy
              /\ t_quantity t = of_Z 1)
    this this'.
Proof.
  intros H.
  destruct (executeStrategy_steps Math_random Date_now DateTime this this'
              strategy date H)
    as (legs & this0 & Hsame & _ & [_ Hunit] & ->).
  eapply extends_trans; [apply extends_refl; exact Hsame |].
  now apply executeLegs_extends.
Qed.

Lemma executeStrategies_from_extends (strategies : list string)
    (this this' : BacktestEngine) (date : string) :
  executeStrategies_from this strategies date = Ok this' ->
  extends
    (fun t => t_date t = date /\ In (t_strategy t) strategies
              /\ t_quantity t = of_Z 1)
    this this'.
Proof.
  revert this. induction strategies as [| strategy rest IH]; intros this;
    cbn [Backtest.executeStrategies_from].
  - intros [= <-]. apply extends_refl. repeat split.
  - intros H. apply bind_Ok in H. destruct H as (this1 & H1 & H2).
    eapply extends_trans.
    + eapply extends_weaken; [| apply executeStrategy_extends; exact H1].
      cbn beta. intros t (Hd & Hs & Hq). repeat split; auto. now left.
    + eapply extends_weaken; [| apply IH; exact H2].
      cbn beta. intros t (Hd & Hs & Hq). repeat split; auto. now right.
Qed.

Lemma markPosition_Forall (P : string * num -> Prop) (this : BacktestEngine)
    (acc : num * JSMap.t num) (e : string * num) :
  Forall P (snd acc) -> Forall P (snd (markPosition this acc e)).
Proof.
  destruct acc as [v p], e as [s q]. unfold Backtest.markPosition. simpl.
  intros H. destruct (todayOpt this s); [exact H |].
  destruct (Backtest.expired DateTime this s); simpl; [| exact H].
  now apply Forall_delete.
Qed.

Lemma fold_markPosition_Forall (P : string * num -> Prop)
    (this : BacktestEngine) (entries : JSMap.t num)
    (acc : num * JSMap.t num) :
  Forall P (snd acc) ->
  Forall P (snd (fold_left (markPosition this) entries acc)).
Proof.
  revert acc. induction entries as [| e entries IH]; intros acc H;
    cbn [fold_left]; [exact H |].
  apply IH. now apply markPosition_Forall.
Qed.

Lemma calculatePortfolioValue_extends (P : BacktestTrade -> Prop)
    (this : BacktestEngine) :
  extends P this (snd (calculatePortfolioValue this)).
Proof.
  rewrite calculatePortfolioValue_fold. cbn [snd].
  split; [reflexivity |]. split; [reflexivity |]. split; [reflexivity |].
  cbn [marketData optionData config portfolio trades]. split.
  - intros [Hn Hf]. split.
    + now apply fold_markPosition_NoDup.
    + now apply fold_markPosition_Forall.
  - exists []. now rewrite app_nil_r.
Qed.

End Loop.

(** *** The daily loop *)

Section DailyLoop.

Variable Math_random : nat -> num.
Variable Date_now : nat -> num.
Variable DateTime : string -> num.
Variable NumberOf : string -> num.

Local Abbreviation executeStrategies :=
  (Backtest.executeStrategies Math_random Date_now DateTime).
Local Abbreviation calculatePortfolioValue :=
  (Backtest.calculatePortfolioValue DateTime NumberOf).
Local Abbreviation runDates :=
  (Backtest.runDates Math_random Date_now DateTime NumberOf).

Lemma set_currentDate_sameLedger (P : BacktestTrade -> Prop)
    (this : BacktestEngine) (date : string) :
  extends P this (set_currentDate this date).
Proof.
  split; [reflexivity |]. split; [reflexivity |]. split; [reflexivity |].
  split; [exact (fun H => H) |].
  exists []. cbn [set_currentDate trades]. now rewrite app_nil_r.
Qed.

Lemma extends_config (P : BacktestTrade -> Prop) (a b : BacktestEngine) :
  extends P a b -> config b = config a.
Proof. now intros (_ & _ & H & _). Qed.

Lemma runDates_steps (dates : list string) (this : BacktestEngine)
    (rows : list DailyPnL) (cum : num) (rows' : list DailyPnL)
    (this' : BacktestEngine) :
  runDates this dates rows cum = Ok (rows', this') ->
  extends (tradeWithin dates (strategies (config this))) this this'
  /\ exists newRows,
       rows' = rows ++ newRows
       /\ List.map d_date newRows = dates
       /\ List.map cumPnL newRows = runningSum cum (List.map pnl newRows).
Proof.
  revert this rows cum.
  induction dates as [| date rest IH]; intros this rows cum;
    cbn [Backtest.runDates].
  - intros [= <- <-]. split.
    + apply extends_refl. apply sameLedger_refl.
    + exists []. rewrite app_nil_r. repeat split.
  - rewrite (surjective_pairing (calculatePortfolioValue _)).
    intros H. apply bind_Ok in H. destruct H as (this2 & H2 & H).
    rewrite (surjective_pairing (calculatePortfolioValue this2)) in H.
    apply IH in H. destruct H as (Hext & newRows & -> & Hd & Hc).
    set (this0 := set_currentDate this date) in *.
    set (this1 := snd (calculatePortfolioValue this0)) in *.
    set (this3 := snd (calculatePortfolioValue this2)) in *.
    set (P := tradeWithin (date :: rest) (strategies (config this))).
    assert (E01 : extends P this this1).
    { eapply extends_trans; [apply set_currentDate_sameLedger |].
      apply calculatePortfolioValue_extends. }
    assert (E12 : extends P this1 this2).
    { unfold Backtest.executeStrategies in H2.
      apply executeStrategies_from_extends in H2.
      eapply extends_weaken; [| exact H2]. cbn beta.
      intros t (Ht & Hs & Hq). unfold P, tradeWithin.
      rewrite <- (extends_config P this this1 E01).
      repeat split; auto. now left. }
    assert (E23 : extends P this2 this3)
      by apply calculatePortfolioValue_extends.
    assert (E03 : extends P this this3)
      by (eapply extends_trans; [eapply extends_trans |]; eassumption).
    split.
    + eapply extends_trans; [exact E03 |].
      eapply extends_weaken; [| exact Hext]. cbn beta.
      intros t (Ht & Hs & Hq). unfold P, tradeWithin.
      rewrite <- (extends_config P this this3 E03).
      repeat split; auto. now right.
    + eexists (_ :: newRows). rewrite <- app_assoc. cbn [app].
      split; [reflexivity |]. cbn [List.map runningSum d_date cumPnL pnl].
      split; [now rewrite Hd |]. now rewrite Hc.
Qed.

End DailyLoop.

(** *** Trading dates *)

Section Dates.

Lemma addAll_In (dates seen : list string) (d : string) :
  In d (addAll seen dates) <-> In d seen \/ In d dates.
Proof.
  revert seen. induction dates as [| x dates IH]; intros seen;
    cbn [addAll].
  - simpl. tauto.
  - rewrite IH. destruct (existsb (String.eqb x) seen) eqn:E.
    + apply existsb_exists in E. destruct E as (y & Hy & Exy).
      apply String.eqb_eq in Exy. subst y. simpl.
      split; [tauto |]. intros [H | [<- | H]]; auto.
    + rewrite in_app_iff. simpl. tauto.
Qed.

Lemma addAll_NoDup (dates seen : list string) :
  NoDup seen -> NoDup (addAll seen dates).
Proof.
  revert seen. induction dates as [| x dates IH]; intros seen Hnd;
    cbn [addAll]; [exact Hnd |].
  apply IH. destruct (existsb (String.eqb x) seen) eqn:E; [exact Hnd |].
  apply NoDup_app; [exact Hnd | repeat constructor; intros [] |].
  intros y Hy [<- | []].
  assert (Ht : existsb (String.eqb x) seen = true)
    by (apply existsb_exists; exists x; split;
        [exact Hy | apply String.eqb_refl]).
  congruence.
Qed.

Lemma insert_sorted_In (d x : string) (l : list string) :
  In x (insert_sorted d l) <-> x = d \/ In x l.
Proof.
  induction l as [| y l IH]; cbn [insert_sorted].
  - simpl. intuition.
  - destruct (String.leb d y); simpl.
    + intuition.
    + rewrite IH. intuition.
Qed.

Lemma insert_sorted_NoDup (d : string) (l : list string) :
  ~ In d l -> NoDup l -> NoDup (insert_sorted d l).
Proof.
  induction l as [| y l IH]; cbn [insert_sorted]; intros Hd Hnd.
  - repeat constructor. intros [].
  - destruct (String.leb d y); [now constructor |].
    inversion Hnd as [| ? ? Hy Hl]; subst. constructor.
    + rewrite insert_sorted_In. intros [-> | H]; [| contradiction].
      apply Hd. now left.
    + apply IH; [| exact Hl]. intros H. apply Hd. now right.
Qed.

Lemma insert_sorted_ascending (d : string) (l : list string) :
  ascending l = true -> ascending (insert_sorted d l) = true.
Proof.
  induction l as [| y l IH]; cbn [insert_sorted]; intros Hl;
    [reflexivity |].
  destruct (String.leb d y) eqn:E.
  - cbn [ascending]. now rewrite E.
  - assert (Hyd : String.leb y d = true)
      by (destruct (String.leb_total d y); congruence).
    destruct l as [| z l].
    + cbn [insert_sorted ascending]. now rewrite Hyd.
    + cbn [ascending] in Hl. apply andb_true_iff in Hl.
      destruct Hl as [Hyz Hl]. specialize (IH Hl).
      cbn [insert_sorted] in *. destruct (String.leb d z).
      * cbn [ascending] in *. now rewrite Hyd, IH.
      * cbn [ascending] in *. now rewrite Hyz, IH.
Qed.

Lemma sort_In (l : list string) (x : string) : In x (sort l) <-> In x l.
Proof.
  unfold sort. induction l as [| y l IH]; cbn [fold_right]; [tauto |].
  rewrite insert_sorted_In, IH. simpl. intuition.
Qed.

Lemma sort_NoDup (l : list string) : NoDup l -> NoDup (sort l).
Proof.
  unfold sort. induction 1 as [| y l Hy Hl IH]; cbn [fold_right];
    [constructor |].
  apply insert_sorted_NoDup; [| exact IH].
  fold (sort l). now rewrite sort_In.
Qed.

Lemma sort_ascending (l : list string) : ascending (sort l) = true.
Proof.
  unfold sort. induction l as [| y l IH]; cbn [fold_right];
    [reflexivity |].
  now apply insert_sorted_ascending.
Qed.

Lemma allDates_In (market : JSMap.t (list MarketData)) (seen : list string)
    (d : string) :
  In d (fold_left
          (fun allDates (data : string * list MarketData) =>
             addAll allDates (List.map md_date (snd data)))
          market seen)
  <-> In d seen
      \/ exists series point,
           In series market /\ In point (snd series) /\ md_date point = d.
Proof.
  revert seen. induction market as [| s market IH]; intros seen;
    cbn [fold_left].
  - split; [now left | intros [H | (s & p & [] & _)]; exact H].
  - rewrite IH, addAll_In, in_map_iff. split.
    + intros [[H | (p & Hp & Hin)] | (s' & p & Hs & Hp)].
      * now left.
      * right. exists s, p. repeat split; auto. now left.
      * right. exists s', p. destruct Hp. repeat split; auto. now right.
    + intros [H | (s' & p & [<- | Hs] & Hp & Hd)].
      * left. now left.
      * left. right. now exists p.
      * right. now exists s', p.
Qed.

Lemma allDates_NoDup (market : JSMap.t (list MarketData))
    (seen : list string) :
  NoDup seen ->
  NoDup (fold_left
           (fun allDates (data : string * list MarketData) =>
              addAll allDates (List.map md_date (snd data)))
           market seen).
Proof.
  revert seen. induction market as [| s market IH]; intros seen Hnd;
    cbn [fold_left]; [exact Hnd |].
  apply IH. now apply addAll_NoDup.
Qed.

Lemma tradingDatesOf_In (this : BacktestEngine) (d : string) :
  In d (tradingDatesOf this)
  <-> exists series point,
        In series (marketData this) /\ In point (snd series)
        /\ md_date point = d.
Proof.
  unfold tradingDatesOf. rewrite sort_In, allDates_In. simpl. tauto.
Qed.

(** X23.  The trading dates of a run are exactly the dates of the loaded
    market data points, each once, in ascending order. *)
Theorem tradingDatesOf_ascending (this : BacktestEngine) :
  ascending (tradingDatesOf this) = true
  /\ NoDup (tradingDatesOf this)
  /\ forall d,
       In d (tradingDatesOf this)
       <-> exists series point,
             In series (marketData this) /\ In point (snd series)
             /\ md_date point = d.
Proof.
  split; [apply sort_ascending |]. split; [| apply tradingDatesOf_In].
  apply sort_NoDup, allDates_NoDup. constructor.
Qed.

End Dates.

(** *** Metrics *)

Lemma addAll_nil (seen : list string) : addAll seen [] = seen.
Proof. reflexivity. Qed.

Lemma tradingDatesOf_no_points (this : BacktestEngine) :
  Forall (fun series => snd series = []) (marketData this) ->
  tradingDatesOf this = [].
Proof.
  unfold tradingDatesOf. intros H.
  assert (E : forall seen,
             fold_left
               (fun allDates (data : string * list MarketData) =>
                  addAll allDates (List.map md_date (snd data)))
               (marketData this) seen = seen).
  { induction H as [| series l Hs _ IH]; intros seen; cbn [fold_left].
    - reflexivity.
    - rewrite Hs. cbn [List.map addAll]. apply IH. }
  now rewrite E.
Qed.

Lemma length_filter_le {A} (f : A -> bool) (l : list A) :
  (List.length (filter f l) <= List.length l)%nat.
Proof.
  induction l as [| x l IH]; simpl; [lia |]. destruct (f x); simpl; lia.
Qed.

Section Metrics.

Variable Math_random : nat -> num.
Variable Date_now : nat -> num.
Variable DateTime : string -> num.
Variable NumberOf : string -> num.
Variable Math_pow : num -> num -> num.
Variable Math_sqrt : num -> num.

Local Abbreviation runDates :=
  (Backtest.runDates Math_random Date_now DateTime NumberOf).
Local Abbreviation calculateMetrics :=
  (Backtest.calculateMetrics Math_random Math_pow Math_sqrt).
Local Abbreviation calculateStrategyBreakdown :=
  (Backtest.calculateStrategyBreakdown Math_random).
Local Abbreviation runBacktest :=
  (Backtest.runBacktest Math_random Date_now DateTime NumberOf Math_pow
     Math_sqrt).

Lemma tradePnLs_length (trades : list BacktestTrade) (n : nat) :
  List.length (fst (tradePnLs Math_random n trades)) = List.length trades.
Proof.
  revert n. induction trades as [| t trades IH]; intros n;
    cbn [tradePnLs]; [reflexivity |].
  destruct (tradePnLOf Math_random n t) as [p used].
  specialize (IH (n + used)%nat).
  destruct (tradePnLs Math_random (n + used) trades) as [pnls n'].
  cbn [fst List.length] in *. now rewrite IH.
Qed.

Lemma ratio_range (k t : nat) :
  (k <= t)%nat ->
  exists w : Q,
    (if of_Z (Z.of_nat t) >? of_Z 0
     then of_Z (Z.of_nat k) / of_Z (Z.of_nat t) else of_Z 0) = Fin w
    /\ 0 <= w <= 1.
Proof.
  intros Hle. destruct t as [| t].
  - exists 0. split; [reflexivity | lra].
  - assert (Hpos : (0 < inject_Z (Z.of_nat (S t)))%Q).
    { change 0%Q with (inject_Z 0). rewrite <- Zlt_Qlt. lia. }
    assert (Hgt : (of_Z (Z.of_nat (S t)) >? of_Z 0) = true).
    { unfold JS.of_Z, JS.gt, JS.lt.
      destruct (Qltb_spec (inject_Z 0) (inject_Z (Z.of_nat (S t))))
        as [_ | Hneg]; [reflexivity |].
      exfalso. change (inject_Z 0) with 0%Q in Hneg. lra. }
    rewrite Hgt. unfold JS.of_Z. rewrite div_Fin.
    + eexists. split; [reflexivity |].
      assert (Hk : (0 <= inject_Z (Z.of_nat k))%Q)
        by (rewrite <- (Zle_Qle 0); lia).
      assert (Hkt : (inject_Z (Z.of_nat k) <= inject_Z (Z.of_nat (S t)))%Q)
        by (rewrite <- Zle_Qle; lia).
      split.
      * apply Qle_shift_div_l; [exact Hpos | lra].
      * apply Qle_shift_div_r; [exact Hpos | lra].
    + intros E. rewrite E in Hpos. lra.
Qed.

Lemma calculateMetrics_counts (this this' : BacktestEngine)
    (dailyPnL : list DailyPnL) (m : PortfolioMetrics) :
  calculateMetrics this dailyPnL = Ok (m, this') ->
  trades this' = trades this /\ config this' = config this
  /\ totalTrades m = length_num (trades this)
  /\ exists w : Q, winRate m = Fin w /\ 0 <= w <= 1.
Proof.
  unfold Backtest.calculateMetrics.
  destruct (last (List.map Some dailyPnL) None) as [lastDay |];
    [| discriminate].
  pose proof (tradePnLs_length (trades this) (draws this)) as Hlen.
  destruct (tradePnLs Math_random (draws this) (trades this))
    as [tradePnL n].
  cbn [fst] in Hlen.
  pose proof (length_filter_le (fun pnl => pnl >? of_Z 0) tradePnL) as Hle.
  rewrite Hlen in Hle.
  intros H. injection H as <- <-.
  split; [reflexivity |]. split; [reflexivity |]. split; [reflexivity |].
  exact (ratio_range _ _ Hle).
Qed.

Lemma runBacktest_stages (this : BacktestEngine) (res : BacktestResult) :
  runBacktest this = Ok res ->
  exists rows this1 m this2,
    runDates this (tradingDatesOf this) [] (of_Z 0) = Ok (rows, this1)
    /\ calculateMetrics this1 rows = Ok (m, this2)
    /\ r_config res = config this2
    /\ r_trades res = trades this2
    /\ dailyPnL res = rows
    /\ metrics res = m
    /\ strategyBreakdown res = fst (calculateStrategyBreakdown this2).
Proof.
  unfold Backtest.runBacktest. intros H.
  apply bind_Ok in H. destruct H as ([rows this1] & H1 & H).
  apply bind_Ok in H. destruct H as ([m this2] & H2 & H).
  unfold Backtest.calculateStrategyBreakdown in *.
  destruct (strategyBreakdownFrom Math_random this2 (draws this2)
              (strategies (config this2)) []) as [breakdown n] eqn:E.
  injection H as <-.
  exists rows, this1, m, this2.
  split; [exact H1 |]. split; [exact H2 |]. repeat split.
  cbn [strategyBreakdown]. now rewrite E.
Qed.

End Metrics.

(** *** Runs *)

Section Runs.

Variable Math_random : nat -> num.
Variable Date_now : nat -> num.
Variable DateTime : string -> num.
Variable NumberOf : string -> num.
Variable Math_pow : num -> num -> num.
Variable Math_sqrt : num -> num.

Local Abbreviation runDates :=
  (Backtest.runDates Math_random Date_now DateTime NumberOf).
Local Abbreviation calculateMetrics :=
  (Backtest.calculateMetrics Math_random Math_pow Math_sqrt).
Local Abbreviation calculateStrategyBreakdown :=
  (Backtest.calculateStrategyBreakdown Math_random).
Local Abbreviation strategyMetrics := (Backtest.strategyMetrics Math_random).
Local Abbreviation strategyBreakdownFrom :=
  (Backtest.strategyBreakdownFrom Math_random).
Local Abbreviation runBacktest :=
  (Backtest.runBacktest Math_random Date_now DateTime NumberOf Math_pow
     Math_sqrt).

Lemma strategyBreakdownFrom_get (this : BacktestEngine)
    (strategies : list string) (n : nat)
    (breakdown : JSMap.t PortfolioMetrics) (strategy : string) :
  In strategy strategies
  \/ (exists k, JSMap.get breakdown strategy
                = Some (strategyMetrics this k strategy)) ->
  exists k,
    JSMap.get (fst (strategyBreakdownFrom this n strategies breakdown))
      strategy
    = Some (strategyMetrics this k strategy).
Proof.
  revert n breakdown.
  induction strategies as [| s rest IH]; intros n breakdown H;
    cbn [Backtest.strategyBreakdownFrom].
  - destruct H as [[] | H]. exact H.
  - apply IH. destruct H as [[-> | Hin] | (k & Hk)].
    + right. exists n. apply get_set_same.
    + now left.
    + right. destruct (String.eqb_spec strategy s) as [-> | Hne].
      * exists n. apply get_set_same.
      * exists k. now rewrite get_set_other.
Qed.

(** X13.  Every trade a run records is one the daily loop placed: the
    trades held before the run are kept in front, and each new trade is
    of one contract, dated on a trading date of the loaded market data,
    for a strategy of the configuration, which the result reports
    unchanged. *)
Theorem runBacktest_trades_within (this : BacktestEngine)
    (res : BacktestResult) :
  runBacktest this = Ok res ->
  r_config res = config this
  /\ exists new,
       r_trades res = trades this ++ new
       /\ Forall (tradeWithin (tradingDatesOf this) (strategies (config this)))
            new.
Proof.
  intros H. apply runBacktest_stages in H.
  destruct H as (rows & this1 & m & this2 & H1 & H2 & Hc & Ht & _).
  apply runDates_steps in H1.
  destruct H1 as ((_ & _ & Hc1 & _ & new & Ht1 & HF) & _).
  apply calculateMetrics_counts in H2. destruct H2 as (Ht2 & Hc2 & _).
  split; [congruence |].
  exists new. split; [congruence | exact HF].
Qed.

(** X14.  The daily rows of a run are one per trading date, in date
    order, and [cumPnL] is the running total of [pnl] from zero. *)
Theorem runBacktest_daily_rows (this : BacktestEngine)
    (res : BacktestResult) :
  runBacktest this = Ok res ->
  List.map d_date (dailyPnL res) = tradingDatesOf this
  /\ List.map cumPnL (dailyPnL res)
     = runningSum (of_Z 0) (List.map pnl (dailyPnL res)).
Proof.
  intros H. apply runBacktest_stages in H.
  destruct H as (rows & this1 & m & this2 & H1 & _ & _ & _ & -> & _).
  apply runDates_steps in H1.
  destruct H1 as (_ & newRows & -> & Hd & Hc). now split.
Qed.

(** X15.  The counts a run reports agree with its trade list:
    [totalTrades] is the number of trades, the win rate is a fraction
    between 0 and 1, and every configured strategy has an entry in the
    breakdown whose [totalTrades] counts the trades of that strategy. *)
Theorem runBacktest_counts (this : BacktestEngine) (res : BacktestResult) :
  runBacktest this = Ok res ->
  totalTrades (metrics res) = length_num (r_trades res)
  /\ (exists w : Q, winRate (metrics res) = Fin w /\ 0 <= w <= 1)
  /\ forall strategy,
       In strategy (strategies (config this)) ->
       exists m,
         JSMap.get (strategyBreakdown res) strategy = Some m
         /\ totalTrades m
            = length_num
                (filter (fun t => String.eqb (t_strategy t) strategy)
                   (r_trades res)).
Proof.
  intros H. apply runBacktest_stages in H.
  destruct H as (rows & this1 & m & this2 & H1 & H2 & Hc & Ht & _ & -> & Hb).
  apply runDates_steps in H1. destruct H1 as ((_ & _ & Hc1 & _) & _).
  apply calculateMetrics_counts in H2.
  destruct H2 as (Ht2 & Hc2 & Hn & Hw).
  split; [congruence |]. split; [exact Hw |].
  intros strategy Hin. rewrite Hb, Ht.
  unfold Backtest.calculateStrategyBreakdown.
  destruct (strategyBreakdownFrom_get this2 (strategies (config this2))
              (draws this2) [] strategy) as (k & Hk).
  { left. now rewrite Hc2, Hc1. }
  destruct (strategyBreakdownFrom this2 (draws this2)
              (strategies (config this2)) []) as [breakdown n].
  cbn [fst] in *. exists (strategyMetrics this2 k strategy).
  split; [exact Hk | reflexivity].
Qed.

(** X16.  With no market data point loaded there is no trading date, the
    daily loop does not run, and [calculateMetrics] reads [cumPnL] off
    the last of no rows: the run ends in a [TypeError]. *)
Theorem runBacktest_without_market_data (this : BacktestEngine) :
  Forall (fun series => snd series = []) (marketData this) ->
  runBacktest this = TypeError.
Proof.
  intros H. unfold Backtest.runBacktest.
  rewrite (tradingDatesOf_no_points this H). reflexivity.
Qed.

(** X17.  The daily loop keeps the positions well formed: if the
    portfolio holds one entry per symbol and none of quantity zero before
    a stretch of trading dates, it does so after it. *)
Theorem runDates_positions_wellFormed (this this' : BacktestEngine)
    (dates : list string) (rows rows' : list DailyPnL) (cum : num) :
  runDates this dates rows cum = Ok (rows', this') ->
  positionsWellFormed (portfolio this) ->
  positionsWellFormed (portfolio this').
Proof.
  intros H. apply runDates_steps in H.
  destruct H as ((_ & _ & _ & Hwf & _) & _). exact Hwf.
Qed.

End Runs.

Lemma runBacktest_trades_within_witness :
  exists res,
    runBacktest alwaysZero alwaysZero isoTime strikeOf intPow rootTable
      loadedTwoSymbols = Ok res
    /\ r_config res = config loadedTwoSymbols
    /\ exists new,
         r_trades res = trades loadedTwoSymbols ++ new
         /\ Forall
              (tradeWithin (tradingDatesOf loadedTwoSymbols)
                 (strategies (config loadedTwoSymbols)))
              new.
Proof.
  assert (R : returned
                (runBacktest alwaysZero alwaysZero isoTime strikeOf intPow rootTable
                   loadedTwoSymbols) = true)
    by (vm_compute; reflexivity).
  destruct (runBacktest alwaysZero alwaysZero isoTime strikeOf intPow rootTable
              loadedTwoSymbols) as [res |] eqn:E.
  - exists res. split; [reflexivity |].
    exact (runBacktest_trades_within alwaysZero alwaysZero isoTime strikeOf intPow
             rootTable loadedTwoSymbols res E).
  - discriminate R.
Defined.

Lemma runBacktest_daily_rows_witness :
  exists res,
    runBacktest alwaysHalf alwaysZero isoTime strikeOf intPow rootTable
      loadedTwoSymbols = Ok res
    /\ List.map d_date (dailyPnL res) = tradingDatesOf loadedTwoSymbols
    /\ List.map cumPnL (dailyPnL res)
       = runningSum (of_Z 0) (List.map pnl (dailyPnL res)).
Proof.
  assert (R : returned
                (runBacktest alwaysHalf alwaysZero isoTime strikeOf intPow rootTable
                   loadedTwoSymbols) = true)
    by (vm_compute; reflexivity).
  destruct (runBacktest alwaysHalf alwaysZero isoTime strikeOf intPow rootTable
              loadedTwoSymbols) as [res |] eqn:E.
  - exists res. split; [reflexivity |].
    exact (runBacktest_daily_rows alwaysHalf alwaysZero isoTime strikeOf intPow
             rootTable loadedTwoSymbols res E).
  - discriminate R.
Defined.

Lemma runBacktest_counts_witness :
  exists res,
    runBacktest zeroThenHigh alwaysZero isoTime strikeOf intPow rootTable
      loadedTwoSymbols = Ok res
    /\ totalTrades (metrics res) = length_num (r_trades res)
    /\ (exists w : Q, winRate (metrics res) = Fin w /\ 0 <= w <= 1)
    /\ forall strategy,
         In strategy (strategies (config loadedTwoSymbols)) ->
         exists m,
           JSMap.get (strategyBreakdown res) strategy = Some m
           /\ totalTrades m
              = length_num
                  (filter (fun t => String.eqb (t_strategy t) strategy)
                     (r_trades res)).
Proof.
  assert (R : returned
                (runBacktest zeroThenHigh alwaysZero isoTime strikeOf intPow rootTable
                   loadedTwoSymbols) = true)
    by (vm_compute; reflexivity).
  destruct (runBacktest zeroThenHigh alwaysZero isoTime strikeOf intPow rootTable
              loadedTwoSymbols) as [res |] eqn:E.
  - exists res. split; [reflexivity |].
    exact (runBacktest_counts zeroThenHigh alwaysZero isoTime strikeOf intPow
             rootTable loadedTwoSymbols res E).
  - discriminate R.
Defined.

Lemma runBacktest_without_market_data_witness :
  Forall (fun series : string * list MarketData => snd series = [])
    (marketData (emptyHanded (of_Z 1000)))
  /\ runBacktest alwaysZero alwaysZero isoTime strikeOf intPow rootTable
       (emptyHanded (of_Z 1000)) = TypeError.
Proof.
  split; [constructor |].
  apply (runBacktest_without_market_data alwaysZero alwaysZero isoTime
           strikeOf intPow rootTable (emptyHanded (of_Z 1000))).
  constructor.
Defined.

Lemma runDates_positions_wellFormed_witness :
  exists rows' this',
    runDates alwaysZero alwaysZero isoTime strikeOf loadedTwoSymbols
      ["2023-01-01"%string] [] (of_Z 0) = Ok (rows', this')
    /\ positionsWellFormed (portfolio this').
Proof.
  assert (R : returned
                (runDates alwaysZero alwaysZero isoTime strikeOf
                   loadedTwoSymbols ["2023-01-01"%string] [] (of_Z 0)) = true)
    by (vm_compute; reflexivity).
  destruct (runDates alwaysZero alwaysZero isoTime strikeOf loadedTwoSymbols
              ["2023-01-01"%string] [] (of_Z 0)) as [[rows' this'] |] eqn:E.
  - exists rows', this'. split; [reflexivity |].
    apply (runDates_positions_wellFormed alwaysZero alwaysZero isoTime
             strikeOf loadedTwoSymbols this' ["2023-01-01"%string] [] rows'
             (of_Z 0) E).
    split; constructor.
  - discriminate R.
Defined.

(** *** Marking *)

Lemma filter_filter {A} (f g : A -> bool) (l : list A) :
  filter f (filter g l) = filter (fun x => f x && g x) l.
Proof.
  induction l as [| x l IH]; simpl; [reflexivity |].
  destruct (g x); simpl.
  - rewrite andb_true_r. destruct (f x); now rewrite IH.
  - now rewrite andb_false_r.
Qed.

Section Marking2.

Variable DateTime : string -> num.
Variable NumberOf : string -> num.

Local Abbreviation markPosition := (Backtest.markPosition DateTime NumberOf).
Local Abbreviation calculatePortfolioValue :=
  (Backtest.calculatePortfolioValue DateTime NumberOf).
Local Abbreviation lapsed := (Backtest.lapsed DateTime).

Lemma markPosition_snd (this : BacktestEngine) (v : num) (p : JSMap.t num)
    (e : string * num) :
  snd (markPosition this (v, p) e)
  = if lapsed this (fst e) then JSMap.delete p (fst e) else p.
Proof.
  destruct e as [s q]. unfold Backtest.markPosition, Backtest.lapsed.
  cbn [fst]. destruct (todayOpt this s); [reflexivity |].
  now destruct (Backtest.expired DateTime this s).
Qed.

Lemma fold_markPosition_filter (this : BacktestEngine)
    (entries : JSMap.t num) (acc : num * JSMap.t num) :
  NoDup (JSMap.keys (snd acc)) ->
  snd (fold_left (markPosition this) entries acc)
  = filter
      (fun e =>
         negb (lapsed this (fst e)
               && existsb (String.eqb (fst e)) (JSMap.keys entries)))
      (snd acc).
Proof.
  revert acc. induction entries as [| e entries IH]; intros [v p] Hnd;
    cbn [fold_left snd] in *.
  - cbn [JSMap.keys List.map existsb]. symmetry. apply forallb_filter_id.
    apply forallb_forall. intros x _. now rewrite andb_false_r.
  - rewrite IH.
    2:{ rewrite markPosition_snd.
        destruct (lapsed this (fst e)); [now apply NoDup_delete | exact Hnd]. }
    rewrite markPosition_snd.
    destruct (lapsed this (fst e)) eqn:El.
    + rewrite (delete_filter p (fst e) Hnd), filter_filter.
      apply filter_ext. intros x. cbn [JSMap.keys List.map existsb].
      destruct (String.eqb_spec (fst x) (fst e)) as [E | Hne]; cbn [negb].
      * rewrite E, El. cbn [orb andb negb]. now rewrite andb_false_r.
      * now rewrite andb_true_r.
    + apply filter_ext. intros x. cbn [JSMap.keys List.map existsb].
      destruct (String.eqb_spec (fst x) (fst e)) as [E | Hne];
        [| reflexivity].
      rewrite E, El. reflexivity.
Qed.

(** X18.  Marking the portfolio removes the lapsed positions and nothing
    else: the positions left are the others, with their quantities and in
    their order; the cash and the trade list are untouched; and a second
    mark on the same day removes no further position. *)
Theorem calculatePortfolioValue_drops_only_lapsed (this : BacktestEngine) :
  NoDup (JSMap.keys (portfolio this)) ->
  let marked := snd (calculatePortfolioValue this) in
  portfolio marked
  = filter (fun e => negb (lapsed this (fst e))) (portfolio this)
  /\ cash marked = cash this
  /\ trades marked = trades this
  /\ portfolio (snd (calculatePortfolioValue marked)) = portfolio marked.
Proof.
  intros Hnd marked.
  assert (Hfilter : forall (this : BacktestEngine),
             NoDup (JSMap.keys (portfolio this)) ->
             portfolio (snd (calculatePortfolioValue this))
             = filter (fun e => negb (lapsed this (fst e))) (portfolio this)).
  { clear. intros this Hnd. rewrite calculatePortfolioValue_fold.
    cbn [snd portfolio].
    rewrite (fold_markPosition_filter this (portfolio this)
               (cash this, portfolio this) Hnd).
    cbn [snd]. apply filter_ext_in. intros x Hin.
    replace (existsb (String.eqb (fst x)) (JSMap.keys (portfolio this)))
      with true; [now rewrite andb_true_r |].
    symmetry. apply existsb_exists. exists (fst x).
    split; [now apply in_map | apply String.eqb_refl]. }
  assert (Hnd' : NoDup (JSMap.keys (portfolio marked))).
  { subst marked. rewrite calculatePortfolioValue_fold. cbn [snd portfolio].
    now apply fold_markPosition_NoDup. }
  split; [now apply Hfilter |].
  split; [subst marked; now rewrite calculatePortfolioValue_fold |].
  split; [subst marked; now rewrite calculatePortfolioValue_fold |].
  rewrite (Hfilter marked Hnd').
  apply forallb_filter_id. apply forallb_forall. intros x Hin.
  subst marked. rewrite (Hfilter this Hnd) in Hin.
  apply filter_In in Hin. destruct Hin as [_ Hx].
  rewrite calculatePortfolioValue_fold. cbn [snd].
  exact Hx.
Qed.

End Marking2.

Lemma calculatePortfolioValue_drops_only_lapsed_witness :
  let marked := snd (calculatePortfolioValue isoTime strikeOf
                       holdingLiveAndExpired) in
  portfolio marked = [("US.SPY_2023-03-01_400_CALL"%string, of_Z 3)]
  /\ cash marked = of_Z 1000.
Proof.
  destruct (calculatePortfolioValue_drops_only_lapsed isoTime strikeOf
              holdingLiveAndExpired) as (Hp & Hc & _).
  - apply NoDup_cons; [intros [H | []]; discriminate H |].
    apply NoDup_cons; [intros [] | apply NoDup_nil].
  - split; [rewrite Hp; reflexivity | exact Hc].
Defined.

(** *** Nearest elements *)

Section Order.

Lemma num_lt_le (a b : num) : (a <? b) = true -> (a <=? b) = true.
Proof. unfold JS.le. now intros ->. Qed.

Lemma num_not_lt_le (a b : num) :
  JS.finite a -> JS.finite b -> (a <? b) = false -> (b <=? a) = true.
Proof.
  destruct a as [x | | |], b as [y | | |]; try contradiction. intros _ _.
  cbn [JS.lt]. destruct (Qltb_spec x y); [discriminate |]. intros _.
  now apply le_Fin.
Qed.

Lemma num_le_refl (a : num) : JS.finite a -> (a <=? a) = true.
Proof.
  destruct a as [x | | |]; try contradiction. intros _. apply le_Fin. lra.
Qed.

Lemma num_le_trans (a b c : num) :
  JS.finite a -> JS.finite b -> JS.finite c ->
  (a <=? b) = true -> (b <=? c) = true -> (a <=? c) = true.
Proof.
  destruct a as [x | | |], b as [y | | |], c as [z | | |];
    try contradiction. intros _ _ _.
  rewrite !le_Fin. lra.
Qed.

Lemma abs_sub_finite (a b : num) :
  JS.finite a -> JS.finite b -> JS.finite (JS.abs (a - b)).
Proof.
  destruct a as [x | | |], b as [y | | |]; try contradiction. now intros.
Qed.

End Order.

Section Closest.

Context {T : Type}.
Variable metric : T -> num.
Variable target : num.

Local Abbreviation distance := (fun x : T => JS.abs (metric x - target)).
Local Abbreviation closer :=
  (fun best x : T =>
     if JS.abs (metric x - target) <? JS.abs (metric best - target)
     then x else best).

Lemma closer_fold_In (rest : list T) (first : T) :
  In (fold_left closer rest first) (first :: rest).
Proof.
  revert first. induction rest as [| x rest IH]; intros first;
    cbn [fold_left]; [now left |].
  specialize (IH (closer first x)). cbn beta in IH.
  destruct IH as [E | Hin]; [| now right; right].
  rewrite <- E.
  destruct (JS.abs (metric x - target) <? JS.abs (metric first - target));
    [right; now left | now left].
Qed.

Lemma closer_fold_least (rest : list T) (first : T) :
  Forall (fun x => JS.finite (distance x)) (first :: rest) ->
  Forall
    (fun x => (distance (fold_left closer rest first) <=? distance x) = true)
    (first :: rest).
Proof.
  revert first. induction rest as [| x rest IH]; intros first Hfin;
    cbn [fold_left].
  - constructor; [| constructor]. apply num_le_refl.
    now inversion Hfin.
  - inversion Hfin as [| ? ? Hf Hrest]; subst.
    inversion Hrest as [| ? ? Hx Hrest']; subst.
    assert (Hstep : JS.finite (distance (closer first x))
                    /\ (distance (closer first x) <=? distance first) = true
                    /\ (distance (closer first x) <=? distance x) = true).
    { cbn beta.
      destruct (JS.abs (metric x - target) <? JS.abs (metric first - target))
        eqn:E.
      - split; [exact Hx |]. split; [now apply num_lt_le | now apply num_le_refl].
      - split; [exact Hf |]. split; [now apply num_le_refl |].
        now apply num_not_lt_le. }
    destruct Hstep as (Hb & Hbf & Hbx).
    assert (Hfin' : Forall (fun x => JS.finite (distance x))
                      (closer first x :: rest))
      by (constructor; [exact Hb | exact Hrest']).
    specialize (IH (closer first x) Hfin').
    inversion IH as [| ? ? Hbest Hothers]; subst.
    assert (Hfb : JS.finite (distance (fold_left closer rest (closer first x)))).
    { pose proof (closer_fold_In rest (closer first x)) as Hin.
      rewrite Forall_forall in Hrest'.
      destruct Hin as [<- | Hin]; [exact Hb | now apply Hrest']. }
    constructor; [| constructor; [| exact Hothers]].
    + eapply num_le_trans; [exact Hfb | exact Hb | exact Hf | exact Hbest
                       | exact Hbf].
    + eapply num_le_trans; [exact Hfb | exact Hb | exact Hx | exact Hbest
                       | exact Hbx].
Qed.

End Closest.

Lemma nearestBy_In {T} (arr : list T) (metric : T -> num) (target : num)
    (best : T) :
  nearestBy arr metric target = Ok best -> In best arr.
Proof.
  destruct arr as [| first rest]; [discriminate |].
  unfold nearestBy, reduce. intros [= <-]. apply closer_fold_In.
Qed.

Lemma nearestBy_least {T} (arr : list T) (metric : T -> num) (target : num)
    (best : T) :
  JS.finite target ->
  Forall (fun x => JS.finite (metric x)) arr ->
  nearestBy arr metric target = Ok best ->
  Forall
    (fun x =>
       (JS.abs (metric best - target) <=? JS.abs (metric x - target)) = true)
    arr.
Proof.
  intros Ht Hfin. destruct arr as [| first rest]; [discriminate |].
  unfold nearestBy, reduce. intros [= <-].
  apply (closer_fold_least metric target).
  eapply Forall_impl; [| exact Hfin]. cbn beta. intros x Hx.
  now apply abs_sub_finite.
Qed.

(** X19.  [nearestBy] throws on an empty array and on no other; on a
    non-empty array of finite measures it returns an element of the array
    whose measure is at least as close to the target as that of every
    other element. *)
Theorem nearestBy_closest {T} (arr : list T) (metric : T -> num)
    (target : num) :
  JS.finite target ->
  Forall (fun x => JS.finite (metric x)) arr ->
  (arr = [] /\ nearestBy arr metric target = TypeError)
  \/ exists best,
       nearestBy arr metric target = Ok best
       /\ In best arr
       /\ Forall
            (fun x =>
               (JS.abs (metric best - target) <=? JS.abs (metric x - target))
               = true)
            arr.
Proof.
  intros Ht Hfin. destruct arr as [| first rest]; [now left |]. right.
  destruct (nearestBy_nonempty first rest metric target) as (best & Hbest).
  exists best. split; [exact Hbest |].
  split; [now apply nearestBy_In in Hbest |].
  now apply nearestBy_least.
Qed.

Lemma nearestBy_closest_witness :
  exists best,
    nearestBy [dec 45 100; dec 28 100; dec 33 100; dec 8 100]
      (fun x => x) (dec 30 100) = Ok best
    /\ best = dec 28 100.
Proof.
  destruct (nearestBy_closest [dec 45 100; dec 28 100; dec 33 100; dec 8 100]
              (fun x => x) (dec 30 100))
    as [[E _] | (best & Hbest & _)].
  - exact I.
  - repeat constructor.
  - discriminate E.
  - exists best. split; [exact Hbest |].
    vm_compute in Hbest. now injection Hbest as <-.
Defined.

(** *** Shapes of the spreads *)

Lemma num_gt_le (a b : num) : (a >? b) = true -> (b <=? a) = true.
Proof. unfold JS.gt. apply num_lt_le. Qed.

Lemma within_five_above (s k : Q) :
  (JS.abs (Fin s - (Fin k + of_Z 5)) <=? JS.abs (Fin k - (Fin k + of_Z 5)))
  = true ->
  (k <= s)%Q.
Proof.
  unfold JS.of_Z. cbn [JS.add JS.sub JS.neg JS.abs]. rewrite le_Fin.
  unfold inject_Z. intros H.
  assert (E : (Qabs (k + - (k + (5 # 1))) == 5 # 1)%Q).
  { setoid_replace (k + - (k + (5 # 1)))%Q with (- (5 # 1))%Q by ring.
    reflexivity. }
  rewrite E in H. apply Qabs_Qle_condition in H. lra.
Qed.

Lemma within_five_below (l k : Q) :
  (JS.abs (Fin l - (Fin k - of_Z 5)) <=? JS.abs (Fin k - (Fin k - of_Z 5)))
  = true ->
  (k - 10 <= l)%Q /\ (l <= k)%Q.
Proof.
  unfold JS.of_Z. cbn [JS.add JS.sub JS.neg JS.abs]. rewrite le_Fin.
  unfold inject_Z. intros H.
  assert (E : (Qabs (k + - (k + - (5 # 1))) == 5 # 1)%Q).
  { setoid_replace (k + - (k + - (5 # 1)))%Q with (5 # 1)%Q by ring.
    reflexivity. }
  rewrite E in H. apply Qabs_Qle_condition in H. lra.
Qed.

Lemma filter_length_two {A} (f : A -> bool) (l : list A) :
  (List.length (filter f l) <? 2)%nat = false ->
  exists x y rest, filter f l = x :: y :: rest.
Proof.
  destruct (filter f l) as [| x [| y rest]]; try discriminate. eauto.
Qed.

(** X20.  A debit call vertical is nothing, or the purchase of one call
    and the sale of one call of the options given; over finite strikes the
    call sold is never struck below the call bought, and when no candidate
    call is struck above the call bought the two strikes are equal. *)
Theorem buildDebitCallVertical_width (options : list OptionData)
    (legs : list Leg) :
  Forall (fun o => JS.finite (strike o)) options ->
  buildDebitCallVertical options = Ok legs ->
  legs = []
  \/ exists longCall shortCall,
       In longCall options /\ optionType longCall = CALL
       /\ In shortCall options /\ optionType shortCall = CALL
       /\ legs = [mkLeg (symbol longCall) BUY (of_Z 1) (price longCall);
                  mkLeg (symbol shortCall) SELL (of_Z 1) (price shortCall)]
       /\ (strike longCall <=? strike shortCall) = true
       /\ ((forall c, In c options -> optionType c = CALL ->
                      hasDelta c = true ->
                      (strike c >? strike longCall) = false) ->
           (strike shortCall === strike longCall) = true).
Proof.
  intros Hfin. unfold buildDebitCallVertical.
  set (calls := filter (fun opt => OptionType_eqb (optionType opt) CALL
                                   && hasDelta opt) options).
  assert (Hcalls : forall c, In c calls ->
            In c options /\ optionType c = CALL /\ hasDelta c = true).
  { intros c Hc. apply filter_In in Hc. destruct Hc as [Hin Hc].
    apply andb_true_iff in Hc. destruct Hc as [Ht Hd].
    repeat split; auto. now destruct (optionType c). }
  assert (HfinC : Forall (fun o => JS.finite (strike o)) calls).
  { apply Forall_forall. intros c Hc. rewrite Forall_forall in Hfin.
    now apply Hfin, Hcalls. }
  destruct (List.length calls <? 2)%nat; [intros [= <-]; now left |].
  intros H. apply bind_Ok in H. destruct H as (longCall & Hlong & H).
  apply bind_Ok in H. destruct H as (shortCall & Hshort & H).
  injection H as <-. right. exists longCall, shortCall.
  pose proof (nearestBy_In _ _ _ _ Hlong) as HinL.
  destruct (Hcalls longCall HinL) as (HoL & HtL & _).
  assert (HfL : JS.finite (strike longCall))
    by (rewrite Forall_forall in HfinC; now apply HfinC).
  destruct (find (fun c => strike c >? strike longCall) calls)
    as [c |] eqn:Efind.
  - injection Hshort as ->. apply find_some in Efind.
    destruct Efind as [HinS Hgt].
    destruct (Hcalls shortCall HinS) as (HoS & HtS & HdS).
    repeat split; auto.
    + now apply num_gt_le.
    + intros Hnone. rewrite (Hnone shortCall HoS HtS HdS) in Hgt.
      discriminate.
  - pose proof (nearestBy_In _ _ _ _ Hshort) as HinS.
    destruct (Hcalls shortCall HinS) as (HoS & HtS & _).
    pose proof (find_none _ _ Efind shortCall HinS) as Hle. cbn beta in Hle.
    assert (Hnear : Forall
              (fun x => (JS.abs (strike shortCall - (strike longCall + of_Z 5))
                         <=? JS.abs (strike x - (strike longCall + of_Z 5)))
                        = true) calls).
    { apply nearestBy_least; [| exact HfinC | exact Hshort].
      now destruct (strike longCall). }
    rewrite Forall_forall in Hnear. specialize (Hnear longCall HinL).
    assert (HfS : JS.finite (strike shortCall))
      by (rewrite Forall_forall in HfinC; now apply HfinC).
    destruct (strike longCall) as [k | | |]; try contradiction.
    destruct (strike shortCall) as [s | | |]; try contradiction.
    apply within_five_above in Hnear.
    unfold JS.gt in Hle. cbn [JS.lt] in Hle.
    destruct (Qltb_spec k s) as [| Hsk]; [discriminate |].
    repeat split; auto.
    + now apply le_Fin.
    + intros _. cbn [JS.eqb]. apply Qeq_bool_iff. lra.
Qed.

(** X21.  A credit put spread is nothing, or the sale of one put and the
    purchase of one put of the options given; over finite strikes the put
    bought is struck at or below the put sold, and at most 10 below it. *)
Theorem buildCreditPutSpread_width (options : list OptionData)
    (legs : list Leg) :
  Forall (fun o => JS.finite (strike o)) options ->
  buildCreditPutSpread options = Ok legs ->
  legs = []
  \/ exists shortPut longPut,
       In shortPut options /\ optionType shortPut = PUT
       /\ In longPut options /\ optionType longPut = PUT
       /\ legs = [mkLeg (symbol shortPut) SELL (of_Z 1) (price shortPut);
                  mkLeg (symbol longPut) BUY (of_Z 1) (price longPut)]
       /\ (strike longPut <=? strike shortPut) = true
       /\ (strike shortPut - of_Z 10 <=? strike longPut) = true.
Proof.
  intros Hfin. unfold buildCreditPutSpread.
  set (puts := filter (fun opt => OptionType_eqb (optionType opt) PUT
                                  && hasDelta opt) options).
  assert (Hputs : forall c, In c puts ->
            In c options /\ optionType c = PUT).
  { intros c Hc. apply filter_In in Hc. destruct Hc as [Hin Hc].
    apply andb_true_iff in Hc. destruct Hc as [Ht Hd].
    split; auto. now destruct (optionType c). }
  assert (HfinP : Forall (fun o => JS.finite (strike o)) puts).
  { apply Forall_forall. intros c Hc. rewrite Forall_forall in Hfin.
    now apply Hfin, Hputs. }
  destruct (List.length puts <? 2)%nat; [intros [= <-]; now left |].
  intros H. apply bind_Ok in H. destruct H as (shortPut & Hshort & H).
  apply bind_Ok in H. destruct H as (longPut & Hlong & H).
  injection H as <-. right. exists shortPut, longPut.
  pose proof (nearestBy_In _ _ _ _ Hshort) as HinS.
  pose proof (nearestBy_In _ _ _ _ Hlong) as HinL.
  destruct (Hputs shortPut HinS) as (HoS & HtS).
  destruct (Hputs longPut HinL) as (HoL & HtL).
  assert (HfS : JS.finite (strike shortPut))
    by (rewrite Forall_forall in HfinP; now apply HfinP).
  assert (HfL : JS.finite (strike longPut))
    by (rewrite Forall_forall in HfinP; now apply HfinP).
  assert (Hnear : Forall
            (fun x => (JS.abs (strike longPut - (strike shortPut - of_Z 5))
                       <=? JS.abs (strike x - (strike shortPut - of_Z 5)))
                      = true) puts).
  { apply nearestBy_least; [| exact HfinP | exact Hlong].
    now destruct (strike shortPut). }
  rewrite Forall_forall in Hnear. specialize (Hnear shortPut HinS).
  destruct (strike shortPut) as [k | | |]; try contradiction.
  destruct (strike longPut) as [l | | |]; try contradiction.
  apply within_five_below in Hnear. destruct Hnear as [Hlo Hhi].
  repeat split; auto.
  - now apply le_Fin.
  - unfold JS.of_Z. cbn [JS.sub JS.neg JS.add]. apply le_Fin.
    unfold inject_Z. lra.
Qed.

(** X22.  An at-the-money straddle is nothing, or the purchase of one
    call and one put of the options given with the same strike; over
    finite strikes and a finite spot no call of the options is struck
    closer to today's price of the underlying than the call bought. *)
Theorem buildATMStraddle_legs (this : BacktestEngine)
    (options : list OptionData) (underlying : option string)
    (legs : list Leg) :
  buildATMStraddle this options underlying = Ok legs ->
  legs = []
  \/ exists point atmCall atmPut,
       spotToday this underlying = Some point
       /\ In atmCall options /\ optionType atmCall = CALL
       /\ In atmPut options /\ optionType atmPut = PUT
       /\ (strike atmPut === strike atmCall) = true
       /\ legs = [mkLeg (symbol atmCall) BUY (of_Z 1) (price atmCall);
                  mkLeg (symbol atmPut) BUY (of_Z 1) (price atmPut)]
       /\ (JS.finite (md_price point) ->
           Forall (fun o => JS.finite (strike o)) options ->
           forall c, In c options -> optionType c = CALL ->
             (JS.abs (strike atmCall - md_price point)
              <=? JS.abs (strike c - md_price point)) = true).
Proof.
  unfold buildATMStraddle.
  destruct (spotToday this underlying) as [point |];
    [| intros [= <-]; now left].
  set (calls := filter (fun opt => OptionType_eqb (optionType opt) CALL)
                  options).
  set (puts := filter (fun opt => OptionType_eqb (optionType opt) PUT)
                 options).
  intros H. apply bind_Ok in H. destruct H as (atmCall & Hcall & H).
  destruct (find (fun p => strike p === strike atmCall) puts)
    as [atmPut |] eqn:Efind; [| injection H as <-; now left].
  injection H as <-. right. exists point, atmCall, atmPut.
  fold (nearestBy calls strike (md_price point)) in Hcall.
  pose proof (nearestBy_In _ _ _ _ Hcall) as HinC.
  apply filter_In in HinC. destruct HinC as [HoC HtC].
  apply find_some in Efind. destruct Efind as [HinP Heq].
  apply filter_In in HinP. destruct HinP as [HoP HtP].
  split; [reflexivity |].
  split; [exact HoC |]. split; [now destruct (optionType atmCall) |].
  split; [exact HoP |]. split; [now destruct (optionType atmPut) |].
  split; [exact Heq |]. split; [reflexivity |].
  intros Hspot Hfin c Hc Htc.
  assert (HfinC : Forall (fun o => JS.finite (strike o)) calls).
  { apply Forall_forall. intros x Hx. apply filter_In in Hx.
    rewrite Forall_forall in Hfin. now apply Hfin. }
  pose proof (nearestBy_least calls strike (md_price point) atmCall Hspot
                HfinC Hcall) as Hnear.
  rewrite Forall_forall in Hnear. apply Hnear.
  apply filter_In. split; [exact Hc |]. now rewrite Htc.
Qed.

Lemma buildDebitCallVertical_width_witness :
  buildDebitCallVertical callsAndPuts
  = Ok [mkLeg "US.SPY_2023-01-31_405_CALL" BUY (of_Z 1) (of_Z 6);
        mkLeg "US.SPY_2023-01-31_405_CALL" SELL (of_Z 1) (of_Z 6)]
  /\ exists longCall shortCall,
       In longCall callsAndPuts /\ In shortCall callsAndPuts
       /\ (strike longCall <=? strike shortCall) = true.
Proof.
  split; [reflexivity |].
  destruct (buildDebitCallVertical_width callsAndPuts
              [mkLeg "US.SPY_2023-01-31_405_CALL" BUY (of_Z 1) (of_Z 6);
               mkLeg "US.SPY_2023-01-31_405_CALL" SELL (of_Z 1) (of_Z 6)])
    as [E | (l & s & Hl & _ & Hs & _ & _ & Hle & _)].
  - repeat constructor.
  - reflexivity.
  - discriminate E.
  - exists l, s. repeat split; assumption.
Defined.

Lemma buildCreditPutSpread_width_witness :
  buildCreditPutSpread callsAndPuts
  = Ok [mkLeg "US.SPY_2023-01-31_390_PUT" SELL (of_Z 1) (of_Z 3);
        mkLeg "US.SPY_2023-01-31_390_PUT" BUY (of_Z 1) (of_Z 3)]
  /\ exists shortPut longPut,
       In shortPut callsAndPuts /\ In longPut callsAndPuts
       /\ (strike longPut <=? strike shortPut) = true.
Proof.
  split; [reflexivity |].
  destruct (buildCreditPutSpread_width callsAndPuts
              [mkLeg "US.SPY_2023-01-31_390_PUT" SELL (of_Z 1) (of_Z 3);
               mkLeg "US.SPY_2023-01-31_390_PUT" BUY (of_Z 1) (of_Z 3)])
    as [E | (s & l & Hs & _ & Hl & _ & _ & Hle & _)].
  - repeat constructor.
  - reflexivity.
  - discriminate E.
  - exists s, l. repeat split; assumption.
Defined.

Lemma buildATMStraddle_legs_witness :
  buildATMStraddle loadedPutsOnly callsAndPuts (Some "US.SPY"%string)
  = Ok [mkLeg "US.SPY_2023-01-31_400_CALL" BUY (of_Z 1) (of_Z 9);
        mkLeg "US.SPY_2023-01-31_400_PUT" BUY (of_Z 1) (of_Z 8)]
  /\ exists atmCall atmPut,
       In atmCall callsAndPuts /\ In atmPut callsAndPuts
       /\ (strike atmPut === strike atmCall) = true.
Proof.
  split; [reflexivity |].
  destruct (buildATMStraddle_legs loadedPutsOnly callsAndPuts
              (Some "US.SPY"%string)
              [mkLeg "US.SPY_2023-01-31_400_CALL" BUY (of_Z 1) (of_Z 9);
               mkLeg "US.SPY_2023-01-31_400_PUT" BUY (of_Z 1) (of_Z 8)])
    as [E | (m & c & p & _ & Hc & _ & Hp & _ & Heq & _)].
  - reflexivity.
  - discriminate E.
  - exists c, p. repeat split; assumption.
Defined.

(** *** Runs that return *)

Lemma index_draw {A} (l : list A) (r : Q) :
  l <> [] -> 0 <= r -> r < 1 ->
  exists x, index l (JS.floor (Fin r * length_num l)) = Some x /\ In x l.
Proof.
  intros Hl H0 H1. unfold length_num, JS.of_Z. cbn [JS.mul JS.floor].
  assert (Hn : (0 < List.length l)%nat)
    by (destruct l; [congruence | simpl; lia]).
  set (n := List.length l) in *.
  set (q := (r * inject_Z (Z.of_nat n))%Q).
  assert (Hnq : (0 < inject_Z (Z.of_nat n))%Q).
  { change 0%Q with (inject_Z 0). rewrite <- Zlt_Qlt. lia. }
  assert (Hq0 : (0 <= q)%Q) by (subst q; nra).
  assert (Hq1 : (q < inject_Z (Z.of_nat n))%Q) by (subst q; nra).
  assert (Hf0 : (0 <= Qfloor q)%Z).
  { change 0%Z with (Qfloor 0). now apply Qfloor_resp_le. }
  assert (Hf1 : (Qfloor q < Z.of_nat n)%Z).
  { pose proof (Qfloor_le q) as Hle. rewrite Zlt_Qlt. lra. }
  unfold JS.of_Z, index. rewrite Qfloor_Z.
  assert (E : Qeq_bool (inject_Z (Qfloor q)) (inject_Z (Qfloor q)) = true)
    by (apply Qeq_bool_iff; reflexivity).
  rewrite E. cbn [andb].
  destruct (Z.leb_spec 0 (Qfloor q)); [| lia].
  destruct (nth_error l (Z.to_nat (Qfloor q))) as [x |] eqn:En.
  - exists x. split; [reflexivity |]. eapply nth_error_In, En.
  - apply nth_error_None in En. fold n in En. lia.
Qed.

Section Returns.

Variable Math_random : nat -> num.
Variable Date_now : nat -> num.
Variable DateTime : string -> num.
Variable NumberOf : string -> num.
Variable Math_pow : num -> num -> num.
Variable Math_sqrt : num -> num.

Local Abbreviation buildCashSecuredPut :=
  (Backtest.buildCashSecuredPut Math_random).
Local Abbreviation executeStrategy :=
  (Backtest.executeStrategy Math_random Date_now DateTime).
Local Abbreviation executeStrategies_from :=
  (Backtest.executeStrategies_from Math_random Date_now DateTime).
Local Abbreviation executeStrategies :=
  (Backtest.executeStrategies Math_random Date_now DateTime).
Local Abbreviation calculatePortfolioValue :=
  (Backtest.calculatePortfolioValue DateTime NumberOf).
Local Abbreviation runDates :=
  (Backtest.runDates Math_random Date_now DateTime NumberOf).
Local Abbreviation calculateMetrics :=
  (Backtest.calculateMetrics Math_random Math_pow Math_sqrt).
Local Abbreviation runBacktest :=
  (Backtest.runBacktest Math_random Date_now DateTime NumberOf Math_pow
     Math_sqrt).
Local Abbreviation drawsInRange := (Backtest.drawsInRange Math_random).

Lemma buildCashSecuredPut_returns (this : BacktestEngine)
    (options : list OptionData) :
  drawsInRange ->
  exists built, buildCashSecuredPut this options = Ok built.
Proof.
  intros Hdraws. unfold Backtest.buildCashSecuredPut.
  destruct (filter _ options) as [| p ps]; [eauto |].
  unfold Backtest.draw.
  destruct (Hdraws (draws this)) as (r & -> & H0 & H1).
  destruct (index_draw (p :: ps) r) as (x & -> & _);
    [discriminate | assumption | assumption |].
  eauto.
Qed.

Lemma executeStrategy_returns (this : BacktestEngine)
    (strategy date : string) :
  drawsInRange -> strategy <> "atm_straddle"%string ->
  exists this', executeStrategy this strategy date = Ok this'.
Proof.
  intros Hdraws Hne. unfold Backtest.executeStrategy.
  rewrite (surjective_pairing (Backtest.draw Math_random this)).
  set (this0 := snd (Backtest.draw Math_random this)).
  destruct (match JSMap.get (optionData this0) _ with
            | Some l => l | None => [] end) as [| o os]; [eauto |].
  destruct (filter _ (o :: os)) as [| v vs]; [eauto |].
  set (validOptions := v :: vs).
  destruct (String.eqb strategy "debit_call_vertical").
  { destruct (buildDebitCallVertical_returns validOptions) as (l & ->).
    cbn [bind]. eauto. }
  destruct (String.eqb strategy "credit_put_spread").
  { destruct (buildCreditPutSpread_returns validOptions) as (l & ->).
    cbn [bind]. eauto. }
  destruct (String.eqb_spec strategy "atm_straddle"); [contradiction |].
  destruct (String.eqb strategy "cash_secured_put").
  { destruct (buildCashSecuredPut_returns this0 validOptions Hdraws)
      as ([l t] & ->).
    cbn [bind]. eauto. }
  destruct (String.eqb strategy "crash_hedge").
  { destruct (buildCrashHedge_returns validOptions) as (l & ->).
    cbn [bind]. eauto. }
  cbn [bind]. eauto.
Qed.

(** A delta above 0.2 in absolute value is there and is not zero, so the
    puts the builder keeps are the puts in the band. *)
Lemma inBand_filter (options : list OptionData) :
  filter
    (fun opt =>
       OptionType_eqb (optionType opt) PUT
       && JS.truthy (num_of (delta opt))
       && (absDelta opt >? dec 2 10)
       && (absDelta opt <? dec 3 10))
    options
  = filter inBand options.
Proof.
  apply filter_ext. intros opt. unfold inBand, absDelta.
  destruct (OptionType_eqb (optionType opt) PUT); [| reflexivity].
  cbn [andb].
  destruct (num_of (delta opt)) as [q | | |]; try reflexivity.
  cbn [JS.truthy JS.abs]. destruct (Qeq_bool q 0) eqn:E; [| reflexivity].
  apply Qeq_bool_iff in E. cbn [negb andb].
  assert (Hlow : (Fin (Qabs q) >? dec 2 10) = false).
  { unfold JS.gt, dec. cbn [JS.lt].
    destruct (Qltb_spec (2 # 10) (Qabs q)) as [H | H]; [| reflexivity].
    rewrite E in H. exfalso. revert H. unfold Qlt; simpl; lia. }
  now rewrite Hlow.
Qed.

(** X24.  With a draw [r] in [0, 1) the cash-secured put never throws.
    When no put of the options has a delta strictly between 0.2 and 0.3
    in absolute value it proposes nothing and leaves the draw untaken.
    Otherwise it takes one draw and proposes the sale of one contract of
    the put at place [floor (r * n)] among the [n] puts in the band, in
    the order of the options. *)
Theorem buildCashSecuredPut_in_band (this : BacktestEngine)
    (options : list OptionData) (r : Q) :
  Math_random (draws this) = Fin r -> 0 <= r -> r < 1 ->
  (filter inBand options = [] ->
   buildCashSecuredPut this options = Ok ([], this))
  /\ (filter inBand options <> [] ->
      exists put,
        index (filter inBand options)
          (JS.floor (Fin r * length_num (filter inBand options)))
        = Some put
        /\ In put options /\ inBand put = true
        /\ buildCashSecuredPut this options
           = Ok ([mkLeg (symbol put) SELL (of_Z 1) (price put)],
                 snd (Backtest.draw Math_random this))).
Proof.
  intros Hr H0 H1. unfold Backtest.buildCashSecuredPut.
  rewrite inBand_filter.
  split.
  - intros ->. reflexivity.
  - intros Hne.
    destruct (filter inBand options) as [| p ps] eqn:E; [congruence |].
    unfold Backtest.draw. rewrite Hr.
    destruct (index_draw (p :: ps) r) as (x & Hx & Hin);
      [discriminate | assumption | assumption |].
    exists x. split; [exact Hx |].
    rewrite <- E in Hin. apply filter_In in Hin. destruct Hin as [Hin Hband].
    split; [exact Hin |]. split; [exact Hband |].
    rewrite Hx. reflexivity.
Qed.

Lemma executeStrategies_from_returns (strategies : list string)
    (this : BacktestEngine) (date : string) :
  drawsInRange -> ~ In "atm_straddle"%string strategies ->
  exists this', executeStrategies_from this strategies date = Ok this'.
Proof.
  intros Hdraws. revert this.
  induction strategies as [| s rest IH]; intros this Hno;
    cbn [Backtest.executeStrategies_from]; [eauto |].
  destruct (executeStrategy_returns this s date Hdraws) as (this1 & ->).
  { intros ->. apply Hno. now left. }
  cbn [bind]. apply IH. intros H. apply Hno. now right.
Qed.

Lemma runDates_returns (dates : list string) (this : BacktestEngine)
    (rows : list DailyPnL) (cum : num) :
  drawsInRange -> ~ In "atm_straddle"%string (strategies (config this)) ->
  exists ran, runDates this dates rows cum = Ok ran.
Proof.
  intros Hdraws. revert this rows cum.
  induction dates as [| date rest IH]; intros this rows cum Hno;
    cbn [Backtest.runDates]; [eauto |].
  rewrite (surjective_pairing (calculatePortfolioValue _)).
  set (this1 := snd (calculatePortfolioValue (set_currentDate this date))).
  assert (Hc1 : config this1 = config this).
  { subst this1. rewrite calculatePortfolioValue_fold. reflexivity. }
  destruct (executeStrategies_from_returns (strategies (config this1)) this1
              date Hdraws) as (this2 & H2).
  { now rewrite Hc1. }
  unfold Backtest.executeStrategies. rewrite H2. cbn [bind].
  rewrite (surjective_pairing (calculatePortfolioValue this2)).
  apply IH.
  apply executeStrategies_from_extends in H2.
  destruct H2 as (_ & _ & Hc2 & _).
  rewrite calculatePortfolioValue_fold. cbn [snd config].
  now rewrite Hc2, Hc1.
Qed.

(** X25.  A run returns a result whenever it has a market data point to
    trade on, every draw of [Math.random] lies in [0, 1), and the
    at-the-money straddle is not among the strategies. *)
Theorem runBacktest_returns (this : BacktestEngine)
    (series : string * list MarketData) (point : MarketData) :
  drawsInRange ->
  ~ In "atm_straddle"%string (strategies (config this)) ->
  In series (marketData this) -> In point (snd series) ->
  exists res, runBacktest this = Ok res.
Proof.
  intros Hdraws Hno Hseries Hpoint. unfold Backtest.runBacktest.
  destruct (runDates_returns (tradingDatesOf this) this [] (of_Z 0) Hdraws
              Hno) as ([rows this1] & Hran).
  rewrite Hran. cbn [bind].
  assert (Hrows : rows <> []).
  { apply runDates_steps in Hran.
    destruct Hran as (_ & newRows & -> & Hd & _). cbn [app].
    intros ->. cbn [List.map] in Hd.
    assert (Hin : In (md_date point) (tradingDatesOf this))
      by (apply tradingDatesOf_In; now exists series, point).
    now rewrite <- Hd in Hin. }
  unfold Backtest.calculateMetrics.
  destruct (last (List.map Some rows) None) as [lastDay |] eqn:El.
  - destruct (tradePnLs Math_random (draws this1) (trades this1)).
    cbn [bind].
    destruct (Backtest.calculateStrategyBreakdown Math_random _).
    eauto.
  - exfalso. destruct (exists_last Hrows) as (front & lastDay & ->).
    rewrite map_app in El. cbn [List.map] in El.
    rewrite last_last in El. discriminate.
Qed.

End Returns.

(** Of the four puts of the surface only the one struck at 390, with a
    delta of -0.22, is in the band (-0.30 sits on its edge and is left
    out); the draw of one half picks it. *)
Lemma buildCashSecuredPut_in_band_witness :
  exists put,
    index (filter inBand callsAndPuts)
      (JS.floor (Fin (1 # 2) * length_num (filter inBand callsAndPuts)))
    = Some put
    /\ In put callsAndPuts /\ inBand put = true
    /\ buildCashSecuredPut alwaysHalf loadedPutsOnly callsAndPuts
       = Ok ([mkLeg (symbol put) SELL (of_Z 1) (price put)],
             snd (draw alwaysHalf loadedPutsOnly)).
Proof.
  apply (buildCashSecuredPut_in_band alwaysHalf loadedPutsOnly callsAndPuts
           (1 # 2)).
  - reflexivity.
  - unfold Qle; simpl; lia.
  - reflexivity.
  - vm_compute. discriminate.
Defined.

Lemma runBacktest_returns_witness :
  exists res,
    runBacktest alwaysHalf alwaysZero isoTime strikeOf intPow rootTable
      loadedTwoSymbols = Ok res.
Proof.
  apply (runBacktest_returns alwaysHalf alwaysZero isoTime strikeOf intPow
           rootTable loadedTwoSymbols
           ("US.SPY"%string,
            [mkMarket "2023-01-01" "US.SPY" (of_Z 400) (of_Z 1000000) None])
           (mkMarket "2023-01-01" "US.SPY" (of_Z 400) (of_Z 1000000) None)).
  - intros n. exists (1 # 2). split; [reflexivity |].
    split; [unfold Qle; simpl; lia | reflexivity].
  - intros [H | []]. discriminate H.
  - left. reflexivity.
  - left. reflexivity.
Defined.

(** *** Loading *)

Section Filing.

Context {V : Type}.
Variable keyOf : V -> string.

Lemma filedUnder_fileUnder (m : JSMap.t (list V)) (x : V) (key : string) :
  filedUnder (fileUnder m (keyOf x) x) key
  = filedUnder m key ++ (if String.eqb (keyOf x) key then [x] else []).
Proof.
  unfold fileUnder, filedUnder.
  destruct (String.eqb_spec (keyOf x) key) as [<- | Hne].
  - destruct (JSMap.get m (keyOf x)); now rewrite get_set_same.
  - destruct (JSMap.get m (keyOf x));
      rewrite get_set_other by congruence; now rewrite app_nil_r.
Qed.

Lemma filedUnder_fold (l : list V) (m : JSMap.t (list V)) (key : string) :
  filedUnder (fold_left (fun m x => fileUnder m (keyOf x) x) l m) key
  = filedUnder m key ++ filter (fun x => String.eqb (keyOf x) key) l.
Proof.
  revert m. induction l as [| x l IH]; intros m; cbn [fold_left filter].
  - now rewrite app_nil_r.
  - rewrite IH, filedUnder_fileUnder, <- app_assoc.
    now destruct (String.eqb (keyOf x) key).
Qed.

Lemma fileUnder_NoDup (m : JSMap.t (list V)) (x : V) :
  NoDup (JSMap.keys m) -> NoDup (JSMap.keys (fileUnder m (keyOf x) x)).
Proof.
  intros H. unfold fileUnder.
  destruct (JSMap.get m (keyOf x)); now apply NoDup_set.
Qed.

Lemma fold_fileUnder_NoDup (l : list V) (m : JSMap.t (list V)) :
  NoDup (JSMap.keys m) ->
  NoDup (JSMap.keys (fold_left (fun m x => fileUnder m (keyOf x) x) l m)).
Proof.
  revert m. induction l as [| x l IH]; intros m H; cbn [fold_left];
    [exact H |].
  now apply IH, fileUnder_NoDup.
Qed.

End Filing.

(** X27.  [loadData] files every generated record under its key, after
    the records already filed there and in the order of generation: a
    market data point under its symbol, a quote under its underlying and
    date; the ledger is not touched.  For the historical data source it
    throws instead. *)
Theorem loadData_files_by_key (this : BacktestEngine)
    (generatedMarket : list MarketData) (generatedOptions : list OptionData) :
  match dataSource (config this) with
  | historical =>
      loadData this generatedMarket generatedOptions = NotImplemented
  | mock =>
      exists this',
        loadData this generatedMarket generatedOptions = DataLoaded this'
        /\ (forall symbol,
              filedUnder (marketData this') symbol
              = filedUnder (marketData this) symbol
                ++ filter (fun data => String.eqb (md_symbol data) symbol)
                     generatedMarket)
        /\ (forall key,
              filedUnder (optionData this') key
              = filedUnder (optionData this) key
                ++ filter (fun option => String.eqb (optionKeyOf option) key)
                     generatedOptions)
        /\ trades this' = trades this /\ portfolio this' = portfolio this
        /\ cash this' = cash this /\ config this' = config this
  end.
Proof.
  unfold loadData. destruct (dataSource (config this)); [| reflexivity].
  eexists. split; [reflexivity |].
  cbn [marketData optionData trades portfolio cash config].
  split; [intros symbol; apply (filedUnder_fold md_symbol) |].
  split; [intros key; apply (filedUnder_fold optionKeyOf) |].
  repeat split.
Qed.

(** *** Strikes *)

Lemma strikeOffsets_range :
  Forall (fun i => (-8 <= i <= 8)%Z) strikeOffsets.
Proof. repeat constructor; lia. Qed.

Lemma strike_value (p : Q) (i : Z) :
  JS.floor (Fin p / of_Z 5) * of_Z 5 + of_Z i * of_Z 5
  = Fin (inject_Z (Qfloor (p / 5)) * 5 + inject_Z i * 5).
Proof.
  unfold JS.of_Z. rewrite div_Fin by (compute; discriminate).
  reflexivity.
Qed.

Lemma floor_fifth (p : Q) :
  (inject_Z (Qfloor (p / 5)) * 5 <= p)%Q
  /\ (p < inject_Z (Qfloor (p / 5)) * 5 + 5)%Q.
Proof.
  assert (E : (p == p / 5 * 5)%Q) by field.
  pose proof (Qfloor_le (p / 5)) as Hlo.
  pose proof (Qlt_floor (p / 5)) as Hhi.
  rewrite inject_Z_plus in Hhi. change (inject_Z 1) with 1%Q in Hhi.
  set (q := (p / 5)%Q) in *. set (f := inject_Z (Qfloor q)) in *.
  split; lra.
Qed.

(** X28.  The strikes generated around a price are positive multiples of
    5, more than 45 below the price at no point and at most 40 above it;
    from a price of 45 on there are 17 of them. *)
Theorem generateStrikes_grid (p : Q) :
  Forall
    (fun s =>
       exists k : Z,
         s =~ of_Z (5 * k) /\ (0 < k)%Z
         /\ (p - 45 < inject_Z (5 * k))%Q /\ (inject_Z (5 * k) <= p + 40)%Q)
    (generateStrikes (Fin p))
  /\ ((45 <= p)%Q -> List.length (generateStrikes (Fin p)) = 17%nat).
Proof.
  pose proof (floor_fifth p) as [Hlo Hhi].
  set (f := Qfloor (p / 5)) in *.
  split.
  - apply Forall_forall. intros s Hs. unfold generateStrikes in Hs.
    apply filter_In in Hs. destruct Hs as [Hin Hpos].
    apply in_map_iff in Hin. destruct Hin as (i & <- & Hi).
    pose proof strikeOffsets_range as Hr. rewrite Forall_forall in Hr.
    specialize (Hr i Hi).
    rewrite strike_value in Hpos |- *. fold f in Hpos |- *.
    unfold JS.gt, JS.of_Z in Hpos. cbn [JS.lt] in Hpos.
    destruct (Qltb_spec (inject_Z 0) (inject_Z f * 5 + inject_Z i * 5))
      as [Hgt | _]; [| discriminate].
    assert (E : (inject_Z (5 * (f + i)) == inject_Z f * 5 + inject_Z i * 5)%Q).
    { rewrite inject_Z_mult, inject_Z_plus. change (inject_Z 5) with 5%Q.
      ring. }
    assert (Hi8 : (inject_Z (-8) <= inject_Z i)%Q /\ (inject_Z i <= inject_Z 8)%Q)
      by (rewrite <- !Zle_Qle; lia).
    change (inject_Z (-8)) with (-8 # 1)%Q in Hi8.
    change (inject_Z 8) with (8 # 1)%Q in Hi8.
    exists (f + i)%Z. split; [| split; [| split]].
    + unfold JS.of_Z. cbn [JS.same]. now symmetry.
    + change (inject_Z 0) with 0%Q in Hgt. rewrite <- E in Hgt.
      change 0%Q with (inject_Z 0) in Hgt. rewrite <- Zlt_Qlt in Hgt. lia.
    + rewrite E. lra.
    + rewrite E. lra.
  - intros Hp. unfold generateStrikes.
    rewrite forallb_filter_id; [reflexivity |].
    apply forallb_forall. intros s Hin.
    apply in_map_iff in Hin. destruct Hin as (i & <- & Hi).
    pose proof strikeOffsets_range as Hr. rewrite Forall_forall in Hr.
    specialize (Hr i Hi).
    rewrite strike_value. fold f. unfold JS.gt, JS.of_Z. cbn [JS.lt].
    assert (Hi8 : (inject_Z (-8) <= inject_Z i)%Q)
      by (rewrite <- !Zle_Qle; lia).
    change (inject_Z (-8)) with (-8 # 1)%Q in Hi8.
    destruct (Qltb_spec (inject_Z 0) (inject_Z f * 5 + inject_Z i * 5))
      as [_ | Hle]; [reflexivity |].
    change (inject_Z 0) with 0%Q in Hle. exfalso. lra.
Qed.

(** *** Idle strategies and the pricing kernel *)

Section Idle.

Variable Math_random : nat -> num.
Variable Date_now : nat -> num.
Variable DateTime : string -> num.

Local Abbreviation executeStrategy :=
  (Backtest.executeStrategy Math_random Date_now DateTime).
Local Abbreviation draw := (Backtest.draw Math_random).

(** X30.  A strategy name the engine does not know, or an engine without
    option data, makes [executeStrategy] a draw of [Math.random] and
    nothing else: no trade, no change of cash or positions, no error. *)
Theorem executeStrategy_idle (this : BacktestEngine)
    (strategy date : string) :
  ~ In strategy
      ["debit_call_vertical"; "credit_put_spread"; "atm_straddle";
       "cash_secured_put"; "crash_hedge"]%string
  \/ optionData this = [] ->
  executeStrategy this strategy date = Ok (snd (draw this)).
Proof.
  intros H. unfold Backtest.executeStrategy.
  rewrite (surjective_pairing (draw this)).
  set (this0 := snd (draw this)).
  change (optionData this0) with (optionData this).
  destruct H as [Hno | ->]; [| reflexivity].
  destruct (match JSMap.get (optionData this) _ with
            | Some l => l | None => [] end) as [| o os]; [reflexivity |].
  destruct (filter _ (o :: os)) as [| v vs]; [reflexivity |].
  repeat match goal with
  | |- context [String.eqb strategy ?s] =>
      destruct (String.eqb_spec strategy s) as [E | _];
        [exfalso; apply Hno; rewrite E; simpl; tauto |]
  end.
  reflexivity.
Qed.

End Idle.

Lemma executeStrategy_idle_witness :
  executeStrategy alwaysHalf alwaysZero isoTime loadedTwoSymbols
    "iron_condor" "2023-01-01"
  = Ok (snd (draw alwaysHalf loadedTwoSymbols)).
Proof.
  apply (executeStrategy_idle alwaysHalf alwaysZero isoTime loadedTwoSymbols
           "iron_condor" "2023-01-01").
  left. simpl. intros H.
  repeat (destruct H as [H | H]; [discriminate H |]). exact H.
Defined.

Lemma expSeries_finite (q : Q) : exists e : Q, expSeries (Fin q) = Fin e.
Proof. eexists. reflexivity. Qed.

Lemma calculateOptionPrice_parity_witness :
  exists e : Q,
    expSeries (- dec 5 100 * of_Z 1) = Fin e
    /\ calculateOptionPrice intPow rootTable logSeries expSeries
         (Fin 100) (Fin 100) (of_Z 1) (dec 1 5) CALL
       - calculateOptionPrice intPow rootTable logSeries expSeries
           (Fin 100) (Fin 100) (of_Z 1) (dec 1 5) PUT
       =~ Fin 100 - Fin 100 * Fin e.
Proof.
  eexists. split; [reflexivity |].
  refine (calculateOptionPrice_parity intPow rootTable logSeries expSeries
            expSeries_finite 100 100 (of_Z 1) (dec 1 5) _ _ _ _
            _ _ _ _ _ _ _).
  - reflexivity.
  - intros H. discriminate H.
  - vm_compute. reflexivity.
  - intros H. discriminate H.
  - vm_compute. reflexivity.
  - intros H. discriminate H.
  - reflexivity.
Defined.

End BacktestExtra.

(* ================================================================== *)
(** ** The leg builders on a surface that holds a call *)

Module BuilderProofs.

Import Backtest Examples BacktestProofs BacktestExtra.

Section Builders.

Variable Math_random : nat -> num.

Local Abbreviation buildCashSecuredPut :=
  (Backtest.buildCashSecuredPut Math_random).


(** With a call among the options the straddle builder returns. *)
Lemma buildATMStraddle_returns (this : BacktestEngine)
    (options : list OptionData) (underlying : option string)
    (call : OptionData) :
  In call options -> optionType call = CALL ->
  exists legs, buildATMStraddle this options underlying = Ok legs.
Proof.
  intros Hin Hcall. unfold buildATMStraddle.
  destruct (spotToday this underlying) as [point |]; [| eauto].
  destruct (filter (fun opt => OptionType_eqb (optionType opt) CALL) options)
    as [| c calls] eqn:E.
  - assert (H : In call
                  (filter (fun opt => OptionType_eqb (optionType opt) CALL)
                     options))
      by (apply filter_In; split; [exact Hin | now rewrite Hcall]).
    now rewrite E in H.
  - cbn [reduce bind]. destruct (find _ _); eauto.
Qed.


End Builders.

(** *** The surfaces the engine hands to a builder *)

Section Reachable.

Variable Math_random : nat -> num.
Variable Date_now : nat -> num.
Variable DateTime : string -> num.

Local Abbreviation dteOf := (Backtest.dteOf DateTime).
Local Abbreviation executeStrategy :=
  (Backtest.executeStrategy Math_random Date_now DateTime).

(** The filter on days to expiry looks at the expiry alone: on a paired
    surface it keeps a call whenever it keeps anything. *)
Lemma validOptions_hold_a_call (options : list OptionData) (date : string) :
  pairedSurface options ->
  let validOptions :=
    filter
      (fun opt => (dteOf opt date >=? of_Z 21) && (dteOf opt date <=? of_Z 45))
      options in
  validOptions <> [] ->
  exists call, In call validOptions /\ optionType call = CALL.
Proof.
  intros Hpaired validOptions Hne.
  destruct validOptions as [| v vs] eqn:E; [congruence |].
  assert (Hv : In v validOptions) by (rewrite E; now left).
  destruct (optionType v) eqn:Ht.
  - exists v. split; [now left | exact Ht].
  - subst validOptions. rewrite E in Hv.
    assert (Hv' : In v (filter
                          (fun opt => (dteOf opt date >=? of_Z 21)
                                      && (dteOf opt date <=? of_Z 45))
                          options)) by (rewrite E; now left).
    apply filter_In in Hv'. destruct Hv' as [Hin Hdte].
    destruct (Hpaired v Hin Ht) as (call & Hc & Htc & He & _).
    exists call. split; [| exact Htc].
    rewrite <- E. apply filter_In. split; [exact Hc |].
    unfold Backtest.dteOf in *. now rewrite He.
Qed.

(** So, with every surface of the option data paired and [Math.random]
    in [0, 1), a strategy step returns, the straddle included. *)
Lemma executeStrategy_returns_paired (this : BacktestEngine)
    (strategy date : string) :
  drawsInRange Math_random ->
  (forall key surface,
     JSMap.get (optionData this) key = Some surface -> pairedSurface surface) ->
  exists this', executeStrategy this strategy date = Ok this'.
Proof.
  intros Hdraws Hpaired.
  destruct (String.eqb_spec strategy "atm_straddle") as [-> | Hne];
    [| now apply executeStrategy_returns].
  unfold Backtest.executeStrategy.
  rewrite (surjective_pairing (Backtest.draw Math_random this)).
  set (this0 := snd (Backtest.draw Math_random this)).
  set (key := String.append _ _).
  destruct (JSMap.get (optionData this0) key) as [surface |] eqn:Eget;
    [| eauto].
  destruct surface as [| o os] eqn:Es; [eauto |]. rewrite <- Es in *.
  pose proof (validOptions_hold_a_call surface date
                (Hpaired key surface Eget)) as Hcall.
  cbn zeta in Hcall.
  destruct (filter _ surface) as [| v vs] eqn:Ev; [eauto |].
  destruct Hcall as (call & Hin & Ht); [discriminate |].
  cbn [String.eqb Ascii.eqb Bool.eqb].
  destruct (buildATMStraddle_returns this0 (v :: vs)
              (index (universe (config this0))
                 (JS.floor (fst (Backtest.draw Math_random this)
                            * length_num (universe (config this0)))))
              call Hin Ht) as (legs & Hlegs).
  rewrite Hlegs. cbn [bind]. eauto.
Qed.

End Reachable.


End BuilderProofs.
